(** * Cryptix API service: request handling and logging

    A shallow embedding of [src/Cryptix/api/app.py] and
    [src/Cryptix/api/logger.py].

    The two files are glue between three libraries, so the development has
    the same layers: the Python values the handlers build ([Py]), the
    [datetime] rendering used for timestamps ([Datetime]), the [logging]
    package as [logger.py] configures it ([Logging]), Werkzeug's request,
    response and routing objects ([Werkzeug]), and finally the application
    itself ([App]): its five view functions, its two error handlers and
    Flask's dispatch around them.

    What the process reads from outside is a parameter ([Runtime]): the
    JSON decoder, [int()], [repr()], how far the recursion limit lets
    [repr()] and [json.dumps] descend, the UTC wall clock and the static
    folder.  Library behaviour is that of Flask 3 / Werkzeug 3 on
    CPython 3.11. *)

From Stdlib Require Import PrimFloat Ascii String ZArith List Bool Lia.
From stdpp Require Import gmap strings list option pretty.
Import ListNotations.

Set Warnings "-inexact-float,-register-all".

(** ** Python values *)

Module Py.

(** The values that travel through the handlers: what [json.loads] returns
    and what [jsonify] accepts.  A [dict] keeps insertion order, hence an
    association list; its keys are strings throughout this program. *)
Inductive value : Type :=
| VNone
| VBool (b : bool)
| VInt (z : Z)
| VFloat (f : float)
| VStr (s : string)
| VList (xs : list value)
| VDict (kvs : list (string * value)).

Definition dict := list (string * value).

(** [bool(v)]: the test behind [if not v]. *)
Definition truthy (v : value) : bool :=
  match v with
  | VNone => false
  | VBool b => b
  | VInt z => negb (z =? 0)%Z
  | VFloat f => negb (PrimFloat.eqb f 0%float)
  | VStr s => negb (String.eqb s "")
  | VList xs => match xs with [] => false | _ :: _ => true end
  | VDict kvs => match kvs with [] => false | _ :: _ => true end
  end.

(** How deep the containers of a value are nested: what decides whether
    [repr] and [json.dumps], which recurse on them, stay within the
    interpreter's recursion limit. *)
Fixpoint depth (v : value) : nat :=
  match v with
  | VList xs =>
      S ((fix deepest (l : list value) : nat :=
            match l with
            | [] => O
            | x :: l' => Nat.max (depth x) (deepest l')
            end) xs)
  | VDict kvs =>
      S ((fix deepest (l : list (string * value)) : nat :=
            match l with
            | [] => O
            | kv :: l' => Nat.max (depth (snd kv)) (deepest l')
            end) kvs)
  | _ => O
  end.

(** [d.get(k)] *)
Fixpoint dict_get (k : string) (d : dict) : option value :=
  match d with
  | [] => None
  | (k', v) :: d' => if String.eqb k k' then Some v else dict_get k d'
  end.

(** [d[k] = v]: an existing key keeps its position, a new key goes last. *)
Fixpoint dict_set (k : string) (v : value) (d : dict) : dict :=
  match d with
  | [] => [(k, v)]
  | (k', v') :: d' =>
      if String.eqb k k' then (k', v) :: d' else (k', v') :: dict_set k v d'
  end.

(** [dict(pairs)] *)
Definition dict_of_pairs (kvs : list (string * value)) : dict :=
  fold_left (fun d kv => dict_set (fst kv) (snd kv) d) kvs [].

(** [x if x is not None else None] for an optional string. *)
Definition of_option_str (o : option string) : value :=
  match o with
  | Some s => VStr s
  | None => VNone
  end.

(** [s.startswith(p)] and [s.endswith(p)] *)
Definition startswith (s p : string) : bool := String.prefix p s.

Definition endswith (s p : string) : bool :=
  let n := String.length s in
  let m := String.length p in
  (m <=? n)%nat && String.eqb (String.substring (n - m) m s) p.

End Py.

(** ** [datetime] *)

Module Datetime.

(** A naive [datetime.datetime]. *)
Record datetime : Type := mkDatetime {
  year : Z;
  month : Z;
  day : Z;
  hour : Z;
  minute : Z;
  second : Z;
  microsecond : Z
}.

Definition is_leap (y : Z) : bool :=
  ((y mod 4 =? 0) && (negb (y mod 100 =? 0) || (y mod 400 =? 0)))%Z.

Definition days_in_month (y m : Z) : Z :=
  (if m =? 2 then (if is_leap y then 29 else 28)
   else if (m =? 4) || (m =? 6) || (m =? 9) || (m =? 11) then 30
   else 31)%Z.

(** The ranges the [datetime] constructor enforces (MINYEAR = 1,
    MAXYEAR = 9999). *)
Definition valid (d : datetime) : bool :=
  ((1 <=? year d) && (year d <=? 9999) &&
   (1 <=? month d) && (month d <=? 12) &&
   (1 <=? day d) && (day d <=? days_in_month (year d) (month d)) &&
   (0 <=? hour d) && (hour d <? 24) &&
   (0 <=? minute d) && (minute d <? 60) &&
   (0 <=? second d) && (second d <? 60) &&
   (0 <=? microsecond d) && (microsecond d <? 1000000))%Z.

(** Comparison of naive datetimes is comparison of their field tuples. *)
Definition compare (a b : datetime) : comparison :=
  (match year a ?= year b with
   | Eq => match month a ?= month b with
     | Eq => match day a ?= day b with
       | Eq => match hour a ?= hour b with
         | Eq => match minute a ?= minute b with
           | Eq => match second a ?= second b with
             | Eq => microsecond a ?= microsecond b
             | c => c end
           | c => c end
         | c => c end
       | c => c end
     | c => c end
   | c => c end)%Z.

Definition leb (a b : datetime) : bool :=
  match compare a b with
  | Gt => false
  | _ => true
  end.

Definition digit_char (d : Z) : ascii := ascii_of_N (Z.to_N (48 + d)).

(** ["%0wd" % n] for a field that fits its width. *)
Fixpoint digits (w : nat) (n : Z) : list ascii :=
  match w with
  | O => []
  | S w' => digits w' (n / 10) ++ [digit_char (n mod 10)]
  end.

(** [datetime.isoformat()] with the default separator and
    [timespec='auto']: the fraction is printed only when it is not zero;
    a naive value carries no offset. *)
Definition isoformat (d : datetime) : string :=
  string_of_list_ascii
    (digits 4 (year d) ++ "-"%char :: digits 2 (month d) ++ "-"%char ::
     digits 2 (day d) ++ "T"%char ::
     digits 2 (hour d) ++ ":"%char :: digits 2 (minute d) ++ ":"%char ::
     digits 2 (second d) ++
     (if (microsecond d =? 0)%Z then []
      else "."%char :: digits 6 (microsecond d))).

(** Reading the extended ISO-8601 form [YYYY-MM-DDThh:mm:ss[.ffffff]]
    back. *)
Definition digit_of_ascii (c : ascii) : option Z :=
  let n := Z.of_N (N_of_ascii c) in
  if ((48 <=? n) && (n <=? 57))%Z then Some (n - 48)%Z else None.

Fixpoint number (w : nat) (acc : Z) (cs : list ascii)
  : option (Z * list ascii) :=
  match w with
  | O => Some (acc, cs)
  | S w' =>
      match cs with
      | [] => None
      | c :: cs' =>
          match digit_of_ascii c with
          | Some d => number w' (10 * acc + d)%Z cs'
          | None => None
          end
      end
  end.

Definition expect (c : ascii) (cs : list ascii) : option (list ascii) :=
  match cs with
  | c' :: cs' => if Ascii.eqb c c' then Some cs' else None
  | [] => None
  end.

Definition fraction (cs : list ascii) : option Z :=
  match cs with
  | [] => Some 0%Z
  | _ =>
      cs ← expect "."%char cs;
      '(us, cs) ← number 6 0%Z cs;
      match cs with [] => Some us | _ => None end
  end.

Definition fromisoformat (s : string) : option datetime :=
  '(y, cs) ← number 4 0%Z (list_ascii_of_string s);
  cs ← expect "-"%char cs;
  '(mo, cs) ← number 2 0%Z cs;
  cs ← expect "-"%char cs;
  '(dd, cs) ← number 2 0%Z cs;
  cs ← expect "T"%char cs;
  '(hh, cs) ← number 2 0%Z cs;
  cs ← expect ":"%char cs;
  '(mi, cs) ← number 2 0%Z cs;
  cs ← expect ":"%char cs;
  '(ss, cs) ← number 2 0%Z cs;
  us ← fraction cs;
  let d := mkDatetime y mo dd hh mi ss us in
  if valid d then Some d else None.

End Datetime.

(** ** The [logging] package, as far as [logger.py] uses it *)

Module Logging.

Definition CRITICAL : Z := 50.
Definition ERROR : Z := 40.
Definition WARNING : Z := 30.
Definition INFO : Z := 20.
Definition DEBUG : Z := 10.
Definition NOTSET : Z := 0.

Definition getLevelName (level : Z) : string :=
  (if level =? CRITICAL then "CRITICAL"
   else if level =? ERROR then "ERROR"
   else if level =? WARNING then "WARNING"
   else if level =? INFO then "INFO"
   else if level =? DEBUG then "DEBUG"
   else if level =? NOTSET then "NOTSET"
   else "Level " +:+ pretty level)%Z.

(** A [LogRecord]: its level, the rendered creation time and the message. *)
Record LogRecord : Type := mkRecord {
  levelno : Z;
  asctime : string;
  message : string
}.

(** [logging.Formatter('%(asctime)s - %(levelname)s - %(message)s')] *)
Definition format (r : LogRecord) : string :=
  asctime r +:+ " - " +:+ getLevelName (levelno r) +:+ " - " +:+ message r.

Definition terminator : string := String "010"%char EmptyString.

(** The two handler classes of [logger.py]. *)
Inductive HandlerKind : Type :=
| StreamHandler
| RotatingFileHandler (baseFilename : string) (maxBytes : Z)
    (backupCount : nat).

Record Handler : Type := mkHandler {
  handler_level : Z;
  kind : HandlerKind
}.

Record Logger : Type := mkLogger {
  name : string;
  level : Z;
  handlers : list Handler
}.

(** [setup_logger()]: the logger object it configures.  A handler is
    created at level NOTSET. *)
Definition console_handler : Handler := mkHandler NOTSET StreamHandler.

Definition file_handler : Handler :=
  mkHandler NOTSET (RotatingFileHandler "logs/api.log" 10485760 5).

Definition setup_logger : Logger :=
  {| name := "cryptix_api";
     level := INFO;
     handlers := [console_handler; file_handler] |}.

Definition logger : Logger := setup_logger.

(** Where the records go: the console stream, the active file and the
    rotated files, [rotated !! i] being the content of [api.log.i]. *)
Record Sinks : Type := mkSinks {
  console : string;
  active : string;
  rotated : gmap nat string
}.

(** What [setup_logger()] leaves behind in a log directory as it found
    it: the active file is opened for appending, hence created if it is
    not there. *)
Definition open_sinks (found : option string) (old : gmap nat string)
  : Sinks :=
  mkSinks "" (default "" found) old.

(** [stream.tell()] after [seek(0, 2)]: the size of the active file in
    bytes. *)
Definition tell (s : Sinks) : Z := Z.of_nat (String.length (active s)).

(** A string here is the UTF-8 bytes of a Python [str], and [len()]
    counts characters: the bytes that do not continue a character. *)
Definition is_continuation (c : ascii) : bool :=
  match c with
  | Ascii _ _ _ _ _ _ b6 b7 => b7 && negb b6
  end.

Fixpoint char_length (s : string) : nat :=
  match s with
  | EmptyString => O
  | String c s' =>
      if is_continuation c then char_length s' else S (char_length s')
  end.

(** [RotatingFileHandler.shouldRollover]: the position in bytes plus the
    length of the message in characters is compared with [maxBytes]. *)
Definition shouldRollover (maxBytes : Z) (s : Sinks) (r : LogRecord)
  : bool :=
  if (0 <? maxBytes)%Z then
    let msg := format r +:+ terminator in
    (maxBytes <=? tell s + Z.of_nat (char_length msg))%Z
  else false.

(** One turn of the renaming loop: [api.log.i] becomes [api.log.(i+1)],
    replacing what was there. *)
Definition shift (m : gmap nat string) (i : nat) : gmap nat string :=
  match m !! i with
  | Some f => <[S i := f]> (delete i m)
  | None => m
  end.

(** [range(backupCount - 1, 0, -1)] *)
Definition countdown (backupCount : nat) : list nat :=
  rev (seq 1 (backupCount - 1)).

(** [RotatingFileHandler.doRollover]: without backups the stream is only
    closed and opened again for appending. *)
Definition doRollover (backupCount : nat) (s : Sinks) : Sinks :=
  match backupCount with
  | O => s
  | S _ =>
      let m := fold_left shift (countdown backupCount) (rotated s) in
      mkSinks (console s) "" (<[1%nat := active s]> m)
  end.

(** [Handler.emit] for the two kinds. *)
Definition emit (h : Handler) (r : LogRecord) (s : Sinks) : Sinks :=
  let line := format r +:+ terminator in
  match kind h with
  | StreamHandler => mkSinks (console s +:+ line) (active s) (rotated s)
  | RotatingFileHandler _ maxBytes backupCount =>
      let s' := if shouldRollover maxBytes s r
                then doRollover backupCount s else s in
      mkSinks (console s') (active s' +:+ line) (rotated s')
  end.

(** [Logger.isEnabledFor] with nothing disabled on the manager. *)
Definition isEnabledFor (l : Logger) (lvl : Z) : bool :=
  if (0 >=? lvl)%Z then false else (lvl >=? level l)%Z.

(** [Logger.callHandlers] *)
Definition callHandlers (l : Logger) (r : LogRecord) (s : Sinks) : Sinks :=
  fold_left
    (fun s h => if (levelno r >=? handler_level h)%Z then emit h r s else s)
    (handlers l) s.

(** [Logger.log(level, msg)] *)
Definition log (l : Logger) (r : LogRecord) (s : Sinks) : Sinks :=
  if isEnabledFor l (levelno r) then callHandlers l r s else s.

Definition log_all (l : Logger) (rs : list LogRecord) (s : Sinks) : Sinks :=
  fold_left (fun s r => log l r s) rs s.

End Logging.

(** ** Werkzeug: exceptions, requests, responses, routing *)

Module Werkzeug.
Import Py.

(** The exceptions this program can meet.  Those with a [code] are
    [werkzeug.exceptions.HTTPException]s; [AttributeError], [KeyError]
    and [RecursionError] are the builtins. *)
Inductive exn : Type :=
| AttributeError (msg : string)
| KeyError (key : string)
| RecursionError
| BadRequest
| NotFound
| MethodNotAllowed (valid_methods : gset string)
| UnsupportedMediaType
| RequestedRangeNotSatisfiable
| RequestRedirect (new_path : string)
| InternalServerError (original_exception : option exn).

Definition code (e : exn) : option Z :=
  match e with
  | AttributeError _ => None
  | KeyError _ => None
  | RecursionError => None
  | BadRequest => Some 400%Z
  | NotFound => Some 404%Z
  | MethodNotAllowed _ => Some 405%Z
  | UnsupportedMediaType => Some 415%Z
  | RequestedRangeNotSatisfiable => Some 416%Z
  | RequestRedirect _ => Some 308%Z
  | InternalServerError _ => Some 500%Z
  end.

(** [HTTP_STATUS_CODES] and the classes' default descriptions. *)
Definition name (e : exn) : string :=
  match e with
  | AttributeError _ => "AttributeError"
  | KeyError _ => "KeyError"
  | RecursionError => "RecursionError"
  | BadRequest => "Bad Request"
  | NotFound => "Not Found"
  | MethodNotAllowed _ => "Method Not Allowed"
  | UnsupportedMediaType => "Unsupported Media Type"
  | RequestedRangeNotSatisfiable => "Requested Range Not Satisfiable"
  | RequestRedirect _ => "Permanent Redirect"
  | InternalServerError _ => "Internal Server Error"
  end.

Definition description (e : exn) : string :=
  match e with
  | AttributeError msg => msg
  | KeyError key => "'" +:+ key +:+ "'"
  | RecursionError => "maximum recursion depth exceeded"
  | BadRequest =>
      "The browser (or proxy) sent a request that this server could not understand."
  | NotFound =>
      "The requested URL was not found on the server. If you entered the URL manually please check your spelling and try again."
  | MethodNotAllowed _ => "The method is not allowed for the requested URL."
  | UnsupportedMediaType =>
      "The server does not support the media type transmitted in the request."
  | RequestedRangeNotSatisfiable =>
      "The server cannot provide the requested range."
  | RequestRedirect _ => "None"
  | InternalServerError _ =>
      "The server encountered an internal error and was unable to complete your request. Either the server is overloaded or there is an error in the application."
  end.

(** [str(e)] *)
Definition str (e : exn) : string :=
  match code e with
  | Some c => pretty c +:+ " " +:+ name e +:+ ": " +:+ description e
  | None => description e
  end.

(** The request object a view reads: [request.method], [.url], [.path],
    [.headers] (in iteration order), [.remote_addr], [.mimetype],
    [.get_data()] and [.args] (in query-string order). *)
Record Request : Type := mkRequest {
  method : string;
  url : string;
  path : string;
  headers : list (string * string);
  remote_addr : option string;
  mimetype : string;
  data : string;
  args : list (string * string)
}.

(** What a response carries: a JSON document, the HTML page Werkzeug
    renders for an HTTP exception, the debugger's traceback page, a file,
    or nothing. *)
Inductive Body : Type :=
| Json (v : value)
| ErrorPage (e : exn)
| Traceback (e : exn)
| FileContent (content : string)
| Empty.

Record Response : Type := mkResponse {
  status_code : Z;
  body : Body
}.

(** The response [flask.jsonify] builds around a document it could
    serialize, and the [(response, status)] return form. *)
Definition json_response (v : value) : Response := mkResponse 200 (Json v).

Definition with_status (r : Response) (status : Z) : Response :=
  mkResponse status (body r).

(** [HTTPException.get_response()] *)
Definition get_response (e : exn) : Response :=
  mkResponse (default 500%Z (code e)) (ErrorPage e).

(** [Request.is_json] *)
Definition is_json (r : Request) : bool :=
  let mt := mimetype r in
  String.eqb mt "application/json"
  || (startswith mt "application/" && endswith mt "+json").

(** [MultiDict.get(key)]: the first value of the key. *)
Fixpoint args_get (key : string) (a : list (string * string))
  : option string :=
  match a with
  | [] => None
  | (k, v) :: a' => if String.eqb key k then Some v else args_get key a'
  end.

(** *** Routing *)

(** The two shapes of rule this application has: a literal path, and
    Flask's own [/static/<path:filename>]. *)
Inductive Pattern : Type :=
| Exact (p : string)
| PathUnder (prefix : string) (arg : string).

Record Rule : Type := mkRule {
  pattern : Pattern;
  methods : list string;
  endpoint : string
}.

(** [Rule.__init__]: HEAD goes with GET; Flask adds OPTIONS. *)
Definition route (p : Pattern) (ms : list string) (ep : string) : Rule :=
  mkRule p
    (ms ++ (if existsb (String.eqb "GET") ms then ["HEAD"] else [])
        ++ ["OPTIONS"])
    ep.

(** The [path] converter accepts [[^/].*?]. *)
Definition match_pattern (p : Pattern) (path : string)
  : option (list (string * string)) :=
  match p with
  | Exact s => if String.eqb path s then Some [] else None
  | PathUnder pre arg =>
      if startswith path pre then
        match String.substring (String.length pre)
                (String.length path - String.length pre) path with
        | EmptyString => None
        | String c rest =>
            if Ascii.eqb c "/" then None
            else Some [(arg, String c rest)]
        end
      else None
  end.

(** One pass of the matcher over the rules; a rule whose pattern fits but
    whose methods do not is remembered in [have_match_for]. *)
Fixpoint match_rules (rules : list Rule) (path meth : string)
  (have_match_for : gset string)
  : option (Rule * list (string * string)) * gset string :=
  match rules with
  | [] => (None, have_match_for)
  | r :: rules' =>
      match match_pattern (pattern r) path with
      | Some view_args =>
          if existsb (String.eqb meth) (methods r)
          then (Some (r, view_args), have_match_for)
          else match_rules rules' path meth
                 (have_match_for ∪ list_to_set (methods r))
      | None => match_rules rules' path meth have_match_for
      end
  end.

(** The router's merging of slashes: every run of slashes becomes one. *)
Fixpoint merge_slashes (s : string) : string :=
  match s with
  | EmptyString => EmptyString
  | String c s' =>
      match s' with
      | String c' _ =>
          if Ascii.eqb c "/" && Ascii.eqb c' "/"
          then merge_slashes s'
          else String c (merge_slashes s')
      | EmptyString => String c EmptyString
      end
  end.

Inductive Routing : Type :=
| Matched (r : Rule) (view_args : list (string * string))
| RoutingError (e : exn).

(** [MapAdapter.match] with [merge_slashes] on: a path that fits only
    after merging is redirected; a path no rule fits is 404, unless some
    rule fits it under another method, which is 405. *)
Definition url_match (rules : list Rule) (path meth : string) : Routing :=
  match match_rules rules path meth ∅ with
  | (Some (r, view_args), _) => Matched r view_args
  | (None, have) =>
      let merged := merge_slashes path in
      match match_rules rules merged meth have with
      | (Some _, _) => RoutingError (RequestRedirect merged)
      | (None, have') =>
          if decide (have' = ∅) then RoutingError NotFound
          else RoutingError (MethodNotAllowed have')
      end
  end.

(** What [Response.__call__] sends: the response as it is, without its
    body when the request is a HEAD or the status is 1xx, 204 or 304. *)
Definition bodiless (meth : string) (status : Z) : bool :=
  String.eqb meth "HEAD"
  || ((100 <=? status) && (status <? 200))%Z
  || (status =? 204)%Z || (status =? 304)%Z.

Definition sent (meth : string) (r : Response) : Response :=
  if bodiless meth (status_code r) then mkResponse (status_code r) Empty
  else r.

End Werkzeug.

(** ** The running process: what it reads, what it changes *)

Module Process.
Import Py Datetime Werkzeug.

(** What [json.loads] does with a text: it returns a value, raises
    [ValueError] (a text it cannot decode, among them integers of more
    digits than the interpreter converts), or raises [RecursionError] (a
    text nested deeper than the interpreter's recursion limit allows). *)
Inductive Decoding : Type :=
| Decoded (v : value)
| Undecodable
| TooDeep.

(** How [send_from_directory] answers for a file that exists: with a
    response that holds the file, or the part of it a [Range] header
    asks for, under the status that the range and the conditional
    headers of the request make it; or by raising 416 for a range it
    cannot satisfy. *)
Inductive StaticStatus : Type :=
| Whole
| PartialContent
| NotModified
| PreconditionFailed.

Definition static_status (how : StaticStatus) : Z :=
  match how with
  | Whole => 200
  | PartialContent => 206
  | NotModified => 304
  | PreconditionFailed => 412
  end.

Inductive StaticAnswer : Type :=
| Served (how : StaticStatus) (content : string)
| Unsatisfiable.

(** What the code obtains from outside itself.  [json_loads] is
    [json.loads]; [py_int] answers [None] where [int()] raises
    [ValueError]; [py_repr] is the text [repr()] gives; [repr_room] and
    [dumps_room] say how much deeper than [shallow] a value may be
    nested before [repr()] and [json.dumps] exhaust the recursion limit;
    [utcnow n] is the [n]-th reading of [datetime.utcnow()];
    [static_file] is the static folder as [send_from_directory] sees it
    for a file name and the headers of the request. *)
Record Runtime : Type := mkRuntime {
  json_loads : string -> Decoding;
  py_int : string -> option Z;
  py_repr : value -> string;
  repr_room : nat;
  dumps_room : nat;
  utcnow : nat -> datetime;
  static_file : string -> list (string * string) -> option StaticAnswer
}.

(** A nesting that never exhausts the recursion limit (1000 frames by
    default, a few dozen of them in use when a view runs): nothing
    [app.py] builds from its own literals is nested deeper. *)
Definition shallow : nat := 8.

(** One call on a logger: which logger, the level, the message and the
    exception passed as [exc_info], if any. *)
Record LogCall : Type := mkLogCall {
  logger_name : string;
  call_level : Z;
  msg : string;
  exc_info : option exn
}.

(** The state a request can change: how often the clock was read, and
    the calls made on loggers, oldest first. *)
Record World : Type := mkWorld {
  ticks : nat;
  journal : list LogCall
}.

(** The outcome of running Python code: a value, or a raised exception. *)
Inductive Result (A : Type) : Type :=
| Return (a : A)
| Raise (e : exn).
Arguments Return {A} a.
Arguments Raise {A} e.

Definition Py (A : Type) : Type := World -> Result A * World.

Definition ret {A : Type} (a : A) : Py A := fun w => (Return a, w).

Definition bind {A B : Type} (m : Py A) (f : A -> Py B) : Py B :=
  fun w =>
    match m w with
    | (Return a, w') => f a w'
    | (Raise e, w') => (Raise e, w')
    end.

Definition raise {A : Type} (e : exn) : Py A := fun w => (Raise e, w).

(** [try: m  except Exception as e: h e] *)
Definition try_except {A : Type} (m : Py A) (h : exn -> Py A) : Py A :=
  fun w =>
    match m w with
    | (Return a, w') => (Return a, w')
    | (Raise e, w') => h e w'
    end.

Notation "'let*' x ':=' m 'in' k" := (bind m (fun x => k))
  (at level 10, x name, m at level 100, k at level 200).
Notation "m ';;;' k" := (bind m (fun _ => k))
  (at level 100, k at level 200, right associativity).

(** [datetime.utcnow()] *)
Definition now (R : Runtime) : Py datetime :=
  fun w => (Return (utcnow R (ticks w)), mkWorld (S (ticks w)) (journal w)).

(** A call on the named logger. *)
Definition log_call (c : LogCall) : Py unit :=
  fun w => (Return tt, mkWorld (ticks w) (journal w ++ [c])).

(** [Request.get_json()] with its defaults: a request whose mimetype is
    not JSON is refused with 415; the [ValueError] of a body that does
    not decode is turned into a 400; any other exception of the decoder
    passes through. *)
Definition get_json (R : Runtime) (request : Request) : Py value :=
  if is_json request then
    match json_loads R (data request) with
    | Decoded v => ret v
    | Undecodable => raise BadRequest
    | TooDeep => raise RecursionError
    end
  else raise UnsupportedMediaType.

(** [str(v)] of a container, as an f-string takes it: [repr] recurses on
    the nesting. *)
Definition render (R : Runtime) (v : value) : Py string :=
  if (depth v <=? shallow + repr_room R)%nat then ret (py_repr R v)
  else raise RecursionError.

(** [flask.jsonify(v)]: [json.dumps] recurses on the nesting. *)
Definition jsonify (R : Runtime) (v : value) : Py Response :=
  if (depth v <=? shallow + dumps_room R)%nat then ret (json_response v)
  else raise RecursionError.

(** [request.args.get(key, default=d, type=int)] *)
Definition args_get_int (R : Runtime) (key : string) (d : Z)
  (a : list (string * string)) : Z :=
  match args_get key a with
  | Some s => default d (py_int R s)
  | None => d
  end.

End Process.

(** ** The application: [app.py] *)

Module App.
Import Py Datetime Werkzeug Process.

(** [logger.info], [logger.warning], [logger.error] on the logger of
    [logger.py]. *)
Definition logger_info (m : string) : Py unit :=
  log_call (mkLogCall (Logging.name Logging.logger) Logging.INFO m None).

Definition logger_warning (m : string) : Py unit :=
  log_call (mkLogCall (Logging.name Logging.logger) Logging.WARNING m None).

Definition logger_error (m : string) : Py unit :=
  log_call (mkLogCall (Logging.name Logging.logger) Logging.ERROR m None).

Definition api_docs : value :=
  VDict [
    ("name", VStr "Cryptix API Service");
    ("version", VStr "1.0.0");
    ("description",
     VStr "API service for logging and monitoring Cryptix platform activities");
    ("endpoints", VDict [
      ("/", VDict [
        ("methods", VList [VStr "GET"]);
        ("description", VStr "This documentation")]);
      ("/health", VDict [
        ("methods", VList [VStr "GET"]);
        ("description", VStr "Health check endpoint");
        ("response", VDict [
          ("status", VStr "String - current health status");
          ("timestamp", VStr "ISO 8601 timestamp")])]);
      ("/log", VDict [
        ("methods", VList [VStr "GET"; VStr "POST"]);
        ("description", VStr "Request logging endpoint");
        ("response", VDict [
          ("message", VStr "String - confirmation message");
          ("request_details", VDict [
            ("method", VStr "HTTP method used");
            ("url", VStr "Request URL");
            ("headers", VStr "Request headers");
            ("timestamp", VStr "ISO 8601 timestamp");
            ("remote_addr", VStr "Client IP address");
            ("body", VStr "Request body (POST requests only)")])])]);
      ("/fraud", VDict [
        ("methods", VList [VStr "POST"]);
        ("description", VStr "Analyze a transaction for fraud detection");
        ("request", VDict [
          ("transaction", VDict [
            ("value", VStr "Transaction value");
            ("timestamp", VStr "Transaction timestamp");
            ("from", VStr "Sender address");
            ("to", VStr "Receiver address")])]);
        ("response", VDict [
          ("analysis", VStr "Object containing fraud analysis results")])]);
      ("/recommendations", VDict [
        ("methods", VList [VStr "GET"]);
        ("description",
         VStr "Get personalized event recommendations for a user");
        ("request", VDict [
          ("userId", VStr "User identifier");
          ("limit", VStr "Optional limit for number of recommendations")]);
        ("response", VDict [
          ("recommendations", VStr "Array of recommended events")])])])].

(** [@app.route('/')] *)
Definition index (R : Runtime) : Py Response :=
  logger_info "API documentation accessed" ;;;
  jsonify R api_docs.

(** [@app.errorhandler(404)] *)
Definition not_found_error (R : Runtime) (request : Request) (error : exn)
  : Py Response :=
  let error_message :=
    VDict [("error", VStr "Resource not found"); ("status_code", VInt 404)] in
  logger_warning ("404 Error: " +:+ url request) ;;;
  let* response := jsonify R error_message in
  ret (with_status response 404).

(** [@app.errorhandler(500)] *)
Definition internal_error (R : Runtime) (error : exn) : Py Response :=
  let error_message :=
    VDict [("error", VStr "Internal server error");
           ("status_code", VInt 500)] in
  logger_error ("500 Error: " +:+ str error) ;;;
  let* response := jsonify R error_message in
  ret (with_status response 500).

(** [@app.route('/health')] *)
Definition health_check (R : Runtime) : Py Response :=
  logger_info "Health check endpoint accessed" ;;;
  let* t := now R in
  jsonify R (VDict [("status", VStr "healthy");
                    ("timestamp", VStr (isoformat t))]).

Definition placeholder : string := "Could not parse JSON body".

(** [dict(request.headers)]: the names in the order they are met, each
    with what [request.headers[name]] gives, the first value of the
    name. *)
Definition dict_of_headers (hs : list (string * string)) : dict :=
  dict_of_pairs
    (map (fun kv => (fst kv, of_option_str (args_get (fst kv) hs))) hs).

(** [@app.route('/log', methods=['GET', 'POST'])]: the details are
    formatted for the log and then serialized for the response, both
    after the [try] block. *)
Definition log_request (R : Runtime) (request : Request) : Py Response :=
  let* t := now R in
  let request_details : dict :=
    [("method", VStr (method request));
     ("url", VStr (url request));
     ("headers", VDict (dict_of_headers (headers request)));
     ("timestamp", VStr (isoformat t));
     ("remote_addr", of_option_str (remote_addr request))] in
  let* request_details :=
    (if String.eqb (method request) "POST" then
       try_except
         (let* parsed := get_json R request in
          ret (dict_set "body" parsed request_details))
         (fun e => ret (dict_set "body" (VStr placeholder) request_details))
     else ret request_details) in
  let* details_text := render R (VDict request_details) in
  logger_info ("Request logged: " +:+ details_text) ;;;
  jsonify R (VDict [("message", VStr "Request logged successfully");
                    ("request_details", VDict request_details)]).

(** [type(v).__name__] *)
Definition type_name (v : value) : string :=
  match v with
  | VNone => "NoneType"
  | VBool _ => "bool"
  | VInt _ => "int"
  | VFloat _ => "float"
  | VStr _ => "str"
  | VList _ => "list"
  | VDict _ => "dict"
  end.

(** [data.get(key)]: only a [dict] has the method. *)
Definition method_get (data : value) (key : string) : Py value :=
  match data with
  | VDict d => ret (default VNone (dict_get key d))
  | _ =>
      raise (AttributeError
               ("'" +:+ type_name data +:+ "' object has no attribute 'get'"))
  end.

(** [@app.route('/fraud', methods=['POST'])] *)
Definition analyze_fraud (R : Runtime) (request : Request) : Py Response :=
  let* data := get_json R request in
  let* transaction := method_get data "transaction" in
  if negb (truthy transaction) then
    let* response :=
      jsonify R (VDict [("error", VStr "Transaction data is required")]) in
    ret (with_status response 400)
  else
    let analysis :=
      VDict [("riskScore", VFloat 0.85); ("isFraudulent", VBool true)] in
    logger_info "Fraud analysis completed" ;;;
    jsonify R (VDict [("analysis", analysis)]).

(** [@app.route('/recommendations')] *)
Definition get_recommendations (R : Runtime) (request : Request)
  : Py Response :=
  let user_id := args_get "userId" (args request) in
  let limit := args_get_int R "limit" 10 (args request) in
  if negb (truthy (of_option_str user_id)) then
    let* response :=
      jsonify R (VDict [("error", VStr "User ID is required")]) in
    ret (with_status response 400)
  else
    let recommendations :=
      VList [VDict [("eventId", VInt 1); ("eventName", VStr "Concert A")];
             VDict [("eventId", VInt 2); ("eventName", VStr "Festival B")]] in
    logger_info "Recommendations retrieved" ;;;
    jsonify R (VDict [("recommendations", recommendations)]).

(** *** Flask around the views *)

(** [Flask(__name__)] registers the static rule, then [app.py] its five
    routes, in this order. *)
Definition url_map : list Rule :=
  [ route (PathUnder "/static/" "filename") ["GET"] "static";
    route (Exact "/") ["GET"] "index";
    route (Exact "/health") ["GET"] "health_check";
    route (Exact "/log") ["GET"; "POST"] "log_request";
    route (Exact "/fraud") ["POST"] "analyze_fraud";
    route (Exact "/recommendations") ["GET"] "get_recommendations" ].

(** [Flask.send_static_file]: [send_from_directory] answers 404 for a
    file it does not find, and otherwise as the conditional and range
    headers of the request ask. *)
Definition send_static_file (R : Runtime) (request : Request)
  (view_args : list (string * string)) : Py Response :=
  match args_get "filename" view_args with
  | Some filename =>
      match static_file R filename (headers request) with
      | Some (Served how content) =>
          ret (mkResponse (static_status how) (FileContent content))
      | Some Unsatisfiable => raise RequestedRangeNotSatisfiable
      | None => raise NotFound
      end
  | None => raise NotFound
  end.

(** The lookup in [app.view_functions] and the call of the view. *)
Definition view_functions (R : Runtime) (request : Request)
  (endpoint : string) (view_args : list (string * string)) : Py Response :=
  if String.eqb endpoint "static" then send_static_file R request view_args
  else if String.eqb endpoint "index" then index R
  else if String.eqb endpoint "health_check" then health_check R
  else if String.eqb endpoint "log_request" then log_request R request
  else if String.eqb endpoint "analyze_fraud" then analyze_fraud R request
  else if String.eqb endpoint "get_recommendations"
       then get_recommendations R request
  else raise (KeyError endpoint).

(** [Flask.make_default_options_response] (its [Allow] header is not
    kept). *)
Definition make_default_options_response : Response := mkResponse 200 Empty.

(** [Flask.dispatch_request] *)
Definition dispatch_request (R : Runtime) (request : Request)
  : Py Response :=
  match url_match url_map (path request) (method request) with
  | RoutingError e => raise e
  | Matched rule view_args =>
      if String.eqb (method request) "OPTIONS"
      then ret make_default_options_response
      else view_functions R request (endpoint rule) view_args
  end.

(** The handlers [app.py] registers, by status code. *)
Definition find_error_handler (R : Runtime) (request : Request) (e : exn)
  : option (Py Response) :=
  match code e with
  | Some 404%Z => Some (not_found_error R request e)
  | Some 500%Z => Some (internal_error R e)
  | _ => None
  end.

(** [Flask.handle_http_exception]: a routing redirect is returned as it
    is; another HTTP exception goes to its handler, or is itself the
    response. *)
Definition handle_http_exception (R : Runtime) (request : Request) (e : exn)
  : Py Response :=
  match e with
  | RequestRedirect _ => ret (get_response e)
  | _ =>
      match find_error_handler R request e with
      | Some handler => handler
      | None => ret (get_response e)
      end
  end.

(** [Flask.handle_user_exception]: no handler is registered for a class
    that is not an HTTP exception, so such an exception is raised again. *)
Definition handle_user_exception (R : Runtime) (request : Request) (e : exn)
  : Py Response :=
  match code e with
  | Some _ => handle_http_exception R request e
  | None => raise e
  end.

(** [Flask.full_dispatch_request] *)
Definition full_dispatch_request (R : Runtime) (request : Request)
  : Py Response :=
  try_except (dispatch_request R request) (handle_user_exception R request).

(** The configuration that matters here: [app.debug]. *)
Record Config : Type := mkConfig {
  debug : bool
}.

(** [Flask.log_exception] writes to the application's own logger. *)
Definition log_exception (request : Request) (e : exn) : Py unit :=
  log_call
    (mkLogCall "app" Logging.ERROR
       ("Exception on " +:+ path request +:+ " [" +:+ method request +:+ "]")
       (Some e)).

(** [Flask.handle_exception]: with [PROPAGATE_EXCEPTIONS] unset, the
    exception is raised again when [app.debug] is on; otherwise it is
    logged and the 500 handler answers. *)
Definition handle_exception (R : Runtime) (cfg : Config) (request : Request)
  (e : exn) : Py Response :=
  if debug cfg then raise e
  else
    log_exception request e ;;;
    let server_error := InternalServerError (Some e) in
    match find_error_handler R request server_error with
    | Some handler => handler
    | None => ret (get_response server_error)
    end.

(** [Flask.wsgi_app]: the response of the dispatch, or of
    [handle_exception], is then called to send it, which for a HEAD
    request leaves the body out. *)
Definition wsgi_app (R : Runtime) (cfg : Config) (request : Request)
  : Py Response :=
  let* response :=
    try_except (full_dispatch_request R request)
      (handle_exception R cfg request) in
  ret (sent (method request) response).

(** [app.run(host='0.0.0.0', port=5000, debug=True)]: the development
    server, whose debugger answers an exception that leaves the
    application with its traceback page. *)
Definition main_config : Config := mkConfig true.

Definition startup : Py unit := logger_info "Starting Flask API server...".

Definition run (R : Runtime) (request : Request) (w : World)
  : Response * World :=
  match wsgi_app R main_config request w with
  | (Return r, w') => (r, w')
  | (Raise e, w') => (mkResponse 500 (Traceback e), w')
  end.

(** Requests served one after the other by the same process. *)
Fixpoint serve_all (R : Runtime) (cfg : Config) (requests : list Request)
  (w : World) : list (Result Response) * World :=
  match requests with
  | [] => ([], w)
  | request :: rest =>
      let '(r, w') := wsgi_app R cfg request w in
      let '(rs, w'') := serve_all R cfg rest w' in
      (r :: rs, w'')
  end.

(** Reading a JSON response. *)
Definition json_field (key : string) (r : Response) : option value :=
  match body r with
  | Json (VDict d) => dict_get key d
  | _ => None
  end.

Definition request_details_field (key : string) (r : Response)
  : option value :=
  match json_field "request_details" r with
  | Some (VDict d) => dict_get key d
  | _ => None
  end.

End App.

(** ** Concrete runtimes and requests for the examples *)

Module Fixture.
Import Py Datetime Werkzeug Process App.

Definition dq : string := String "034"%char EmptyString.

Definition quoted (s : string) : string := dq +:+ s +:+ dq.

(** The body of the spec's example call of [/fraud]. *)
Definition transaction_text : string :=
  "{" +:+ quoted "transaction" +:+ ": {" +:+ quoted "value" +:+ ": 100, "
  +:+ quoted "timestamp" +:+ ": " +:+ quoted "2024-01-01T00:00:00Z" +:+ ", "
  +:+ quoted "from" +:+ ": " +:+ quoted "A" +:+ ", "
  +:+ quoted "to" +:+ ": " +:+ quoted "B" +:+ "}}".

Definition transaction_value : value :=
  VDict [("transaction",
          VDict [("value", VInt 100);
                 ("timestamp", VStr "2024-01-01T00:00:00Z");
                 ("from", VStr "A");
                 ("to", VStr "B")])].

Definition other_transaction_text : string :=
  "{" +:+ quoted "transaction" +:+ ": 7}".

(** The empty list inside [n] further lists, and its text. *)
Fixpoint nested (n : nat) : value :=
  match n with
  | O => VList []
  | S n' => VList [nested n']
  end.

Fixpoint brackets (n : nat) (inner : string) : string :=
  match n with
  | O => inner
  | S n' => "[" +:+ brackets n' inner +:+ "]"
  end.

Definition nested_text (n : nat) : string := brackets n "[]".

(** A transaction nested deeper than the decoder of this runtime goes. *)
Definition deep_transaction_text : string :=
  "{" +:+ quoted "transaction" +:+ ": " +:+ brackets 41 "1" +:+ "}".

(** An integer of 5000 digits: more than [int()] converts from text. *)
Definition long_integer_text : string :=
  string_of_list_ascii (repeat "1"%char 5000).

(** [json.loads] on the documents the examples send.  [NaN] is decoded
    although it is no JSON; the integer of 5000 digits is JSON and is
    refused; of the nested documents, those of 9, 10 and 12 levels are
    decoded and that of 40 levels exhausts the recursion limit of this
    runtime.  Every other text is taken as undecodable, which is right
    for the one the examples use ([not json]). *)
Definition loads (s : string) : Decoding :=
  if String.eqb s "{}" then Decoded (VDict [])
  else if String.eqb s "[]" then Decoded (VList [])
  else if String.eqb s "null" then Decoded VNone
  else if String.eqb s "NaN" then Decoded (VFloat nan)
  else if String.eqb s transaction_text then Decoded transaction_value
  else if String.eqb s other_transaction_text
       then Decoded (VDict [("transaction", VInt 7)])
  else if String.eqb s (nested_text 9) then Decoded (nested 9)
  else if String.eqb s (nested_text 10) then Decoded (nested 10)
  else if String.eqb s (nested_text 12) then Decoded (nested 12)
  else if String.eqb s (nested_text 40) then TooDeep
  else if String.eqb s deep_transaction_text then TooDeep
  else Undecodable.

(** [int()] on plain digit strings. *)
Fixpoint int_digits (acc : Z) (cs : list ascii) : option Z :=
  match cs with
  | [] => Some acc
  | c :: cs' =>
      match digit_of_ascii c with
      | Some d => int_digits (10 * acc + d)%Z cs'
      | None => None
      end
  end.

Definition int_of_text (s : string) : option Z :=
  match list_ascii_of_string s with
  | [] => None
  | cs => int_digits 0%Z cs
  end.

(** A stand-in for [repr()]: only the type of the value. *)
Definition repr (v : value) : string := "<" +:+ type_name v +:+ ">".

(** A clock that advances by a second per reading during the first
    minute of 2025-03-08 12:00 and then stands still. *)
Definition clock (n : nat) : datetime :=
  mkDatetime 2025 3 8 12 0 (Z.min 59 (Z.of_nat n)) 0.

(** A clock that is set back by a second after its first reading. *)
Definition stepped_back_clock (n : nat) : datetime :=
  match n with
  | O => mkDatetime 2025 3 8 12 0 1 0
  | S _ => mkDatetime 2025 3 8 12 0 0 0
  end.

(** The repository ships no static folder. *)
Definition no_static (filename : string) (hs : list (string * string))
  : option StaticAnswer := None.

(** A runtime whose recursion limit lets [repr] go five levels and
    [json.dumps] four levels beyond [shallow]. *)
Definition runtime : Runtime :=
  mkRuntime loads int_of_text repr 5 4 clock no_static.

Definition runtime_stepped_back : Runtime :=
  mkRuntime loads int_of_text repr 5 4 stepped_back_clock no_static.

Definition fresh : World := mkWorld 0 [].

Definition get (p : string) (a : list (string * string)) : Request :=
  mkRequest "GET" ("http://localhost:5000" +:+ p) p
    [("Host", "localhost:5000")] (Some "127.0.0.1") "" "" a.

Definition head (p : string) : Request :=
  mkRequest "HEAD" ("http://localhost:5000" +:+ p) p
    [("Host", "localhost:5000")] (Some "127.0.0.1") "" "" [].

Definition post (p mt body : string) : Request :=
  mkRequest "POST" ("http://localhost:5000" +:+ p) p
    [("Host", "localhost:5000"); ("Content-Type", mt)]
    (Some "127.0.0.1") mt body [].

Definition production : Config := mkConfig false.

End Fixture.

(** ** JSON texts *)

Module JsonText.

(** The grammar of RFC 8259, as a recogniser over the bytes of a text.
    Bytes above 127 inside a string are taken as they come: whether they
    are well-formed UTF-8 is not looked at. *)

Definition is_ws (c : ascii) : bool :=
  Ascii.eqb c " " || Ascii.eqb c "009" || Ascii.eqb c "010"
  || Ascii.eqb c "013".

Fixpoint skip_ws (cs : list ascii) : list ascii :=
  match cs with
  | c :: cs' => if is_ws c then skip_ws cs' else cs
  | [] => []
  end.

Definition between (lo hi : N) (c : ascii) : bool :=
  ((lo <=? N_of_ascii c) && (N_of_ascii c <=? hi))%N.

Definition is_digit (c : ascii) : bool := between 48 57 c.

Definition is_hex (c : ascii) : bool :=
  is_digit c || between 65 70 c || between 97 102 c.

Fixpoint skip_digits (cs : list ascii) : list ascii :=
  match cs with
  | c :: cs' => if is_digit c then skip_digits cs' else cs
  | [] => []
  end.

(** [1*DIGIT] *)
Definition digits1 (cs : list ascii) : option (list ascii) :=
  match cs with
  | c :: cs' => if is_digit c then Some (skip_digits cs') else None
  | [] => None
  end.

(** [int = zero / ( digit1-9 *DIGIT )] *)
Definition json_int (cs : list ascii) : option (list ascii) :=
  match cs with
  | c :: cs' =>
      if Ascii.eqb c "0" then Some cs'
      else if is_digit c then Some (skip_digits cs')
      else None
  | [] => None
  end.

(** [frac = decimal-point 1*DIGIT], optional *)
Definition json_frac (cs : list ascii) : option (list ascii) :=
  match cs with
  | c :: cs' => if Ascii.eqb c "." then digits1 cs' else Some cs
  | [] => Some cs
  end.

(** [exp = e [ minus / plus ] 1*DIGIT], optional *)
Definition json_exp (cs : list ascii) : option (list ascii) :=
  match cs with
  | c :: cs' =>
      if Ascii.eqb c "e" || Ascii.eqb c "E" then
        match cs' with
        | s :: cs'' =>
            if Ascii.eqb s "+" || Ascii.eqb s "-" then digits1 cs''
            else digits1 cs'
        | [] => None
        end
      else Some cs
  | [] => Some cs
  end.

(** [number = [ minus ] int [ frac ] [ exp ]] *)
Definition json_number (cs : list ascii) : option (list ascii) :=
  let unsigned :=
    match cs with
    | c :: cs' => if Ascii.eqb c "-" then cs' else cs
    | [] => cs
    end in
  cs ← json_int unsigned;
  cs ← json_frac cs;
  json_exp cs.

Definition is_escape (c : ascii) : bool :=
  Ascii.eqb c "034" || Ascii.eqb c "\" || Ascii.eqb c "/"
  || Ascii.eqb c "b" || Ascii.eqb c "f" || Ascii.eqb c "n"
  || Ascii.eqb c "r" || Ascii.eqb c "t".

(** What follows the opening quotation mark of a string, up to and
    including the closing one. *)
Fixpoint json_chars (cs : list ascii) : option (list ascii) :=
  match cs with
  | [] => None
  | c :: cs' =>
      if Ascii.eqb c "034" then Some cs'
      else if Ascii.eqb c "\" then
        match cs' with
        | e :: cs'' =>
            if is_escape e then json_chars cs''
            else if Ascii.eqb e "u" then
              match cs'' with
              | h1 :: h2 :: h3 :: h4 :: cs''' =>
                  if is_hex h1 && is_hex h2 && is_hex h3 && is_hex h4
                  then json_chars cs'''
                  else None
              | _ => None
              end
            else None
        | [] => None
        end
      else if (N_of_ascii c <? 32)%N then None
      else json_chars cs'
  end.

Fixpoint strip_prefix (p cs : list ascii) : option (list ascii) :=
  match p with
  | [] => Some cs
  | a :: p' =>
      match cs with
      | c :: cs' => if Ascii.eqb a c then strip_prefix p' cs' else None
      | [] => None
      end
  end.

(** [value], the elements of an array after its opening bracket and the
    members of an object after its opening brace; each returns what
    follows the piece it recognised.  The fuel bounds the number of
    pieces, which the length of the text bounds in turn. *)
Fixpoint json_value (fuel : nat) (cs : list ascii) : option (list ascii) :=
  match fuel with
  | O => None
  | S fuel' =>
      match cs with
      | [] => None
      | c :: cs' =>
          if Ascii.eqb c "{" then
            match skip_ws cs' with
            | c' :: rest =>
                if Ascii.eqb c' "}" then Some rest
                else json_members fuel' (c' :: rest)
            | [] => None
            end
          else if Ascii.eqb c "[" then
            match skip_ws cs' with
            | c' :: rest =>
                if Ascii.eqb c' "]" then Some rest
                else json_elements fuel' (c' :: rest)
            | [] => None
            end
          else if Ascii.eqb c "034" then json_chars cs'
          else if Ascii.eqb c "t"
               then strip_prefix (list_ascii_of_string "rue") cs'
          else if Ascii.eqb c "f"
               then strip_prefix (list_ascii_of_string "alse") cs'
          else if Ascii.eqb c "n"
               then strip_prefix (list_ascii_of_string "ull") cs'
          else json_number cs
      end
  end
with json_elements (fuel : nat) (cs : list ascii) : option (list ascii) :=
  match fuel with
  | O => None
  | S fuel' =>
      match json_value fuel' cs with
      | Some rest =>
          match skip_ws rest with
          | c :: rest' =>
              if Ascii.eqb c "," then json_elements fuel' (skip_ws rest')
              else if Ascii.eqb c "]" then Some rest'
              else None
          | [] => None
          end
      | None => None
      end
  end
with json_members (fuel : nat) (cs : list ascii) : option (list ascii) :=
  match fuel with
  | O => None
  | S fuel' =>
      match cs with
      | c :: cs' =>
          if Ascii.eqb c "034" then
            match json_chars cs' with
            | Some rest =>
                match skip_ws rest with
                | c1 :: rest1 =>
                    if Ascii.eqb c1 ":" then
                      match json_value fuel' (skip_ws rest1) with
                      | Some rest2 =>
                          match skip_ws rest2 with
                          | c2 :: rest3 =>
                              if Ascii.eqb c2 ","
                              then json_members fuel' (skip_ws rest3)
                              else if Ascii.eqb c2 "}" then Some rest3
                              else None
                          | [] => None
                          end
                      | None => None
                      end
                    else None
                | [] => None
                end
            | None => None
            end
          else None
      | [] => None
      end
  end.

(** [JSON-text = ws value ws] *)
Definition valid_json (s : string) : bool :=
  let cs := list_ascii_of_string s in
  match json_value (2 * length cs + 2) (skip_ws cs) with
  | Some rest =>
      match skip_ws rest with
      | [] => true
      | _ :: _ => false
      end
  | None => false
  end.

End JsonText.

(** ** Vocabulary of the specification *)

Module Spec.
Import Py Datetime Werkzeug Process App.

(** The JSON body of a request, as the framework hands it to a view
    ([request.json]): present when the mimetype is a JSON one and
    [json.loads] returns a value for the data. *)
Definition json_body (R : Runtime) (q : Request) : option value :=
  if is_json q then
    match json_loads R (data q) with
    | Decoded v => Some v
    | Undecodable | TooDeep => None
    end
  else None.

(** The body is a JSON object whose [transaction] entry is not falsy. *)
Definition has_transaction (v : value) : bool :=
  match v with
  | VDict d =>
      match dict_get "transaction" d with
      | Some t => truthy t
      | None => false
      end
  | _ => false
  end.

(** Some rule's pattern accepts the path, whatever its methods. *)
Definition fits (rules : list Rule) (p : string) : bool :=
  existsb
    (fun r => match match_pattern (pattern r) p with
              | Some _ => true
              | None => false
              end)
    rules.

(** Some rule accepts the path under the method. *)
Definition routed (rules : list Rule) (p m : string) : bool :=
  existsb
    (fun r => match match_pattern (pattern r) p with
              | Some _ => existsb (String.eqb m) (methods r)
              | None => false
              end)
    rules.

Definition not_found_body : value :=
  VDict [("error", VStr "Resource not found"); ("status_code", VInt 404)].

Definition internal_error_body : value :=
  VDict [("error", VStr "Internal server error"); ("status_code", VInt 500)].

Definition analysis_body : value :=
  VDict [("analysis",
          VDict [("riskScore", VFloat 0.85); ("isFraudulent", VBool true)])].

(** The time a health response reports, read back from its timestamp. *)
Definition reported_time (r : Response) : option datetime :=
  match json_field "timestamp" r with
  | Some (VStr s) => fromisoformat s
  | _ => None
  end.

Definition is_health_check (q : Request) : Prop :=
  method q = "GET" /\ path q = "/health".

(** The clock never runs backwards between two readings. *)
Definition clock_monotone (R : Runtime) : Prop :=
  forall i j, i <= j -> Datetime.leb (utcnow R i) (utcnow R j) = true.

(** Every reading is a datetime the [datetime] type can hold. *)
Definition clock_valid (R : Runtime) : Prop :=
  forall n, Datetime.valid (utcnow R n) = true.

(** The sentence "a POST to [/log] whose body is not valid JSON gets
    status 200 and the placeholder as [request_details.body]", read for
    the process [R]. *)
Definition invalid_json_gets_placeholder (R : Runtime) : Prop :=
  forall (cfg : Config) (q : Request) (w : World),
    method q = "POST" -> path q = "/log" ->
    JsonText.valid_json (data q) = false ->
    exists resp w',
      wsgi_app R cfg q w = (Return resp, w')
      /\ status_code resp = 200%Z
      /\ request_details_field "body" resp = Some (VStr placeholder).

(** The sentence "a POST to [/log] with a well-formed JSON body gets that
    body, parsed, back under [request_details.body]", read for the
    process [R] and the requests in [scope]. *)
Definition echoes_wellformed_body (R : Runtime) (scope : Request -> Prop)
  : Prop :=
  forall (cfg : Config) (q : Request) (w : World),
    method q = "POST" -> path q = "/log" ->
    JsonText.valid_json (data q) = true -> scope q ->
    exists resp w' v,
      wsgi_app R cfg q w = (Return resp, w')
      /\ json_loads R (data q) = Decoded v
      /\ request_details_field "body" resp = Some v.

(** The sentence "the request gets the JSON 404 and a warning with its
    URL is logged", read for the process [R] and the requests in
    [scope]. *)
Definition answered_not_found (R : Runtime) (scope : Request -> Prop)
  : Prop :=
  forall (cfg : Config) (q : Request) (w : World),
    scope q ->
    wsgi_app R cfg q w
    = (Return (mkResponse 404 (Json not_found_body)),
       mkWorld (ticks w)
         (journal w ++
          [mkLogCall "cryptix_api" Logging.WARNING
             ("404 Error: " +:+ url q) None])).

(** The path and the method of the request match no registered route. *)
Definition unrouted (q : Request) : Prop :=
  routed url_map (path q) (method q) = false.

(** The path of the request fits the pattern of no registered route, as
    sent and after the router has merged its slashes. *)
Definition unfit (q : Request) : Prop :=
  fits url_map (path q) = false
  /\ fits url_map (merge_slashes (path q)) = false.

(** The sentence "a POST to [/fraud] whose body holds a [transaction]
    that is not falsy gets status 200 and the fixed analysis", read for
    the process [R], the body being what [json.loads] makes of the data
    whatever the mimetype. *)
Definition analysis_for_every_transaction (R : Runtime) : Prop :=
  forall (cfg : Config) (q : Request) (w : World) (v : value),
    method q = "POST" -> path q = "/fraud" ->
    json_loads R (data q) = Decoded v -> has_transaction v = true ->
    fst (wsgi_app R cfg q w) = Return (mkResponse 200 (Json analysis_body)).

(** The response of [/health] when the clock is read for the [t]-th time. *)
Definition health_response (R : Runtime) (t : nat) : Response :=
  json_response (VDict [("status", VStr "healthy");
                        ("timestamp", VStr (isoformat (utcnow R t)))]).

(** What is asked of two health checks among the requests a process
    serves, the [i]-th and the [j]-th with [i] before [j]: both report
    ["healthy"] and a timestamp that reads back as a datetime, and the
    first does not report a later time than the second. *)
Definition health_checks_in_order (R : Runtime) (cfg : Config)
  (requests : list Request) (w : World) (i j : nat) : Prop :=
  exists ri rj di dj,
    fst (serve_all R cfg requests w) !! i = Some (Return ri)
    /\ fst (serve_all R cfg requests w) !! j = Some (Return rj)
    /\ json_field "status" ri = Some (VStr "healthy")
    /\ json_field "status" rj = Some (VStr "healthy")
    /\ reported_time ri = Some di
    /\ reported_time rj = Some dj
    /\ Datetime.leb di dj = true.

(** The sentence "the timestamps of successive health checks never
    decrease", read for every clock the [datetime] type allows. *)
Definition health_timestamps_never_decrease : Prop :=
  forall (R : Runtime) (cfg : Config) (requests : list Request) (w : World)
         (i j : nat) (qi qj : Request),
    clock_valid R ->
    i <= j -> requests !! i = Some qi -> requests !! j = Some qj ->
    is_health_check qi -> is_health_check qj ->
    health_checks_in_order R cfg requests w i j.

(** The three ways routing fails. *)
Inductive routing_failure : exn -> Prop :=
| failure_not_found : routing_failure NotFound
| failure_method (have : gset string) :
    routing_failure (MethodNotAllowed have)
| failure_redirect (p : string) : routing_failure (RequestRedirect p).

(** A computation that does not turn the count of clock readings back. *)
Definition steady {A : Type} (m : Py A) : Prop :=
  forall w, ticks w <= ticks (snd (m w)).

End Spec.

(** ** Vocabulary for the log files *)

Module LoggingSpec.
Import Logging.

(** The rotated files carry no index outside [1 .. n]. *)
Definition within (n : nat) (m : gmap nat string) : Prop :=
  map_Forall (fun i _ => 1 <= i <= n) m.

#[global] Instance within_dec (n : nat) (m : gmap nat string) :
  Decision (within n m).
Proof. unfold within. apply _. Defined.

(** The renaming loop, from index [n] down to 1. *)
Definition renamed (n : nat) (m : gmap nat string) : gmap nat string :=
  fold_left shift (rev (seq 1 n)) m.

(** The line a record is written as, and its length in bytes. *)
Definition line (r : LogRecord) : string := format r +:+ terminator.

Definition line_length (r : LogRecord) : Z :=
  Z.of_nat (String.length (line r)).

(** A log directory whose five backups all exist, and two records. *)
Definition full_sinks : Sinks :=
  mkSinks "" "newest"
    (list_to_map [(1, "one"); (2, "two"); (3, "three"); (4, "four");
                  (5, "oldest")]).

Definition debug_record : LogRecord :=
  mkRecord DEBUG "12:00:00,000" "noise".

Definition info_record : LogRecord :=
  mkRecord INFO "12:00:01,000" "Health check endpoint accessed".

(** A log file of [n] bytes, and a record whose message is one
    character of two bytes (U+00E9 in UTF-8). *)
Definition file_of_size (n : N) : string :=
  string_of_list_ascii (repeat "a"%char (N.to_nat n)).

Definition accented_record : LogRecord :=
  mkRecord INFO "12:00:02,000" (String "195" (String "169" EmptyString)).

(** The sentence "the file handler rolls over exactly when the active
    log file reaches 10 MiB", read in two ways: for the file as it is
    when the record arrives, and for the file as it would be with the
    record. *)
Definition rolls_over_when_full : Prop :=
  forall (r : LogRecord) (s : Sinks),
    shouldRollover 10485760 s r = true
    <-> (10485760 <= Z.of_nat (String.length (active s)))%Z.

Definition rolls_over_when_filled : Prop :=
  forall (r : LogRecord) (s : Sinks),
    shouldRollover 10485760 s r = true
    <-> (10485760 <= Z.of_nat (String.length (active s +:+ line r)))%Z.

End LoggingSpec.

(** ** Everything a request can lead to *)

Module Behaviour.
Import Py Datetime Werkzeug Process App Spec.

Definition info (m : string) : LogCall :=
  mkLogCall "cryptix_api" Logging.INFO m None.

Definition warning (m : string) : LogCall :=
  mkLogCall "cryptix_api" Logging.WARNING m None.

(** The world after further calls on loggers. *)
Definition logged (w : World) (calls : list LogCall) : World :=
  mkWorld (ticks w) (journal w ++ calls).

(** The world after one more reading of the clock. *)
Definition ticked (w : World) : World := mkWorld (S (ticks w)) (journal w).

(** What the 404 handler leaves and answers. *)
Definition not_found_outcome (q : Request) (w : World)
  : Result Response * World :=
  (Return (mkResponse 404 (Json not_found_body)),
   logged w [warning ("404 Error: " +:+ url q)]).

(** The request details [/log] collects at clock reading [t], before the
    body is added. *)
Definition collected (R : Runtime) (q : Request) (t : nat) : dict :=
  [("method", VStr (method q));
   ("url", VStr (url q));
   ("headers", VDict (dict_of_headers (headers q)));
   ("timestamp", VStr (isoformat (utcnow R t)));
   ("remote_addr", of_option_str (remote_addr q))].

(** The line [/log] writes for the details [d]. *)
Definition log_line (R : Runtime) (d : dict) : LogCall :=
  info ("Request logged: " +:+ py_repr R (VDict d)).

(** The end of [log_request], after the [try] block, for the details
    [d]: they are logged and then returned. *)
Definition log_finish (R : Runtime) (d : dict) : Py Response :=
  let* details_text := render R (VDict d) in
  logger_info ("Request logged: " +:+ details_text) ;;;
  jsonify R (VDict [("message", VStr "Request logged successfully");
                    ("request_details", VDict d)]).

(** What [/log] answers with the details [d], and what it leaves. *)
Definition log_outcome (R : Runtime) (d : dict) (w : World)
  : Result Response * World :=
  (Return
     (json_response (VDict [("message", VStr "Request logged successfully");
                            ("request_details", VDict d)])),
   logged (ticked w) [log_line R d]).

Definition recommendations_body : value :=
  VDict [("recommendations",
          VList [VDict [("eventId", VInt 1);
                        ("eventName", VStr "Concert A")];
                 VDict [("eventId", VInt 2);
                        ("eventName", VStr "Festival B")]])].

Definition required (what : string) : Response :=
  mkResponse 400 (Json (VDict [("error", VStr what)])).

(** The two log calls of a fault answered with [app.debug] off. *)
Definition fault_calls (q : Request) (e : exn) : list LogCall :=
  [mkLogCall "app" Logging.ERROR
     ("Exception on " +:+ path q +:+ " [" +:+ method q +:+ "]") (Some e);
   mkLogCall "cryptix_api" Logging.ERROR
     ("500 Error: " +:+ str (InternalServerError (Some e))) None].

Definition no_get (v : value) : exn :=
  AttributeError ("'" +:+ type_name v +:+ "' object has no attribute 'get'").

(** The exceptions of the views that are no HTTP exceptions, each with
    the request it takes and the world the view leaves: in [/fraud] the
    decoder that exhausts the recursion limit and the body that is not
    an object; in [/log] a decoded body nested too deeply for [repr],
    before the line is logged, or for [json.dumps], after it. *)
Inductive fault (R : Runtime) (q : Request) (w : World)
  : exn -> World -> Prop :=
| fault_fraud_decoder :
    path q = "/fraud" -> method q = "POST" -> is_json q = true ->
    json_loads R (data q) = TooDeep ->
    fault R q w RecursionError w
| fault_fraud_not_object (v : value) :
    path q = "/fraud" -> method q = "POST" ->
    json_body R q = Some v -> type_name v <> "dict" ->
    fault R q w (no_get v) w
| fault_log_repr (v : value) :
    path q = "/log" -> method q = "POST" -> json_body R q = Some v ->
    shallow + repr_room R < depth v + 1 ->
    fault R q w RecursionError (ticked w)
| fault_log_dumps (v : value) :
    path q = "/log" -> method q = "POST" -> json_body R q = Some v ->
    depth v + 1 <= shallow + repr_room R ->
    shallow + dumps_room R < depth v + 2 ->
    fault R q w RecursionError
      (logged (ticked w)
         [log_line R (collected R q (ticks w) ++ [("body", v)])]).

(** The same origins, by the request alone. *)
Definition fault_origin (R : Runtime) (q : Request) (e : exn) : Prop :=
  method q = "POST"
  /\ ((path q = "/fraud" /\ is_json q = true
       /\ json_loads R (data q) = TooDeep /\ e = RecursionError)
      \/ (path q = "/fraud"
          /\ exists v,
              json_body R q = Some v /\ type_name v <> "dict"
              /\ e = no_get v)
      \/ (path q = "/log"
          /\ exists v,
              json_body R q = Some v
              /\ (shallow + repr_room R < depth v + 1
                  \/ shallow + dumps_room R < depth v + 2)
              /\ e = RecursionError)).

(** What the application hands over to be sent for the request [q] in
    the world [w], one constructor per way through [app.py]. *)
Inductive served (R : Runtime) (cfg : Config) (q : Request) (w : World)
  : Result Response * World -> Prop :=
| served_unmatched :
    served R cfg q w (not_found_outcome q w)
| served_wrong_method (have : gset string) :
    served R cfg q w (Return (get_response (MethodNotAllowed have)), w)
| served_redirect (p : string) :
    served R cfg q w (Return (get_response (RequestRedirect p)), w)
| served_options :
    method q = "OPTIONS" ->
    served R cfg q w (Return make_default_options_response, w)
| served_static_file (how : StaticStatus) (content : string) :
    startswith (path q) "/static/" = true ->
    served R cfg q w
      (Return (mkResponse (static_status how) (FileContent content)), w)
| served_static_unsatisfiable :
    startswith (path q) "/static/" = true ->
    served R cfg q w
      (Return (get_response RequestedRangeNotSatisfiable), w)
| served_static_missing :
    served R cfg q w (not_found_outcome q w)
| served_index :
    path q = "/" ->
    served R cfg q w
      (Return (json_response api_docs),
       logged w [info "API documentation accessed"])
| served_health :
    path q = "/health" ->
    served R cfg q w
      (Return (health_response R (ticks w)),
       logged (ticked w) [info "Health check endpoint accessed"])
| served_log_plain :
    path q = "/log" -> method q <> "POST" ->
    served R cfg q w (log_outcome R (collected R q (ticks w)) w)
| served_log_body (v : value) :
    path q = "/log" -> method q = "POST" -> json_body R q = Some v ->
    depth v + 1 <= shallow + repr_room R ->
    depth v + 2 <= shallow + dumps_room R ->
    served R cfg q w
      (log_outcome R (collected R q (ticks w) ++ [("body", v)]) w)
| served_log_placeholder :
    path q = "/log" -> method q = "POST" -> json_body R q = None ->
    served R cfg q w
      (log_outcome R
         (collected R q (ticks w) ++ [("body", VStr placeholder)]) w)
| served_fraud_unsupported :
    path q = "/fraud" -> method q = "POST" -> is_json q = false ->
    served R cfg q w (Return (get_response UnsupportedMediaType), w)
| served_fraud_undecodable :
    path q = "/fraud" -> method q = "POST" -> is_json q = true ->
    json_loads R (data q) = Undecodable ->
    served R cfg q w (Return (get_response BadRequest), w)
| served_fraud_refused (d : dict) :
    path q = "/fraud" -> method q = "POST" ->
    json_body R q = Some (VDict d) -> has_transaction (VDict d) = false ->
    served R cfg q w (Return (required "Transaction data is required"), w)
| served_fraud_analysis (d : dict) :
    path q = "/fraud" -> method q = "POST" ->
    json_body R q = Some (VDict d) -> has_transaction (VDict d) = true ->
    served R cfg q w
      (Return (json_response analysis_body),
       logged w [info "Fraud analysis completed"])
| served_fault (e : exn) (w0 : World) :
    fault R q w e w0 -> debug cfg = false ->
    served R cfg q w
      (Return (mkResponse 500 (Json internal_error_body)),
       logged w0 (fault_calls q e))
| served_fault_debug (e : exn) (w0 : World) :
    fault R q w e w0 -> debug cfg = true ->
    served R cfg q w (Raise e, w0)
| served_recommendations_refused :
    path q = "/recommendations" ->
    truthy (of_option_str (args_get "userId" (args q))) = false ->
    served R cfg q w (Return (required "User ID is required"), w)
| served_recommendations (user_id : string) :
    path q = "/recommendations" ->
    args_get "userId" (args q) = Some user_id -> user_id <> "" ->
    served R cfg q w
      (Return (json_response recommendations_body),
       logged w [info "Recommendations retrieved"]).

(** Sending what was handed over: [Response.__call__] on a response, an
    exception as it is. *)
Definition deliver (q : Request) (out : Result Response * World)
  : Result Response * World :=
  match out with
  | (Return r, w) => (Return (sent (method q) r), w)
  | (Raise e, w) => (Raise e, w)
  end.

(** Reading a string out of a JSON value. *)
Definition as_str (v : value) : option string :=
  match v with
  | VStr s => Some s
  | _ => None
  end.

(** The methods the documentation served at [/] gives for a path. *)
Definition documented_methods (p : string) : option (list string) :=
  match api_docs with
  | VDict top =>
      match dict_get "endpoints" top with
      | Some (VDict endpoints) =>
          match dict_get p endpoints with
          | Some (VDict entry) =>
              match dict_get "methods" entry with
              | Some (VList ms) => Some (omap as_str ms)
              | _ => None
              end
          | _ => None
          end
      | _ => None
      end
  | _ => None
  end.

(** The value [/log] reports for a header: that of its first
    occurrence among the request's headers. *)
Definition header_value (k : string) (hs : list (string * string))
  : option string :=
  args_get k hs.

(** A dict none of whose values is a container. *)
Definition flat (d : dict) : Prop :=
  Forall (fun kv => depth (snd kv) = 0) d.

(** A computation whose result and clock readings do not depend on what
    has been logged. *)
Definition blind {A : Type} (m : Py A) : Prop :=
  forall w1 w2,
    ticks w1 = ticks w2 ->
    fst (m w1) = fst (m w2) /\ ticks (snd (m w1)) = ticks (snd (m w2)).

End Behaviour.

(** ** What the sinks hold *)

Module SinkSpec.
Import Logging LoggingSpec.

(** The records the logger lets through. *)
Definition enabled (r : LogRecord) : bool := (INFO <=? levelno r)%Z.

(** The lines of some records, one after the other. *)
Fixpoint text (rs : list LogRecord) : string :=
  match rs with
  | [] => ""
  | r :: rs' => line r +:+ text rs'
  end.

(** The log files that exist, oldest first: [api.log.5] down to
    [api.log.1], then the active file. *)
Definition files (s : Sinks) : list string :=
  omap (fun i => rotated s !! i) [5; 4; 3; 2; 1] ++ [active s].

End SinkSpec.

(** ** Facts about [datetime] *)

Module DatetimeFacts.
Import Datetime.

Lemma digit_of_digit_char (d : Z) :
  (0 <= d < 10)%Z -> digit_of_ascii (digit_char d) = Some d.
Proof.
  intros Hd. unfold digit_of_ascii, digit_char.
  rewrite N_ascii_embedding by lia.
  rewrite Z2N.id by lia.
  replace ((48 <=? 48 + d) && (48 + d <=? 57))%Z with true.
  - f_equal. lia.
  - symmetry. apply andb_true_iff. split; apply Z.leb_le; lia.
Qed.

(** Reading [w] digits consumes exactly what [digits w] printed. *)
Lemma number_digits (w k : nat) :
  forall (n acc : Z) (rest : list ascii),
    (0 <= n < 10 ^ Z.of_nat w)%Z ->
    number (w + k) acc (digits w n ++ rest)
    = number k (acc * 10 ^ Z.of_nat w + n)%Z rest.
Proof.
  revert k. induction w as [|w IH]; intros k n acc rest Hn.
  - simpl in *. f_equal. lia.
  - rewrite Nat2Z.inj_succ, Z.pow_succ_r in Hn by lia.
    cbn [digits]. rewrite <- app_assoc. cbn [app].
    replace (S w + k)%nat with (w + S k)%nat by lia.
    rewrite IH
      by (split; [apply Z.div_pos; lia | apply Z.div_lt_upper_bound; lia]).
    cbn [number]. rewrite digit_of_digit_char by (apply Z.mod_pos_bound; lia).
    f_equal. rewrite Nat2Z.inj_succ, Z.pow_succ_r by lia.
    pose proof (Z.div_mod n 10). lia.
Qed.

Lemma number_field (w : nat) (n : Z) (rest : list ascii) :
  (0 <= n < 10 ^ Z.of_nat w)%Z ->
  number w 0 (digits w n ++ rest) = Some (n, rest).
Proof.
  intros Hn. replace w with (w + 0)%nat at 1 by lia.
  rewrite number_digits by exact Hn. reflexivity.
Qed.

Lemma valid_bounds (d : datetime) :
  valid d = true ->
  (0 <= year d < 10 ^ 4 /\ 0 <= month d < 10 ^ 2 /\ 0 <= day d < 10 ^ 2 /\
   0 <= hour d < 10 ^ 2 /\ 0 <= minute d < 10 ^ 2 /\
   0 <= second d < 10 ^ 2 /\ 0 <= microsecond d < 10 ^ 6)%Z.
Proof.
  unfold valid. rewrite !andb_true_iff.
  rewrite !Z.leb_le, !Z.ltb_lt.
  assert (days_in_month (year d) (month d) <= 31)%Z.
  { unfold days_in_month. repeat case_match; lia. }
  lia.
Qed.

Lemma expect_cons (c : ascii) (rest : list ascii) :
  expect c (c :: rest) = Some rest.
Proof. unfold expect. rewrite Ascii.eqb_refl. reflexivity. Qed.

Lemma fraction_printed (us : Z) :
  (0 <= us < 10 ^ 6)%Z ->
  fraction (if (us =? 0)%Z then [] else "."%char :: digits 6 us) = Some us.
Proof.
  intros Hus. destruct (Z.eqb_spec us 0) as [->|Hne]; [reflexivity|].
  unfold fraction. rewrite expect_cons. cbn [mbind option_bind].
  rewrite <- (app_nil_r (digits 6 us)).
  rewrite (number_field 6) by exact Hus. reflexivity.
Qed.

Ltac read_field w H :=
  rewrite (number_field w _ _ H); cbn [mbind option_bind];
  try (rewrite expect_cons; cbn [mbind option_bind]).

(** A valid datetime is read back from its ISO rendering. *)
Lemma fromisoformat_isoformat (d : datetime) :
  valid d = true -> fromisoformat (isoformat d) = Some d.
Proof.
  intros Hv.
  pose proof (valid_bounds d Hv) as (Hy & Hmo & Hd & Hh & Hmi & Hs & Hus).
  unfold fromisoformat, isoformat.
  rewrite list_ascii_of_string_of_list_ascii.
  read_field 4%nat Hy. read_field 2%nat Hmo. read_field 2%nat Hd.
  read_field 2%nat Hh. read_field 2%nat Hmi. read_field 2%nat Hs.
  rewrite fraction_printed by exact Hus. cbn [mbind option_bind].
  destruct d; cbn [year month day hour minute second microsecond] in *.
  rewrite Hv. reflexivity.
Qed.

(** The order of datetimes is reflexive. *)
Lemma leb_refl (d : datetime) : leb d d = true.
Proof. unfold leb, compare. rewrite !Z.compare_refl. reflexivity. Qed.

End DatetimeFacts.

(** ** Facts about the rotating file handler *)

Module LoggingFacts.
Import Logging LoggingSpec.

Lemma within_spec (n : nat) (m : gmap nat string) :
  within n m <-> forall i, is_Some (m !! i) -> 1 <= i <= n.
Proof.
  unfold within, map_Forall. split.
  - intros H i [f Hf]. exact (H i f Hf).
  - intros H i f Hf. apply H. exists f. exact Hf.
Qed.

Lemma within_size (n : nat) (m : gmap nat string) :
  within n m -> size m <= n.
Proof.
  rewrite within_spec. intros Hm. rewrite <- size_dom.
  assert (Hsub : dom m ⊆ (set_seq 1 n : gset nat)).
  { intros i Hi. apply elem_of_dom in Hi. apply elem_of_set_seq.
    specialize (Hm i Hi). lia. }
  apply subseteq_size in Hsub. rewrite size_set_seq in Hsub. exact Hsub.
Qed.

Lemma shift_lookup (m : gmap nat string) (i j : nat) :
  shift m i !! j =
  match m !! i with
  | Some f => if decide (j = S i) then Some f
              else if decide (j = i) then None else m !! j
  | None => m !! j
  end.
Proof.
  unfold shift. destruct (m !! i) as [f|] eqn:Hi; [|reflexivity].
  destruct (decide (j = S i)) as [->|Hne].
  - apply lookup_insert_eq.
  - rewrite lookup_insert_ne by congruence.
    destruct (decide (j = i)) as [->|Hne'].
    + apply lookup_delete_eq.
    + apply lookup_delete_ne. congruence.
Qed.

Lemma shift_within (n : nat) (m : gmap nat string) (i : nat) :
  1 <= i < n -> within n m -> within n (shift m i).
Proof.
  rewrite !within_spec. intros Hi Hm j Hj. rewrite shift_lookup in Hj.
  destruct (m !! i) as [f|] eqn:Hmi; [|auto].
  destruct (decide (j = S i)) as [->|]; [lia|].
  destruct (decide (j = i)) as [->|]; [destruct Hj; discriminate|auto].
Qed.

Lemma renamed_succ (n : nat) (m : gmap nat string) :
  renamed (S n) m = renamed n (shift m (S n)).
Proof.
  unfold renamed. rewrite seq_S, rev_app_distr. reflexivity.
Qed.

Lemma renamed_within (b n : nat) :
  n < b -> forall m, within b m -> within b (renamed n m).
Proof.
  induction n as [|n IH]; intros Hn m Hm; [exact Hm|].
  rewrite renamed_succ. apply IH; [lia|].
  apply shift_within; [lia|exact Hm].
Qed.

(** The loop leaves the indices above its range alone. *)
Lemma renamed_above (n : nat) :
  forall (m : gmap nat string) (j : nat),
    S n < j -> renamed n m !! j = m !! j.
Proof.
  induction n as [|n IH]; intros m j Hj; [reflexivity|].
  rewrite renamed_succ, IH by lia. rewrite shift_lookup.
  destruct (m !! S n); [|reflexivity].
  repeat case_decide; try lia; reflexivity.
Qed.

(** Every file in the range moves up by one. *)
Lemma renamed_moves (n : nat) :
  forall (m : gmap nat string) (i : nat),
    1 <= i <= n -> is_Some (m !! i) -> renamed n m !! S i = m !! i.
Proof.
  induction n as [|n IH]; intros m i Hi Hsome; [lia|].
  rewrite renamed_succ.
  destruct (decide (i = S n)) as [->|Hne].
  - rewrite renamed_above by lia. rewrite shift_lookup.
    destruct Hsome as [f Hf]. rewrite Hf.
    case_decide; [reflexivity|lia].
  - assert (Hkeep : shift m (S n) !! i = m !! i).
    { rewrite shift_lookup. destruct (m !! S n); [|reflexivity].
      repeat case_decide; try lia; reflexivity. }
    rewrite IH; [exact Hkeep|lia|rewrite Hkeep; exact Hsome].
Qed.

Lemma doRollover_rotated (b : nat) (s : Sinks) :
  rotated (doRollover (S b) s) = <[1%nat := active s]> (renamed b (rotated s)).
Proof.
  unfold doRollover, countdown, renamed. cbn [rotated].
  replace (S b - 1) with b by lia. reflexivity.
Qed.

Lemma doRollover_within (b : nat) (s : Sinks) :
  within b (rotated s) -> within b (rotated (doRollover b s)).
Proof.
  destruct b as [|b]; [intros H; exact H|].
  intros Hm. rewrite doRollover_rotated. apply within_spec. intros j Hj.
  destruct (decide (j = 1)) as [->|Hne]; [lia|].
  rewrite lookup_insert_ne in Hj by congruence.
  pose proof (renamed_within (S b) b ltac:(lia) _ Hm) as Hr.
  rewrite within_spec in Hr. exact (Hr j Hj).
Qed.

Lemma emit_within (b : nat) (h : Handler) (r : LogRecord) (s : Sinks) :
  (forall f mx bc, kind h = RotatingFileHandler f mx bc -> bc = b) ->
  within b (rotated s) -> within b (rotated (emit h r s)).
Proof.
  intros Hb Hm. unfold emit.
  destruct (kind h) as [|f mx bc] eqn:Hk; cbn [rotated]; [exact Hm|].
  rewrite (Hb f mx bc eq_refl).
  destruct (shouldRollover mx s r); [apply doRollover_within|]; exact Hm.
Qed.

Lemma log_within (r : LogRecord) (s : Sinks) :
  within 5 (rotated s) -> within 5 (rotated (log logger r s)).
Proof.
  intros Hm. unfold log.
  destruct (isEnabledFor logger (levelno r)); [|exact Hm].
  unfold callHandlers, logger, setup_logger. cbn [handlers fold_left].
  repeat case_match; repeat apply emit_within; try exact Hm;
    intros f mx bc Hk; cbv in Hk; congruence.
Qed.

Lemma log_all_within (rs : list LogRecord) :
  forall s, within 5 (rotated s) -> within 5 (rotated (log_all logger rs s)).
Proof.
  induction rs as [|r rs IH]; intros s Hm; [exact Hm|].
  apply IH, log_within, Hm.
Qed.

End LoggingFacts.

(** ** The logger of [logger.py] *)

Module LoggerPolicy.
Import Logging LoggingSpec LoggingFacts.

Lemma length_append (a b : string) :
  String.length (a +:+ b) = String.length a + String.length b.
Proof.
  induction a as [|c a IH]; [reflexivity|].
  change (S (String.length (a +:+ b))
          = S (String.length a + String.length b)).
  f_equal. exact IH.
Qed.

(** A text has no more characters than bytes. *)
Lemma char_length_le (s : string) : char_length s <= String.length s.
Proof.
  induction s as [|c s IH]; [reflexivity|].
  cbn [char_length String.length]. destruct (is_continuation c); lia.
Qed.

(** When the file handler of [logger.py] rolls over. *)
Lemma shouldRollover_limit (r : LogRecord) (s : Sinks) :
  shouldRollover 10485760 s r = true
  <-> (10485760 <= Z.of_nat (String.length (active s))
                   + Z.of_nat (char_length (line r)))%Z.
Proof.
  unfold shouldRollover, tell. cbn [Z.ltb Z.compare]. fold (line r).
  apply Z.leb_le.
Qed.

(** What the file handler does with a record: the size of the active
    file in bytes and the length of the line in characters decide. *)
Lemma file_emit (r : LogRecord) (s : Sinks) :
  emit file_handler r s
  = if (10485760 <=? Z.of_nat (String.length (active s))
                     + Z.of_nat (char_length (line r)))%Z
    then mkSinks (console s) (line r) (rotated (doRollover 5 s))
    else mkSinks (console s) (active s +:+ line r) (rotated s).
Proof.
  unfold emit, file_handler. cbn [kind].
  unfold shouldRollover, tell. cbn [Z.ltb Z.compare].
  fold (line r).
  destruct (10485760 <=? Z.of_nat (String.length (active s))
                         + Z.of_nat (char_length (line r)))%Z;
    reflexivity.
Qed.

Lemma file_emit_below (r : LogRecord) (s : Sinks) :
  (tell s + line_length r < 10485760)%Z ->
  emit file_handler r s = mkSinks (console s) (active s +:+ line r) (rotated s).
Proof.
  intros Hlt. rewrite file_emit. unfold tell, line_length in Hlt.
  pose proof (char_length_le (line r)).
  destruct (Z.leb_spec 10485760
              (Z.of_nat (String.length (active s))
               + Z.of_nat (char_length (line r)))); [lia|reflexivity].
Qed.

Lemma file_emit_full (r : LogRecord) (s : Sinks) :
  (10485760 <= Z.of_nat (String.length (active s)))%Z ->
  emit file_handler r s
  = mkSinks (console s) (line r) (rotated (doRollover 5 s)).
Proof.
  intros Hge. rewrite file_emit.
  destruct (Z.leb_spec 10485760
              (Z.of_nat (String.length (active s))
               + Z.of_nat (char_length (line r)))); [reflexivity|lia].
Qed.

Lemma log_below_info (r : LogRecord) (s : Sinks) :
  (levelno r < INFO)%Z -> log logger r s = s.
Proof.
  intros Hlt. unfold log, isEnabledFor, logger, setup_logger, INFO in *.
  cbn [level].
  destruct (Z.geb_spec 0 (levelno r)); [reflexivity|].
  destruct (Z.geb_spec (levelno r) 20); [lia|reflexivity].
Qed.

Lemma log_from_info (r : LogRecord) (s : Sinks) :
  (INFO <= levelno r)%Z ->
  log logger r s = emit file_handler r (emit console_handler r s).
Proof.
  intros Hge. unfold log, isEnabledFor, logger, setup_logger, INFO in *.
  cbn [level].
  destruct (Z.geb_spec 0 (levelno r)); [lia|].
  destruct (Z.geb_spec (levelno r) 20); [|lia].
  unfold callHandlers. cbn [handlers fold_left].
  unfold console_handler, file_handler, NOTSET. cbn [handler_level].
  destruct (Z.geb_spec (levelno r) 0); [reflexivity|lia].
Qed.

(** C8, amended. The logger records from level INFO upwards on both
    handlers and nothing below; its file handler is the rotating one with
    a limit of 10 MiB (10485760 bytes) and five backups.  Before it
    writes a record the handler adds the length of the record's line, in
    characters, to the size of the active file, in bytes: exactly when
    the sum reaches the limit it rolls over and the record opens a new
    active file, otherwise the line is appended.  So a file that stays
    below the limit with the line does not roll over, and a file that has
    reached the limit rolls over with the next record.  In a rollover the
    active file becomes [api.log.1] and every [api.log.i] with [i] from 1
    to 4 becomes [api.log.(i+1)], which replaces what [api.log.5] held.
    Whatever is logged, the rotated files keep their indices within 1 to
    5, so there are never more than five of them. *)
Theorem rotation_policy :
  level logger = INFO
  /\ handlers logger
     = [mkHandler NOTSET StreamHandler;
        mkHandler NOTSET
          (RotatingFileHandler "logs/api.log" (10 * 1024 * 1024) 5)]
  /\ (forall r s,
        shouldRollover 10485760 s r = true
        <-> (10485760 <= Z.of_nat (String.length (active s))
                         + Z.of_nat (char_length (line r)))%Z)
  /\ (forall r s,
        emit file_handler r s
        = if (10485760 <=? Z.of_nat (String.length (active s))
                           + Z.of_nat (char_length (line r)))%Z
          then mkSinks (console s) (line r) (rotated (doRollover 5 s))
          else mkSinks (console s) (active s +:+ line r) (rotated s))
  /\ (forall r s,
        (Z.of_nat (String.length (active s))
         + Z.of_nat (String.length (line r)) < 10485760)%Z ->
        emit file_handler r s
        = mkSinks (console s) (active s +:+ line r) (rotated s))
  /\ (forall r s,
        (10485760 <= Z.of_nat (String.length (active s)))%Z ->
        emit file_handler r s
        = mkSinks (console s) (line r) (rotated (doRollover 5 s)))
  /\ (forall s,
        active (doRollover 5 s) = ""
        /\ rotated (doRollover 5 s) !! 1 = Some (active s)
        /\ forall i, 1 <= i <= 4 -> is_Some (rotated s !! i) ->
             rotated (doRollover 5 s) !! S i = rotated s !! i)
  /\ (forall rs s,
        within 5 (rotated s) ->
        within 5 (rotated (log_all logger rs s))
        /\ size (rotated (log_all logger rs s)) <= 5)
  /\ (forall r s, (levelno r < INFO)%Z -> log logger r s = s)
  /\ (forall r s,
        (INFO <= levelno r)%Z ->
        log logger r s = emit file_handler r (emit console_handler r s)).
Proof.
  split; [reflexivity|]. split; [reflexivity|].
  split; [exact shouldRollover_limit|].
  split; [exact file_emit|]. split; [exact file_emit_below|].
  split; [exact file_emit_full|].
  split.
  { intros s. split; [reflexivity|]. rewrite doRollover_rotated. split.
    - apply lookup_insert_eq.
    - intros i Hi Hsome. rewrite lookup_insert_ne by lia.
      apply renamed_moves; [lia|exact Hsome]. }
  split.
  { intros rs s Hm. pose proof (log_all_within rs s Hm) as Hw.
    split; [exact Hw|apply within_size, Hw]. }
  split; [exact log_below_info|exact log_from_info].
Qed.

Lemma rotation_policy_witness :
  rotated (doRollover 5 full_sinks) !! 5 = Some "four"
  /\ size (rotated (log_all logger [debug_record; info_record] full_sinks)) <= 5
  /\ log logger debug_record full_sinks = full_sinks
  /\ active (log logger info_record full_sinks)
     = "newest12:00:01,000 - INFO - Health check endpoint accessed"
       +:+ terminator.
Proof.
  destruct rotation_policy
    as (_ & _ & _ & _ & Hbelow & _ & Hroll & Hsize & Hlow & Hhigh).
  split.
  { destruct (Hroll full_sinks) as (_ & _ & Hmove).
    rewrite (Hmove 4); [reflexivity|lia|]. exists "four". reflexivity. }
  split.
  { apply Hsize. apply (bool_decide_unpack _). vm_compute. reflexivity. }
  split.
  { apply Hlow. reflexivity. }
  rewrite Hhigh by (vm_compute; discriminate).
  rewrite Hbelow by (vm_compute; reflexivity).
  reflexivity.
Defined.

Lemma file_of_size_length (n : N) :
  Z.of_nat (String.length (file_of_size n)) = Z.of_N n.
Proof.
  unfold file_of_size.
  assert (H : forall l, String.length (string_of_list_ascii l) = length l).
  { induction l as [|c l IH]; [reflexivity|].
    cbn [string_of_list_ascii String.length length]. f_equal. exact IH. }
  rewrite H, repeat_length. apply N_nat_Z.
Qed.

(** C8 as stated fails, however "reaches" is read.  A file one byte
    short of 10 MiB rolls over with the next record, although it has not
    reached the limit.  And a file that a line of 24 characters in 25
    bytes takes to 10 MiB exactly does not roll over, although with the
    record it reaches the limit: the handler counts the line in
    characters. *)
Lemma rollover_is_not_at_the_limit :
  ~ rolls_over_when_full /\ ~ rolls_over_when_filled.
Proof.
  split; intros H.
  - specialize (H info_record (mkSinks "" (file_of_size 10485759) ∅)).
    apply proj1 in H. cbn [active] in H.
    rewrite file_of_size_length in H. cbn [Z.of_N] in H.
    assert (Hsize : (10485760 <= 10485759)%Z); [|lia].
    apply H. apply shouldRollover_limit. cbn [active].
    rewrite file_of_size_length. cbn [Z.of_N].
    assert (Hchars : Z.of_nat (char_length (line info_record)) = 53%Z)
      by (vm_compute; reflexivity).
    rewrite Hchars. lia.
  - specialize (H accented_record (mkSinks "" (file_of_size 10485735) ∅)).
    apply proj2 in H. cbn [active] in H.
    rewrite length_append, Nat2Z.inj_add, file_of_size_length in H.
    cbn [Z.of_N] in H.
    assert (Hbytes : Z.of_nat (String.length (line accented_record)) = 25%Z)
      by (vm_compute; reflexivity).
    assert (Hchars : Z.of_nat (char_length (line accented_record)) = 24%Z)
      by (vm_compute; reflexivity).
    rewrite Hbytes in H.
    assert (Hroll : shouldRollover 10485760
                      (mkSinks "" (file_of_size 10485735) ∅)
                      accented_record = true)
      by (apply H; lia).
    apply shouldRollover_limit in Hroll. cbn [active] in Hroll.
    rewrite file_of_size_length, Hchars in Hroll. cbn [Z.of_N] in Hroll.
    lia.
Qed.

End LoggerPolicy.

(** ** Facts about the application *)

Module AppFacts.
Import Py Datetime Werkzeug Process App.

(** A value nested no deeper than [shallow] is serialized. *)
Lemma jsonify_shallow (R : Runtime) (v : value) :
  depth v <= shallow -> jsonify R v = ret (json_response v).
Proof.
  intros H. unfold jsonify.
  destruct (Nat.leb_spec (depth v) (shallow + dumps_room R));
    [reflexivity|lia].
Qed.

Lemma jsonify_within (R : Runtime) (v : value) :
  depth v <= shallow + dumps_room R -> jsonify R v = ret (json_response v).
Proof.
  intros H. unfold jsonify.
  destruct (Nat.leb_spec (depth v) (shallow + dumps_room R));
    [reflexivity|lia].
Qed.

Lemma jsonify_beyond (R : Runtime) (v : value) :
  shallow + dumps_room R < depth v -> jsonify R v = raise RecursionError.
Proof.
  intros H. unfold jsonify.
  destruct (Nat.leb_spec (depth v) (shallow + dumps_room R));
    [lia|reflexivity].
Qed.

Lemma render_within (R : Runtime) (v : value) :
  depth v <= shallow + repr_room R -> render R v = ret (py_repr R v).
Proof.
  intros H. unfold render.
  destruct (Nat.leb_spec (depth v) (shallow + repr_room R));
    [reflexivity|lia].
Qed.

Lemma render_beyond (R : Runtime) (v : value) :
  shallow + repr_room R < depth v -> render R v = raise RecursionError.
Proof.
  intros H. unfold render.
  destruct (Nat.leb_spec (depth v) (shallow + repr_room R));
    [lia|reflexivity].
Qed.

(** A response with a body to send is sent as it is. *)
Lemma sent_with_body (meth : string) (r : Response) :
  bodiless meth (status_code r) = false -> sent meth r = r.
Proof. intros H. unfold sent. rewrite H. reflexivity. Qed.

(** A response the dispatch returns is the one the application sends:
    the two exception handlers around it are not entered. *)
Lemma wsgi_app_of_dispatch (R : Runtime) (cfg : Config) (q : Request)
  (w w' : World) (r : Response) :
  dispatch_request R q w = (Return r, w') ->
  wsgi_app R cfg q w = (Return (sent (method q) r), w').
Proof.
  intros H. unfold wsgi_app, full_dispatch_request, try_except, bind.
  rewrite H. reflexivity.
Qed.

Lemma wsgi_app_of_view (R : Runtime) (cfg : Config) (q : Request)
  (w w' : World) (r : Response) :
  dispatch_request R q w = (Return r, w') ->
  bodiless (method q) (status_code r) = false ->
  wsgi_app R cfg q w = (Return r, w').
Proof.
  intros H Hb. rewrite (wsgi_app_of_dispatch R cfg q w w' r H).
  rewrite sent_with_body by exact Hb. reflexivity.
Qed.

(** Replaces the routing of a known path and method by its result. *)
Ltac route Hm Hp :=
  unfold dispatch_request; rewrite Hp, Hm;
  match goal with
  | |- context [url_match url_map ?p ?m] =>
      let x := eval vm_compute in (url_match url_map p m) in
      change (url_match url_map p m) with x
  end;
  cbn [String.eqb Ascii.eqb Bool.eqb endpoint view_functions].

Lemma dispatch_log_post (R : Runtime) (q : Request) :
  method q = "POST" -> path q = "/log" ->
  dispatch_request R q = log_request R q.
Proof. intros Hm Hp. route Hm Hp. reflexivity. Qed.

Lemma dispatch_log_get (R : Runtime) (q : Request) :
  method q = "GET" -> path q = "/log" ->
  dispatch_request R q = log_request R q.
Proof. intros Hm Hp. route Hm Hp. reflexivity. Qed.

Lemma dispatch_fraud_post (R : Runtime) (q : Request) :
  method q = "POST" -> path q = "/fraud" ->
  dispatch_request R q = analyze_fraud R q.
Proof. intros Hm Hp. route Hm Hp. reflexivity. Qed.

Lemma dispatch_recommendations_get (R : Runtime) (q : Request) :
  method q = "GET" -> path q = "/recommendations" ->
  dispatch_request R q = get_recommendations R q.
Proof. intros Hm Hp. route Hm Hp. reflexivity. Qed.

Lemma dispatch_health_get (R : Runtime) (q : Request) :
  method q = "GET" -> path q = "/health" ->
  dispatch_request R q = health_check R.
Proof. intros Hm Hp. route Hm Hp. reflexivity. Qed.

End AppFacts.

(** ** Facts about routing *)

Module RoutingFacts.
Import Py Werkzeug Process App Spec Behaviour AppFacts.

(** A path no pattern accepts leaves the matcher empty-handed and its
    record of other methods as it was. *)
Lemma match_rules_unfit (rules : list Rule) (p m : string) :
  fits rules p = false ->
  forall have, match_rules rules p m have = (None, have).
Proof.
  induction rules as [|r rules IH]; intros Hfit have; [reflexivity|].
  cbn [fits existsb] in Hfit. apply orb_false_iff in Hfit as [Hr Hrest].
  cbn [match_rules]. destruct (match_pattern (pattern r) p); [discriminate|].
  apply IH. exact Hrest.
Qed.

(** Without a rule for the path under the method, a pass finds nothing. *)
Lemma match_rules_unrouted (rules : list Rule) (p m : string) :
  routed rules p m = false ->
  forall have, exists have', match_rules rules p m have = (None, have').
Proof.
  induction rules as [|r rules IH]; intros Hr have; [eexists; reflexivity|].
  cbn [routed existsb] in Hr. apply orb_false_iff in Hr as [Hr Hrest].
  cbn [match_rules]. destruct (match_pattern (pattern r) p).
  - rewrite Hr. apply IH. exact Hrest.
  - apply IH. exact Hrest.
Qed.

Lemma url_match_unrouted (rules : list Rule) (p m : string) :
  routed rules p m = false ->
  exists e, url_match rules p m = RoutingError e /\ routing_failure e.
Proof.
  intros Hr. unfold url_match.
  destruct (match_rules_unrouted rules p m Hr ∅) as [have ->].
  destruct (match_rules rules (merge_slashes p) m have) as [[[r a]|] have'].
  - eexists. split; [reflexivity|constructor].
  - destruct (decide (have' = ∅)); eexists;
      (split; [reflexivity|constructor]).
Qed.

Lemma url_match_unfit (rules : list Rule) (p m : string) :
  fits rules p = false -> fits rules (merge_slashes p) = false ->
  url_match rules p m = RoutingError NotFound.
Proof.
  intros H1 H2. unfold url_match.
  rewrite (match_rules_unfit rules p m H1).
  rewrite (match_rules_unfit rules _ m H2).
  destruct (decide ((∅ : gset string) = ∅)); [reflexivity|contradiction].
Qed.

(** What the application hands over when routing fails: the JSON of its
    404 handler, or the page of the exception. *)
Lemma wsgi_app_routing_failure (R : Runtime) (cfg : Config) (q : Request)
  (w : World) (e : exn) :
  url_match url_map (path q) (method q) = RoutingError e ->
  routing_failure e ->
  wsgi_app R cfg q w
  = deliver q
      match e with
      | NotFound => not_found_outcome q w
      | _ => (Return (get_response e), w)
      end.
Proof.
  intros Hroute Hfail.
  unfold wsgi_app, full_dispatch_request, try_except, bind, dispatch_request.
  rewrite Hroute. destruct Hfail; reflexivity.
Qed.

End RoutingFacts.

(** ** Every way through the application *)

Module BehaviourFacts.
Import Py Datetime Werkzeug Process App Spec Behaviour AppFacts RoutingFacts.

(** What a pass of the matcher returns is a rule of the map that accepts
    the path and the method. *)
Lemma match_rules_found (rules : list Rule) (p m : string) :
  forall have have' r a,
    match_rules rules p m have = (Some (r, a), have') ->
    In r rules /\ match_pattern (pattern r) p = Some a
    /\ existsb (String.eqb m) (methods r) = true.
Proof.
  induction rules as [|r0 rules IH]; intros have have' r a H; [discriminate|].
  cbn [match_rules] in H.
  destruct (match_pattern (pattern r0) p) as [a0|] eqn:Hpat.
  - destruct (existsb (String.eqb m) (methods r0)) eqn:Hm.
    + injection H as <- <- _. repeat split; [left; reflexivity|assumption..].
    + destruct (IH _ _ _ _ H) as (Hin & Hp & Hmeth).
      repeat split; [right; exact Hin|assumption..].
  - destruct (IH _ _ _ _ H) as (Hin & Hp & Hmeth).
    repeat split; [right; exact Hin|assumption..].
Qed.

Lemma url_match_cases (rules : list Rule) (p m : string) :
  (exists e, url_match rules p m = RoutingError e /\ routing_failure e)
  \/ (exists r a,
        url_match rules p m = Matched r a
        /\ In r rules /\ match_pattern (pattern r) p = Some a
        /\ existsb (String.eqb m) (methods r) = true).
Proof.
  unfold url_match.
  destruct (match_rules rules p m ∅) as [[[r a]|] have] eqn:H1.
  - right. exists r, a. split; [reflexivity|].
    exact (match_rules_found _ _ _ _ _ _ _ H1).
  - left.
    destruct (match_rules rules (merge_slashes p) m have) as [[[r a]|] have'].
    + eexists. split; [reflexivity|constructor].
    + destruct (decide (have' = ∅)); eexists;
        (split; [reflexivity|constructor]).
Qed.

(** The path a literal rule accepts is its own. *)
Lemma match_exact (s p : string) (a : list (string * string)) :
  match_pattern (Exact s) p = Some a -> p = s.
Proof.
  cbn [match_pattern]. destruct (String.eqb_spec p s); [auto|discriminate].
Qed.

(** *** How deep the details of [/log] are nested *)

Lemma depth_flat (d : dict) : flat d -> depth (VDict d) = 1.
Proof.
  induction 1 as [|kv d Hkv Hd IH]; [reflexivity|].
  change (S (Nat.max (depth (snd kv)) (Nat.pred (depth (VDict d)))) = 1).
  rewrite Hkv, IH. reflexivity.
Qed.

Lemma dict_set_flat (k : string) (v : value) (d : dict) :
  depth v = 0 -> flat d -> flat (dict_set k v d).
Proof.
  intros Hv. induction 1 as [|[k' v'] d Hkv Hd IH]; cbn [dict_set].
  - repeat constructor. exact Hv.
  - destruct (String.eqb k k'); constructor; assumption.
Qed.

Lemma depth_of_option_str (o : option string) : depth (of_option_str o) = 0.
Proof. destruct o; reflexivity. Qed.

Lemma headers_depth (hs : list (string * string)) :
  depth (VDict (dict_of_headers hs)) = 1.
Proof.
  apply depth_flat. unfold dict_of_headers, dict_of_pairs.
  generalize hs at 1. intros all.
  assert (H : flat []) by constructor. revert H.
  generalize (@nil (string * value)).
  induction hs as [|kv hs IH]; intros d Hd; [exact Hd|].
  cbn [map fold_left fst snd]. apply IH, dict_set_flat; [|exact Hd].
  apply depth_of_option_str.
Qed.

Lemma collected_depth (R : Runtime) (q : Request) (t : nat) :
  depth (VDict (collected R q t)) = 2.
Proof.
  change (S (Nat.max 0
             (Nat.max 0
                (Nat.max (depth (VDict (dict_of_headers (headers q))))
                   (Nat.max 0
                      (Nat.max (depth (of_option_str (remote_addr q))) 0)))))
          = 2).
  rewrite headers_depth, depth_of_option_str. reflexivity.
Qed.

Lemma details_depth (R : Runtime) (q : Request) (t : nat) (v : value) :
  depth (VDict (collected R q t ++ [("body", v)]))
  = S (Nat.max 1 (depth v)).
Proof.
  change (S (Nat.max 0
             (Nat.max 0
                (Nat.max (depth (VDict (dict_of_headers (headers q))))
                   (Nat.max 0
                      (Nat.max (depth (of_option_str (remote_addr q)))
                         (Nat.max (depth v) 0))))))
          = S (Nat.max 1 (depth v))).
  rewrite headers_depth, depth_of_option_str. f_equal. lia.
Qed.

(** *** The view of [/log] *)

Lemma log_finish_done (R : Runtime) (d : dict) (w : World) :
  depth (VDict d) <= shallow + repr_room R ->
  S (depth (VDict d)) <= shallow + dumps_room R ->
  log_finish R d w
  = (Return
       (json_response
          (VDict [("message", VStr "Request logged successfully");
                  ("request_details", VDict d)])),
     logged w [log_line R d]).
Proof.
  intros Hr Hd. unfold log_finish, bind.
  rewrite render_within by exact Hr. cbn [ret].
  unfold logger_info, log_call. rewrite jsonify_within; [reflexivity|].
  exact Hd.
Qed.

Lemma log_finish_unprintable (R : Runtime) (d : dict) (w : World) :
  shallow + repr_room R < depth (VDict d) ->
  log_finish R d w = (Raise RecursionError, w).
Proof.
  intros Hr. unfold log_finish, bind.
  rewrite render_beyond by exact Hr. reflexivity.
Qed.

Lemma log_finish_unserializable (R : Runtime) (d : dict) (w : World) :
  depth (VDict d) <= shallow + repr_room R ->
  shallow + dumps_room R < S (depth (VDict d)) ->
  log_finish R d w = (Raise RecursionError, logged w [log_line R d]).
Proof.
  intros Hr Hd. unfold log_finish, bind.
  rewrite render_within by exact Hr. cbn [ret].
  unfold logger_info, log_call. rewrite jsonify_beyond; [reflexivity|].
  exact Hd.
Qed.

(** The details the view has collected when it leaves the [try] block. *)
Lemma log_request_plain (R : Runtime) (q : Request) (w : World) :
  method q <> "POST" ->
  log_request R q w = log_finish R (collected R q (ticks w)) (ticked w).
Proof.
  intros Hm. apply String.eqb_neq in Hm.
  unfold log_request, bind, now. rewrite Hm. reflexivity.
Qed.

Lemma log_request_decoded (R : Runtime) (q : Request) (w : World)
  (v : value) :
  method q = "POST" -> json_body R q = Some v ->
  log_request R q w
  = log_finish R (collected R q (ticks w) ++ [("body", v)]) (ticked w).
Proof.
  intros Hm Hbody. unfold json_body in Hbody.
  apply String.eqb_eq in Hm.
  unfold log_request, bind, now, try_except, get_json. rewrite Hm.
  destruct (is_json q); [|discriminate].
  destruct (json_loads R (data q)); try discriminate.
  injection Hbody as ->. reflexivity.
Qed.

Lemma log_request_placeholder (R : Runtime) (q : Request) (w : World) :
  method q = "POST" -> json_body R q = None ->
  log_request R q w
  = log_finish R (collected R q (ticks w) ++ [("body", VStr placeholder)])
      (ticked w).
Proof.
  intros Hm Hbody. unfold json_body in Hbody.
  apply String.eqb_eq in Hm.
  unfold log_request, bind, now, try_except, get_json. rewrite Hm.
  destruct (is_json q); [|reflexivity].
  destruct (json_loads R (data q)); try discriminate; reflexivity.
Qed.

Lemma log_plain_run (R : Runtime) (q : Request) (w : World) :
  method q <> "POST" ->
  log_request R q w = log_outcome R (collected R q (ticks w)) w.
Proof.
  intros Hm. rewrite log_request_plain by exact Hm.
  apply log_finish_done; rewrite collected_depth; unfold shallow; lia.
Qed.

Lemma log_placeholder_run (R : Runtime) (q : Request) (w : World) :
  method q = "POST" -> json_body R q = None ->
  log_request R q w
  = log_outcome R
      (collected R q (ticks w) ++ [("body", VStr placeholder)]) w.
Proof.
  intros Hm Hbody. rewrite log_request_placeholder by assumption.
  apply log_finish_done; rewrite details_depth; unfold shallow; cbn; lia.
Qed.

Lemma log_body_run (R : Runtime) (q : Request) (w : World) (v : value) :
  method q = "POST" -> json_body R q = Some v ->
  depth v + 1 <= shallow + repr_room R ->
  depth v + 2 <= shallow + dumps_room R ->
  log_request R q w
  = log_outcome R (collected R q (ticks w) ++ [("body", v)]) w.
Proof.
  intros Hm Hbody Hr Hd. rewrite (log_request_decoded R q w v) by assumption.
  apply log_finish_done; rewrite details_depth; unfold shallow in *; lia.
Qed.

Lemma log_unprintable_run (R : Runtime) (q : Request) (w : World)
  (v : value) :
  method q = "POST" -> json_body R q = Some v ->
  shallow + repr_room R < depth v + 1 ->
  log_request R q w = (Raise RecursionError, ticked w).
Proof.
  intros Hm Hbody Hr. rewrite (log_request_decoded R q w v) by assumption.
  apply log_finish_unprintable. rewrite details_depth. lia.
Qed.

Lemma log_unserializable_run (R : Runtime) (q : Request) (w : World)
  (v : value) :
  method q = "POST" -> json_body R q = Some v ->
  depth v + 1 <= shallow + repr_room R ->
  shallow + dumps_room R < depth v + 2 ->
  log_request R q w
  = (Raise RecursionError,
     logged (ticked w)
       [log_line R (collected R q (ticks w) ++ [("body", v)])]).
Proof.
  intros Hm Hbody Hr Hd. rewrite (log_request_decoded R q w v) by assumption.
  apply log_finish_unserializable; rewrite details_depth;
    unfold shallow in *; lia.
Qed.

(** *** The view of [/fraud] *)

Lemma fraud_refused_run (R : Runtime) (q : Request) (w : World) (d : dict) :
  json_body R q = Some (VDict d) -> has_transaction (VDict d) = false ->
  analyze_fraud R q w
  = (Return (required "Transaction data is required"), w).
Proof.
  intros Hbody Hfalsy. unfold json_body in Hbody.
  unfold analyze_fraud, bind, get_json.
  destruct (is_json q); [|discriminate].
  destruct (json_loads R (data q)); try discriminate.
  injection Hbody as ->. cbn [ret method_get]. cbn [has_transaction] in Hfalsy.
  destruct (dict_get "transaction" d) as [t|]; cbn [from_option id].
  - rewrite Hfalsy. reflexivity.
  - reflexivity.
Qed.

Lemma fraud_analysis_run (R : Runtime) (q : Request) (w : World) (v : value) :
  json_body R q = Some v -> has_transaction v = true ->
  analyze_fraud R q w
  = (Return (json_response analysis_body),
     logged w [info "Fraud analysis completed"]).
Proof.
  intros Hbody Htx. unfold json_body in Hbody.
  unfold analyze_fraud, bind, get_json.
  destruct (is_json q); [|discriminate].
  destruct (json_loads R (data q)); try discriminate.
  injection Hbody as ->.
  destruct v as [|b|z|f|s|xs|d]; try discriminate Htx.
  cbn [ret method_get]. cbn [has_transaction] in Htx.
  destruct (dict_get "transaction" d) as [t|]; [|discriminate].
  cbn [from_option id]. rewrite Htx. reflexivity.
Qed.

Lemma fraud_not_object_run (R : Runtime) (q : Request) (w : World)
  (v : value) :
  json_body R q = Some v -> type_name v <> "dict" ->
  analyze_fraud R q w = (Raise (no_get v), w).
Proof.
  intros Hbody Hty. unfold json_body in Hbody.
  unfold analyze_fraud, bind, get_json.
  destruct (is_json q); [|discriminate].
  destruct (json_loads R (data q)); try discriminate.
  injection Hbody as ->.
  destruct v; try reflexivity. contradiction Hty. reflexivity.
Qed.

Lemma fraud_get_json_run (R : Runtime) (q : Request) (w : World) :
  json_body R q = None ->
  analyze_fraud R q w
  = (Raise (if is_json q then
              match json_loads R (data q) with
              | TooDeep => RecursionError
              | _ => BadRequest
              end
            else UnsupportedMediaType), w).
Proof.
  intros Hbody. unfold json_body in Hbody.
  unfold analyze_fraud, bind, get_json.
  destruct (is_json q); [|reflexivity].
  destruct (json_loads R (data q)); try discriminate; reflexivity.
Qed.

(** *** Flask around the views *)

(** An HTTP exception of a view without a handler of its own is
    answered by its page. *)
Lemma wsgi_app_of_page (R : Runtime) (cfg : Config) (q : Request)
  (w w' : World) (e : exn) :
  dispatch_request R q w = (Raise e, w') ->
  e = BadRequest \/ e = UnsupportedMediaType
  \/ e = RequestedRangeNotSatisfiable ->
  wsgi_app R cfg q w = deliver q (Return (get_response e), w').
Proof.
  intros Hrun He. unfold wsgi_app, full_dispatch_request, try_except, bind.
  rewrite Hrun. destruct He as [-> | [-> | ->]]; reflexivity.
Qed.

Lemma wsgi_app_of_not_found (R : Runtime) (cfg : Config) (q : Request)
  (w w' : World) :
  dispatch_request R q w = (Raise NotFound, w') ->
  wsgi_app R cfg q w = deliver q (not_found_outcome q w').
Proof.
  intros Hrun. unfold wsgi_app, full_dispatch_request, try_except, bind.
  rewrite Hrun. reflexivity.
Qed.

(** An exception of a view that is no HTTP exception leaves the
    application when [app.debug] is on; otherwise Flask logs it, the 500
    handler logs the generic description of [InternalServerError], and
    the JSON of the handler is the answer. *)
Lemma wsgi_app_of_fault (R : Runtime) (cfg : Config) (q : Request)
  (w w' : World) (e : exn) :
  dispatch_request R q w = (Raise e, w') -> code e = None ->
  wsgi_app R cfg q w
  = deliver q
      (if debug cfg then (Raise e, w')
       else (Return (mkResponse 500 (Json internal_error_body)),
             logged w' (fault_calls q e))).
Proof.
  intros Hrun Hcode.
  unfold wsgi_app, full_dispatch_request, try_except, bind. rewrite Hrun.
  unfold handle_user_exception. rewrite Hcode. cbn [raise].
  unfold handle_exception. destruct (debug cfg); [reflexivity|].
  unfold bind, log_exception, log_call. cbn [find_error_handler code].
  unfold internal_error, bind, logger_error, log_call. cbn [ticks journal].
  rewrite jsonify_shallow by (cbn; unfold shallow; lia).
  cbn [ret deliver logged fault_calls ticks journal].
  rewrite <- app_assoc. reflexivity.
Qed.

Lemma served_of_fault (R : Runtime) (cfg : Config) (q : Request)
  (w w0 : World) (e : exn) :
  fault R q w e w0 ->
  served R cfg q w
    (if debug cfg then (Raise e, w0)
     else (Return (mkResponse 500 (Json internal_error_body)),
           logged w0 (fault_calls q e))).
Proof.
  intros Hf. destruct (debug cfg) eqn:Hdbg.
  - apply served_fault_debug; assumption.
  - apply served_fault; assumption.
Qed.

(** The table is complete: whatever the request, what the application
    sends is one of its rows, delivered. *)
Lemma wsgi_app_served (R : Runtime) (cfg : Config) (q : Request) (w : World) :
  exists out, served R cfg q w out /\ wsgi_app R cfg q w = deliver q out.
Proof.
  destruct (url_match_cases url_map (path q) (method q))
    as [(e & He & Hf)|(r & a & Hm & Hin & Hpat & Hmeth)].
  { eexists. split; [|exact (wsgi_app_routing_failure R cfg q w e He Hf)].
    destruct Hf; constructor. }
  assert (Hd : dispatch_request R q
               = if String.eqb (method q) "OPTIONS"
                 then ret make_default_options_response
                 else view_functions R q (endpoint r) a).
  { unfold dispatch_request. rewrite Hm. reflexivity. }
  clear Hm.
  destruct (String.eqb_spec (method q) "OPTIONS") as [Hopt|Hopt].
  { eexists. split; [apply served_options; exact Hopt|].
    apply wsgi_app_of_dispatch. rewrite Hd. reflexivity. }
  cbn [url_map In] in Hin.
  destruct Hin as [<-|[<-|[<-|[<-|[<-|[<-|[]]]]]]];
    cbn [route endpoint pattern methods view_functions String.eqb Ascii.eqb
         Bool.eqb existsb app] in *.
  - (* static *)
    assert (Hunder : startswith (path q) "/static/" = true).
    { cbn [match_pattern] in Hpat.
      destruct (startswith (path q) "/static/"); [reflexivity|discriminate]. }
    unfold send_static_file in Hd.
    destruct (args_get "filename" a) as [filename|].
    + destruct (static_file R filename (headers q)) as [[how c|]|].
      * eexists. split; [apply (served_static_file R cfg q w how c Hunder)|].
        apply wsgi_app_of_dispatch. rewrite Hd. reflexivity.
      * eexists. split; [apply served_static_unsatisfiable; exact Hunder|].
        apply (wsgi_app_of_page R cfg q w w); [rewrite Hd; reflexivity|].
        right. right. reflexivity.
      * eexists. split; [apply served_static_missing|].
        apply wsgi_app_of_not_found. rewrite Hd. reflexivity.
    + eexists. split; [apply served_static_missing|].
      apply wsgi_app_of_not_found. rewrite Hd. reflexivity.
  - (* index *)
    apply match_exact in Hpat.
    eexists. split; [apply served_index; exact Hpat|].
    apply wsgi_app_of_dispatch. rewrite Hd. reflexivity.
  - (* health_check *)
    apply match_exact in Hpat.
    eexists. split; [apply served_health; exact Hpat|].
    apply wsgi_app_of_dispatch. rewrite Hd. reflexivity.
  - (* log_request *)
    apply match_exact in Hpat.
    destruct (String.eqb_spec (method q) "POST") as [Hpost|Hpost].
    + destruct (json_body R q) as [v|] eqn:Hbody.
      * destruct (le_lt_dec (depth v + 1) (shallow + repr_room R)) as [Hr|Hr];
          [destruct (le_lt_dec (depth v + 2) (shallow + dumps_room R))
             as [Hs|Hs]|].
        -- eexists. split; [apply (served_log_body R cfg q w v); assumption|].
           apply wsgi_app_of_dispatch. rewrite Hd.
           apply log_body_run; assumption.
        -- eexists. split.
           ++ apply served_of_fault.
              apply (fault_log_dumps R q w v); assumption.
           ++ apply wsgi_app_of_fault; [|reflexivity]. rewrite Hd.
              apply (log_unserializable_run R q w v); assumption.
        -- eexists. split.
           ++ apply served_of_fault.
              apply (fault_log_repr R q w v); assumption.
           ++ apply wsgi_app_of_fault; [|reflexivity]. rewrite Hd.
              apply (log_unprintable_run R q w v); assumption.
      * eexists. split; [apply served_log_placeholder; assumption|].
        apply wsgi_app_of_dispatch. rewrite Hd.
        apply log_placeholder_run; assumption.
    + eexists. split; [apply served_log_plain; assumption|].
      apply wsgi_app_of_dispatch. rewrite Hd.
      apply log_plain_run; assumption.
  - (* analyze_fraud *)
    apply match_exact in Hpat.
    assert (Hpost : method q = "POST").
    { apply String.eqb_neq in Hopt. cbn in Hmeth. rewrite Hopt in Hmeth.
      destruct (String.eqb_spec (method q) "POST"); [assumption|].
      discriminate Hmeth. }
    destruct (json_body R q) as [v|] eqn:Hbody.
    + destruct (String.eqb_spec (type_name v) "dict") as [Hty|Hty].
      * destruct v as [|b|z|f|s|xs|d]; try discriminate Hty.
        destruct (has_transaction (VDict d)) eqn:Htx.
        -- eexists. split; [eapply served_fraud_analysis; eassumption|].
           apply wsgi_app_of_dispatch. rewrite Hd.
           apply (fraud_analysis_run R q w (VDict d)); assumption.
        -- eexists. split; [eapply served_fraud_refused; eassumption|].
           apply wsgi_app_of_dispatch. rewrite Hd.
           apply (fraud_refused_run R q w d); assumption.
      * eexists. split.
        -- apply served_of_fault.
           apply (fault_fraud_not_object R q w v); assumption.
        -- apply wsgi_app_of_fault; [|reflexivity]. rewrite Hd.
           apply fraud_not_object_run; assumption.
    + pose proof (fraud_get_json_run R q w Hbody) as Hrun.
      unfold json_body in Hbody.
      destruct (is_json q) eqn:Hj;
        [destruct (json_loads R (data q)) as [v| |] eqn:Hl;
         [discriminate| |]|].
      * eexists. split; [apply served_fraud_undecodable; assumption|].
        apply (wsgi_app_of_page R cfg q w w); [rewrite Hd; exact Hrun|].
        left. reflexivity.
      * eexists. split.
        -- apply served_of_fault. apply fault_fraud_decoder; assumption.
        -- apply wsgi_app_of_fault; [|reflexivity]. rewrite Hd. exact Hrun.
      * eexists. split; [apply served_fraud_unsupported; assumption|].
        apply (wsgi_app_of_page R cfg q w w); [rewrite Hd; exact Hrun|].
        right. left. reflexivity.
  - (* get_recommendations *)
    apply match_exact in Hpat.
    destruct (truthy (of_option_str (args_get "userId" (args q)))) eqn:Hu.
    + destruct (args_get "userId" (args q)) as [u|] eqn:Ha; [|discriminate].
      eexists. split.
      * apply (served_recommendations R cfg q w u); try assumption.
        intros ->. discriminate Hu.
      * apply wsgi_app_of_dispatch. rewrite Hd.
        unfold get_recommendations. rewrite Ha, Hu. reflexivity.
    + eexists. split; [apply served_recommendations_refused; assumption|].
      apply wsgi_app_of_dispatch. rewrite Hd.
      unfold get_recommendations. rewrite Hu. reflexivity.
Qed.

Lemma wsgi_app_returns (R : Runtime) (cfg : Config) (q : Request)
  (w w' : World) (resp : Response) :
  wsgi_app R cfg q w = (Return resp, w') ->
  exists r, served R cfg q w (Return r, w') /\ resp = sent (method q) r.
Proof.
  intros Hrun. destruct (wsgi_app_served R cfg q w) as (out & Hs & Hd).
  rewrite Hd in Hrun. destruct out as [[r|e] w0]; cbn [deliver] in Hrun;
    [|discriminate Hrun].
  injection Hrun as <- <-. exists r. split; [exact Hs|reflexivity].
Qed.

Lemma wsgi_app_raises (R : Runtime) (cfg : Config) (q : Request)
  (w w' : World) (e : exn) :
  wsgi_app R cfg q w = (Raise e, w') -> served R cfg q w (Raise e, w').
Proof.
  intros Hrun. destruct (wsgi_app_served R cfg q w) as (out & Hs & Hd).
  rewrite Hd in Hrun. destruct out as [[r|e0] w0]; cbn [deliver] in Hrun;
    [discriminate Hrun|].
  injection Hrun as <- <-. exact Hs.
Qed.

(** What is sent has the status of the response, and its body or none. *)
Lemma sent_status (meth : string) (r : Response) :
  status_code (sent meth r) = status_code r.
Proof. unfold sent. destruct (bodiless meth (status_code r)); reflexivity. Qed.

Lemma sent_body (meth : string) (r : Response) :
  body (sent meth r) = body r \/ body (sent meth r) = Empty.
Proof.
  unfold sent. destruct (bodiless meth (status_code r)); [right|left];
    reflexivity.
Qed.

Lemma sent_json (meth : string) (r : Response) (v : value) :
  body (sent meth r) = Json v -> sent meth r = r.
Proof.
  unfold sent. destruct (bodiless meth (status_code r));
    [discriminate|reflexivity].
Qed.

(** Inverts the answer to a request that is known. *)
Ltac outcomes Hrun :=
  match type of Hrun with
  | wsgi_app ?R ?cfg ?q ?w = (Return ?resp, ?w') =>
      let r := fresh "r" in
      let Hs := fresh "Hserved" in
      destruct (wsgi_app_returns R cfg q w w' resp Hrun) as (r & Hs & ->);
      inversion Hs; subst; clear Hs
  | wsgi_app ?R ?cfg ?q ?w = (Raise ?e, ?w') =>
      let Hs := fresh "Hserved" in
      pose proof (wsgi_app_raises R cfg q w w' e Hrun) as Hs;
      inversion Hs; subst; clear Hs
  end.

End BehaviourFacts.

(** ** The [/log] endpoint *)

Module LogEndpoint.
Import Py Datetime Werkzeug Process App Spec Behaviour AppFacts
  BehaviourFacts.

Lemma undecoded_body (R : Runtime) (q : Request) :
  (forall v, json_loads R (data q) <> Decoded v) -> json_body R q = None.
Proof.
  intros H. unfold json_body. destruct (is_json q); [|reflexivity].
  destruct (json_loads R (data q)) as [v| |]; try reflexivity.
  contradiction (H v). reflexivity.
Qed.

Lemma decoded_body (R : Runtime) (q : Request) (v : value) :
  is_json q = true -> json_loads R (data q) = Decoded v ->
  json_body R q = Some v.
Proof. intros Hj Hl. unfold json_body. rewrite Hj, Hl. reflexivity. Qed.

(** C1, amended. A POST to [/log] whose body [json.loads] does not
    decode is answered by the view itself, which returns instead of
    raising; the response has status 200 and [request_details.body] is
    the string ["Could not parse JSON body"]. *)
Theorem log_post_undecodable (R : Runtime) (cfg : Config) (q : Request)
  (w : World) :
  method q = "POST" -> path q = "/log" ->
  (forall v, json_loads R (data q) <> Decoded v) ->
  exists resp w',
    log_request R q w = (Return resp, w')
    /\ wsgi_app R cfg q w = (Return resp, w')
    /\ status_code resp = 200%Z
    /\ request_details_field "body" resp
       = Some (VStr "Could not parse JSON body").
Proof.
  intros Hm Hp Hbody.
  pose proof (log_placeholder_run R q w Hm (undecoded_body R q Hbody))
    as Hview.
  eexists. eexists. split; [exact Hview|]. split; [|split; reflexivity].
  apply wsgi_app_of_view.
  - rewrite dispatch_log_post by assumption. exact Hview.
  - rewrite Hm. reflexivity.
Qed.

Lemma log_post_undecodable_witness :
  exists resp w',
    log_request Fixture.runtime
      (Fixture.post "/log" "application/json" "not json") Fixture.fresh
    = (Return resp, w')
    /\ wsgi_app Fixture.runtime Fixture.production
         (Fixture.post "/log" "application/json" "not json") Fixture.fresh
       = (Return resp, w')
    /\ status_code resp = 200%Z
    /\ request_details_field "body" resp
       = Some (VStr "Could not parse JSON body").
Proof.
  apply (log_post_undecodable Fixture.runtime Fixture.production
           (Fixture.post "/log" "application/json" "not json") Fixture.fresh);
    [reflexivity|reflexivity|].
  intros v H. vm_compute in H. discriminate H.
Defined.

(** C1 as stated fails: [NaN] is no JSON text, yet [json.loads] decodes
    it, so the body comes back as the float it denotes, not as the
    placeholder. *)
Lemma nan_is_echoed : ~ invalid_json_gets_placeholder Fixture.runtime.
Proof.
  intros H.
  destruct (H Fixture.production
              (Fixture.post "/log" "application/json" "NaN") Fixture.fresh
              eq_refl eq_refl eq_refl) as (resp & w' & Hrun & _ & Hb).
  vm_compute in Hrun. injection Hrun as <- _.
  vm_compute in Hb. discriminate Hb.
Qed.

(** What that POST of [NaN] gets. *)
Lemma nan_response :
  JsonText.valid_json "NaN" = false
  /\ exists resp w',
      wsgi_app Fixture.runtime Fixture.production
        (Fixture.post "/log" "application/json" "NaN") Fixture.fresh
      = (Return resp, w')
      /\ status_code resp = 200%Z
      /\ request_details_field "body" resp = Some (VFloat nan).
Proof.
  split; [reflexivity|]. eexists. eexists.
  split; [vm_compute; reflexivity|]. split; reflexivity.
Qed.

Lemma sent_field (k meth : string) (r : Response) (x : value) :
  request_details_field k (sent meth r) = Some x ->
  request_details_field k r = Some x.
Proof.
  unfold sent. destruct (bodiless meth (status_code r)); [discriminate|auto].
Qed.

(** Whatever [/log] answers, only a POST gets a [body] entry. *)
Lemma log_body_only_post (R : Runtime) (cfg : Config) (q : Request)
  (w w' : World) (resp : Response) :
  wsgi_app R cfg q w = (Return resp, w') ->
  is_Some (request_details_field "body" resp) ->
  method q = "POST".
Proof.
  intros Hrun [x Hx]. outcomes Hrun; apply sent_field in Hx;
    try discriminate Hx; assumption.
Qed.

(** C5, amended. On [/log], a POST whose mimetype is a JSON one, whose
    body [json.loads] decodes, and whose decoded value is nested
    shallowly enough for [repr] of the details and [json.dumps] of the
    response to stay within the recursion limit, gets status 200 and the
    decoded body, unchanged, under [request_details.body]; a GET gets
    status 200 and request details without a [body] entry; and no
    response to a request that is not a POST has such an entry. *)
Theorem log_echo (R : Runtime) (cfg : Config) (q : Request) (w : World) :
  path q = "/log" ->
  (forall v,
      method q = "POST" -> is_json q = true ->
      json_loads R (data q) = Decoded v ->
      depth v + 1 <= shallow + repr_room R ->
      depth v + 2 <= shallow + dumps_room R ->
      exists resp w',
        wsgi_app R cfg q w = (Return resp, w')
        /\ status_code resp = 200%Z
        /\ request_details_field "body" resp = Some v)
  /\ (method q = "GET" ->
      exists resp w' details,
        wsgi_app R cfg q w = (Return resp, w')
        /\ status_code resp = 200%Z
        /\ json_field "request_details" resp = Some (VDict details)
        /\ dict_get "body" details = None)
  /\ (forall resp w',
        wsgi_app R cfg q w = (Return resp, w') ->
        is_Some (request_details_field "body" resp) ->
        method q = "POST").
Proof.
  intros Hp. split; [|split].
  - intros v Hm Hjson Hbody Hr Hd.
    eexists. eexists. split.
    + apply wsgi_app_of_view.
      * rewrite dispatch_log_post by assumption.
        apply (log_body_run R q w v); try assumption.
        apply decoded_body; assumption.
      * rewrite Hm. reflexivity.
    + split; reflexivity.
  - intros Hm. eexists. eexists. eexists. split.
    + apply wsgi_app_of_view.
      * rewrite dispatch_log_get by assumption.
        apply log_plain_run. rewrite Hm. discriminate.
      * rewrite Hm. reflexivity.
    + repeat split; reflexivity.
  - intros resp w' Hrun Hsome.
    exact (log_body_only_post R cfg q w w' resp Hrun Hsome).
Qed.

Lemma log_echo_witness :
  exists resp w',
    wsgi_app Fixture.runtime Fixture.production
      (Fixture.post "/log" "application/json" Fixture.transaction_text)
      Fixture.fresh
    = (Return resp, w')
    /\ status_code resp = 200%Z
    /\ request_details_field "body" resp = Some Fixture.transaction_value.
Proof.
  destruct (log_echo Fixture.runtime Fixture.production
              (Fixture.post "/log" "application/json"
                 Fixture.transaction_text)
              Fixture.fresh eq_refl) as [Hecho _].
  apply Hecho; try reflexivity; vm_compute; lia.
Defined.

(** C5 as stated fails, in three ways.  A well-formed body sent as
    [text/plain] is answered with the placeholder.  With a JSON mimetype,
    the integer of 5000 digits is well-formed and [json.loads] refuses
    it, so the placeholder is the answer again.  And a body that is
    decoded can be nested too deeply for [json.dumps]: the view raises
    after the [try] block, and the answer is the 500 of the fault path. *)
Lemma log_echo_fails_as_stated :
  ~ echoes_wellformed_body Fixture.runtime (fun _ => True)
  /\ ~ echoes_wellformed_body Fixture.runtime (fun q => is_json q = true)
  /\ ~ echoes_wellformed_body Fixture.runtime
         (fun q => is_json q = true
                   /\ exists v,
                       json_loads Fixture.runtime (data q) = Decoded v).
Proof.
  split; [|split]; intros H.
  - destruct (H Fixture.production
                (Fixture.post "/log" "text/plain" "{}") Fixture.fresh
                eq_refl eq_refl eq_refl I)
      as (resp & w' & v & Hrun & Hl & Hb).
    vm_compute in Hrun. injection Hrun as <- _.
    vm_compute in Hl. injection Hl as <-.
    vm_compute in Hb. discriminate Hb.
  - destruct (H Fixture.production
                (Fixture.post "/log" "application/json"
                   Fixture.long_integer_text) Fixture.fresh
                eq_refl eq_refl)
      as (resp & w' & v & _ & Hl & _);
      [vm_compute; reflexivity|reflexivity|].
    vm_compute in Hl. discriminate Hl.
  - destruct (H Fixture.production
                (Fixture.post "/log" "application/json"
                   (Fixture.nested_text 10)) Fixture.fresh
                eq_refl eq_refl)
      as (resp & w' & v & Hrun & _ & Hb);
      [vm_compute; reflexivity
      |split; [reflexivity|eexists; vm_compute; reflexivity]|].
    vm_compute in Hrun. injection Hrun as <- _.
    vm_compute in Hb. discriminate Hb.
Qed.

(** What those three requests get. *)
Lemma text_plain_gets_placeholder :
  exists resp w',
    wsgi_app Fixture.runtime Fixture.production
      (Fixture.post "/log" "text/plain" "{}") Fixture.fresh
    = (Return resp, w')
    /\ status_code resp = 200%Z
    /\ request_details_field "body" resp = Some (VStr placeholder).
Proof.
  eexists. eexists. split; [vm_compute; reflexivity|]. split; reflexivity.
Qed.

Lemma long_integer_gets_placeholder :
  JsonText.valid_json Fixture.long_integer_text = true
  /\ exists resp w',
      wsgi_app Fixture.runtime Fixture.production
        (Fixture.post "/log" "application/json" Fixture.long_integer_text)
        Fixture.fresh
      = (Return resp, w')
      /\ status_code resp = 200%Z
      /\ request_details_field "body" resp = Some (VStr placeholder).
Proof.
  split; [vm_compute; reflexivity|]. eexists. eexists.
  split; [vm_compute; reflexivity|]. split; reflexivity.
Qed.

(** The deeply nested body is logged before the fault: with [app.debug]
    off three calls are made on loggers. *)
Lemma deep_body_is_a_fault :
  JsonText.valid_json (Fixture.nested_text 10) = true
  /\ json_body Fixture.runtime
       (Fixture.post "/log" "application/json" (Fixture.nested_text 10))
     = Some (Fixture.nested 10)
  /\ exists w',
      wsgi_app Fixture.runtime Fixture.production
        (Fixture.post "/log" "application/json" (Fixture.nested_text 10))
        Fixture.fresh
      = (Return (mkResponse 500 (Json internal_error_body)), w')
      /\ length (journal w') = 3.
Proof.
  split; [vm_compute; reflexivity|]. split; [vm_compute; reflexivity|].
  eexists. split; [vm_compute; reflexivity|]. reflexivity.
Qed.

End LogEndpoint.

(** ** Requests no route answers *)

Module NotFound.
Import Py Werkzeug Process App Spec Behaviour AppFacts RoutingFacts.

(** C6, amended. A request whose path fits the pattern of no registered
    route, as sent and after the router has merged its runs of slashes,
    makes the service log the warning ["404 Error: "] followed by the
    requested URL and answer with status 404; the body is
    [{"error": "Resource not found", "status_code": 404}], except that a
    HEAD request is sent the status without a body. *)
Theorem unmatched_path_is_not_found (R : Runtime) (cfg : Config)
  (q : Request) (w : World) :
  fits url_map (path q) = false ->
  fits url_map (merge_slashes (path q)) = false ->
  wsgi_app R cfg q w
  = (Return
       (if String.eqb (method q) "HEAD" then mkResponse 404 Empty
        else mkResponse 404
               (Json (VDict [("error", VStr "Resource not found");
                             ("status_code", VInt 404)]))),
     mkWorld (ticks w)
       (journal w ++
        [mkLogCall "cryptix_api" Logging.WARNING
           ("404 Error: " +:+ url q) None])).
Proof.
  intros H1 H2.
  rewrite (wsgi_app_routing_failure R cfg q w NotFound);
    [|apply url_match_unfit; assumption|constructor].
  unfold deliver, not_found_outcome, sent, bodiless. cbn [status_code].
  destruct (String.eqb (method q) "HEAD"); reflexivity.
Qed.

Lemma unmatched_path_is_not_found_witness :
  wsgi_app Fixture.runtime Fixture.production
    (Fixture.get "/nonexistent-route" []) Fixture.fresh
  = (Return (mkResponse 404
               (Json (VDict [("error", VStr "Resource not found");
                             ("status_code", VInt 404)]))),
     mkWorld 0
       [mkLogCall "cryptix_api" Logging.WARNING
          "404 Error: http://localhost:5000/nonexistent-route" None]).
Proof.
  apply (unmatched_path_is_not_found Fixture.runtime Fixture.production
           (Fixture.get "/nonexistent-route" []) Fixture.fresh);
    reflexivity.
Defined.

(** C6 as stated fails, in two ways.  [/fraud] is registered for POST
    only, so a GET of it matches no route, and the answer is 405 with
    Werkzeug's page, nothing being logged.  And a HEAD request for a
    path that no route has is answered 404, but sent no body. *)
Lemma not_found_fails_as_stated :
  ~ answered_not_found Fixture.runtime unrouted
  /\ ~ answered_not_found Fixture.runtime unfit.
Proof.
  split; intros H.
  - specialize (H Fixture.production (Fixture.get "/fraud" [])
                  Fixture.fresh eq_refl).
    vm_compute in H. discriminate H.
  - specialize (H Fixture.production (Fixture.head "/nonexistent-route")
                  Fixture.fresh (conj eq_refl eq_refl)).
    vm_compute in H. discriminate H.
Qed.

(** What that GET of [/fraud] and that HEAD get. *)
Lemma get_fraud_is_405 :
  wsgi_app Fixture.runtime Fixture.production (Fixture.get "/fraud" [])
    Fixture.fresh
  = (Return (mkResponse 405
               (ErrorPage (MethodNotAllowed {["POST"; "OPTIONS"]}))),
     Fixture.fresh).
Proof. vm_compute. reflexivity. Qed.

Lemma head_is_sent_no_body :
  wsgi_app Fixture.runtime Fixture.production
    (Fixture.head "/nonexistent-route") Fixture.fresh
  = (Return (mkResponse 404 Empty),
     mkWorld 0
       [mkLogCall "cryptix_api" Logging.WARNING
          "404 Error: http://localhost:5000/nonexistent-route" None]).
Proof. vm_compute. reflexivity. Qed.

(** A path with a run of slashes that fits a route once the run is
    merged is redirected, not answered 404. *)
Lemma merged_path_is_redirected :
  wsgi_app Fixture.runtime Fixture.production
    (Fixture.get "/static///x" []) Fixture.fresh
  = (Return (mkResponse 308 (ErrorPage (RequestRedirect "/static/x"))),
     Fixture.fresh).
Proof. vm_compute. reflexivity. Qed.

End NotFound.

(** ** The [/recommendations] endpoint *)

Module Recommendations.
Import Py Werkzeug Process App Spec AppFacts.

Lemma rejects_falsy_user_id (R : Runtime) (cfg : Config) (q : Request)
  (w : World) :
  method q = "GET" -> path q = "/recommendations" ->
  truthy (of_option_str (args_get "userId" (args q))) = false ->
  wsgi_app R cfg q w
  = (Return (mkResponse 400
               (Json (VDict [("error", VStr "User ID is required")]))),
     w).
Proof.
  intros Hm Hp Hfalsy. apply wsgi_app_of_view.
  - rewrite dispatch_recommendations_get by assumption.
    unfold get_recommendations. rewrite Hfalsy. reflexivity.
  - rewrite Hm. reflexivity.
Qed.

(** C3. A GET of [/recommendations] without a [userId] query parameter
    is answered with status 400 and the body
    [{"error": "User ID is required"}]; nothing is logged. *)
Theorem missing_user_id (R : Runtime) (cfg : Config) (q : Request)
  (w : World) :
  method q = "GET" -> path q = "/recommendations" ->
  args_get "userId" (args q) = None ->
  wsgi_app R cfg q w
  = (Return (mkResponse 400
               (Json (VDict [("error", VStr "User ID is required")]))),
     w).
Proof.
  intros Hm Hp Hnone. apply rejects_falsy_user_id; [assumption..|].
  rewrite Hnone. reflexivity.
Qed.

Lemma missing_user_id_witness :
  wsgi_app Fixture.runtime Fixture.production
    (Fixture.get "/recommendations" [("limit", "3")]) Fixture.fresh
  = (Return (mkResponse 400
               (Json (VDict [("error", VStr "User ID is required")]))),
     Fixture.fresh).
Proof.
  apply (missing_user_id Fixture.runtime Fixture.production
           (Fixture.get "/recommendations" [("limit", "3")]) Fixture.fresh);
    reflexivity.
Defined.

(** C10. A GET of [/recommendations] whose [userId] parameter is present
    and empty is answered like one without the parameter: status 400 and
    the body [{"error": "User ID is required"}]. *)
Theorem empty_user_id (R : Runtime) (cfg : Config) (q : Request)
  (w : World) :
  method q = "GET" -> path q = "/recommendations" ->
  args_get "userId" (args q) = Some "" ->
  wsgi_app R cfg q w
  = (Return (mkResponse 400
               (Json (VDict [("error", VStr "User ID is required")]))),
     w).
Proof.
  intros Hm Hp Hempty. apply rejects_falsy_user_id; [assumption..|].
  rewrite Hempty. reflexivity.
Qed.

Lemma empty_user_id_witness :
  wsgi_app Fixture.runtime Fixture.production
    (Fixture.get "/recommendations" [("userId", "")]) Fixture.fresh
  = (Return (mkResponse 400
               (Json (VDict [("error", VStr "User ID is required")]))),
     Fixture.fresh).
Proof.
  apply (empty_user_id Fixture.runtime Fixture.production
           (Fixture.get "/recommendations" [("userId", "")]) Fixture.fresh);
    reflexivity.
Defined.

End Recommendations.

(** ** The [/fraud] endpoint *)

Module Fraud.
Import Py Werkzeug Process App Spec Behaviour AppFacts BehaviourFacts.

(** A JSON object without a [transaction] entry, or with a falsy one, is
    refused with 400. *)
Lemma object_without_transaction (R : Runtime) (cfg : Config) (q : Request)
  (w : World) (d : dict) :
  method q = "POST" -> path q = "/fraud" ->
  json_body R q = Some (VDict d) ->
  has_transaction (VDict d) = false ->
  wsgi_app R cfg q w
  = (Return (mkResponse 400
               (Json (VDict [("error",
                              VStr "Transaction data is required")]))),
     w).
Proof.
  intros Hm Hp Hbody Hfalsy. apply wsgi_app_of_view.
  - rewrite dispatch_fraud_post by assumption.
    apply (fraud_refused_run R q w d); assumption.
  - rewrite Hm. reflexivity.
Qed.

(** C2 asks for status 400 and ["Transaction data is required"] whenever
    the JSON body has no [transaction] key.  The view does not give that
    for a body that is not an object: the JSON array [[]] has no such key,
    [data.get] raises [AttributeError] on it, and the answer is the 500 of
    the fault path. *)
Theorem array_body_is_not_refused :
  json_body Fixture.runtime (Fixture.post "/fraud" "application/json" "[]")
  = Some (VList [])
  /\ analyze_fraud Fixture.runtime
       (Fixture.post "/fraud" "application/json" "[]") Fixture.fresh
     = (Raise (AttributeError "'list' object has no attribute 'get'"),
        Fixture.fresh)
  /\ fst (wsgi_app Fixture.runtime Fixture.production
            (Fixture.post "/fraud" "application/json" "[]") Fixture.fresh)
     = Return (mkResponse 500 (Json internal_error_body)).
Proof. repeat split; vm_compute; reflexivity. Qed.

(** C9, amended. Two POSTs to [/fraud] with a JSON mimetype whose
    bodies [json.loads] decodes to objects with a [transaction] entry
    that is not falsy get the same response, whatever the transactions
    are: status 200 and the body
    [{"analysis": {"riskScore": 0.85, "isFraudulent": true}}]. *)
Theorem analysis_ignores_transaction (R : Runtime) (cfg : Config)
  (q1 q2 : Request) (w1 w2 : World) (v1 v2 : value) :
  method q1 = "POST" -> path q1 = "/fraud" ->
  method q2 = "POST" -> path q2 = "/fraud" ->
  json_body R q1 = Some v1 -> has_transaction v1 = true ->
  json_body R q2 = Some v2 -> has_transaction v2 = true ->
  fst (wsgi_app R cfg q1 w1) = fst (wsgi_app R cfg q2 w2)
  /\ fst (wsgi_app R cfg q1 w1)
     = Return
         (mkResponse 200
            (Json (VDict [("analysis",
                           VDict [("riskScore", VFloat 0.85);
                                  ("isFraudulent", VBool true)])]))).
Proof.
  assert (Hone : forall q w v,
             method q = "POST" -> path q = "/fraud" ->
             json_body R q = Some v -> has_transaction v = true ->
             fst (wsgi_app R cfg q w)
             = Return (mkResponse 200 (Json analysis_body))).
  { intros q w v Hm Hp Hbody Htx.
    erewrite wsgi_app_of_view; [reflexivity| |rewrite Hm; reflexivity].
    rewrite dispatch_fraud_post by assumption.
    apply (fraud_analysis_run R q w v); assumption. }
  intros Hm1 Hp1 Hm2 Hp2 Hb1 Ht1 Hb2 Ht2.
  rewrite (Hone q1 w1 v1), (Hone q2 w2 v2) by assumption.
  split; reflexivity.
Qed.

Lemma analysis_ignores_transaction_witness :
  fst (wsgi_app Fixture.runtime Fixture.production
         (Fixture.post "/fraud" "application/json" Fixture.transaction_text)
         Fixture.fresh)
  = fst (wsgi_app Fixture.runtime Fixture.production
           (Fixture.post "/fraud" "application/json"
              Fixture.other_transaction_text)
           (mkWorld 4 []))
  /\ fst (wsgi_app Fixture.runtime Fixture.production
            (Fixture.post "/fraud" "application/json"
               Fixture.transaction_text)
            Fixture.fresh)
     = Return
         (mkResponse 200
            (Json (VDict [("analysis",
                           VDict [("riskScore", VFloat 0.85);
                                  ("isFraudulent", VBool true)])]))).
Proof.
  apply (analysis_ignores_transaction Fixture.runtime Fixture.production
           (Fixture.post "/fraud" "application/json" Fixture.transaction_text)
           (Fixture.post "/fraud" "application/json"
              Fixture.other_transaction_text)
           Fixture.fresh (mkWorld 4 [])
           Fixture.transaction_value (VDict [("transaction", VInt 7)]));
    reflexivity.
Defined.

(** C9 as stated fails: the request of the example, sent as
    [text/plain], holds a transaction and is refused with 415 before the
    view looks at it.  And a body may hold a transaction nested so deeply
    that [json.loads] exhausts the recursion limit: the answer is the 500
    of the fault path. *)
Lemma analysis_fails_as_stated :
  ~ analysis_for_every_transaction Fixture.runtime
  /\ JsonText.valid_json Fixture.deep_transaction_text = true
  /\ wsgi_app Fixture.runtime Fixture.production
       (Fixture.post "/fraud" "application/json"
          Fixture.deep_transaction_text) Fixture.fresh
     = (Return (mkResponse 500 (Json internal_error_body)),
        logged Fixture.fresh
          (fault_calls
             (Fixture.post "/fraud" "application/json"
                Fixture.deep_transaction_text) RecursionError)).
Proof.
  split; [|split; vm_compute; reflexivity].
  intros H.
  specialize (H Fixture.production
                (Fixture.post "/fraud" "text/plain" Fixture.transaction_text)
                Fixture.fresh Fixture.transaction_value
                eq_refl eq_refl eq_refl eq_refl).
  vm_compute in H. discriminate H.
Qed.

(** What that [text/plain] request gets. *)
Lemma text_plain_is_unsupported (cfg : Config) :
  wsgi_app Fixture.runtime cfg
    (Fixture.post "/fraud" "text/plain" Fixture.transaction_text)
    Fixture.fresh
  = (Return (mkResponse 415 (ErrorPage UnsupportedMediaType)),
     Fixture.fresh).
Proof. destruct cfg as [[|]]; vm_compute; reflexivity. Qed.

End Fraud.

(** ** Faults *)

Module Faults.
Import Py Werkzeug Process App Spec Behaviour AppFacts BehaviourFacts.

(** With [app.debug] off, an exception of the view that is not an HTTP
    exception is logged by Flask and by the 500 handler, and answered
    with the JSON of the handler; the handler's log line is the generic
    description of [InternalServerError]. *)
Lemma production_fault (R : Runtime) (q : Request) (w w' : World)
  (e : exn) :
  dispatch_request R q w = (Raise e, w') -> code e = None ->
  wsgi_app R (mkConfig false) q w
  = (Return (sent (method q) (mkResponse 500 (Json internal_error_body))),
     mkWorld (ticks w')
       (journal w' ++
        [mkLogCall "app" Logging.ERROR
           ("Exception on " +:+ path q +:+ " [" +:+ method q +:+ "]")
           (Some e);
         mkLogCall "cryptix_api" Logging.ERROR
           ("500 Error: " +:+ str (InternalServerError (Some e))) None])).
Proof.
  intros Hrun Hcode.
  exact (wsgi_app_of_fault R (mkConfig false) q w w' e Hrun Hcode).
Qed.

(** With [app.debug] off, the application answers every request: no
    exception leaves it. *)
Lemma production_never_raises (R : Runtime) (q : Request) (w : World) :
  exists resp w', wsgi_app R (mkConfig false) q w = (Return resp, w').
Proof.
  destruct (wsgi_app R (mkConfig false) q w) as [[resp|e] w'] eqn:Hrun.
  - exists resp, w'. reflexivity.
  - outcomes Hrun. discriminate.
Qed.

(** With [app.debug] on, the same exception leaves the application. *)
Lemma debug_fault (R : Runtime) (q : Request) (w w' : World) (e : exn) :
  dispatch_request R q w = (Raise e, w') -> code e = None ->
  wsgi_app R main_config q w = (Raise e, w').
Proof.
  intros Hrun Hcode.
  exact (wsgi_app_of_fault R main_config q w w' e Hrun Hcode).
Qed.

(** C4 asks for the JSON of the 500 handler, and never a stack trace,
    whenever a view faults.  The service as [app.py] starts it does not
    give that: [app.run(debug=True)] makes Flask raise the fault again
    instead of calling the handler, so the POST of the JSON array [[]] to
    [/fraud] is answered by the debugger's traceback page, which shows
    the [AttributeError]; nothing is logged. *)
Theorem debug_server_shows_traceback :
  run Fixture.runtime (Fixture.post "/fraud" "application/json" "[]")
    Fixture.fresh
  = (mkResponse 500
       (Traceback (AttributeError "'list' object has no attribute 'get'")),
     Fixture.fresh).
Proof. vm_compute. reflexivity. Qed.

(** An HTTP exception of a view has no handler here unless it is a 404
    or a 500: malformed JSON sent to [/fraud] is answered with
    Werkzeug's page for 400, debug or not. *)
Lemma fraud_malformed_json_page (cfg : Config) :
  wsgi_app Fixture.runtime cfg
    (Fixture.post "/fraud" "application/json" "not json") Fixture.fresh
  = (Return (mkResponse 400 (ErrorPage BadRequest)), Fixture.fresh).
Proof. destruct cfg as [[|]]; vm_compute; reflexivity. Qed.

End Faults.

(** ** The [/health] endpoint *)

Module Health.
Import Py Datetime Werkzeug Process App Spec AppFacts DatetimeFacts.

Lemma steady_ret {A : Type} (a : A) : steady (ret a).
Proof. intros w. reflexivity. Qed.

Lemma steady_raise {A : Type} (e : exn) : steady (@raise A e).
Proof. intros w. reflexivity. Qed.

Lemma steady_now (R : Runtime) : steady (now R).
Proof. intros w. cbn. lia. Qed.

Lemma steady_log_call (c : LogCall) : steady (log_call c).
Proof. intros w. reflexivity. Qed.

Lemma steady_bind {A B : Type} (m : Py A) (f : A -> Py B) :
  steady m -> (forall a, steady (f a)) -> steady (bind m f).
Proof.
  intros Hm Hf w. unfold bind. specialize (Hm w).
  destruct (m w) as [[a|e] w1]; cbn [snd] in *.
  - specialize (Hf a w1). lia.
  - exact Hm.
Qed.

Lemma steady_try_except {A : Type} (m : Py A) (h : exn -> Py A) :
  steady m -> (forall e, steady (h e)) -> steady (try_except m h).
Proof.
  intros Hm Hh w. unfold try_except. specialize (Hm w).
  destruct (m w) as [[a|e] w1]; cbn [snd] in *.
  - exact Hm.
  - specialize (Hh e w1). lia.
Qed.

Ltac steady :=
  repeat first
    [ apply steady_ret | apply steady_raise | apply steady_now
    | apply steady_log_call
    | apply steady_bind; [|intros ?]
    | apply steady_try_except; [|intros ?]
    | case_match ].

Lemma steady_error_handler (R : Runtime) (q : Request) (e : exn)
  (h : Py Response) :
  find_error_handler R q e = Some h -> steady h.
Proof.
  unfold find_error_handler. intros H.
  destruct (code e) as [c|]; [|discriminate].
  destruct (decide (c = 404%Z)) as [->|H404].
  { injection H as <-. unfold not_found_error, logger_warning, jsonify.
    steady. }
  destruct (decide (c = 500%Z)) as [->|H500].
  { injection H as <-. unfold internal_error, logger_error, jsonify.
    steady. }
  exfalso. repeat case_match; try discriminate; lia.
Qed.

Lemma steady_handle_user_exception (R : Runtime) (q : Request) (e : exn) :
  steady (handle_user_exception R q e).
Proof.
  unfold handle_user_exception, handle_http_exception.
  destruct (code e); [|apply steady_raise].
  destruct (find_error_handler R q e) as [h|] eqn:Hh.
  - destruct e; try apply steady_ret;
      exact (steady_error_handler _ _ _ _ Hh).
  - destruct e; apply steady_ret.
Qed.

Lemma steady_handle_exception (R : Runtime) (cfg : Config) (q : Request)
  (e : exn) :
  steady (handle_exception R cfg q e).
Proof.
  unfold handle_exception. destruct (debug cfg); [apply steady_raise|].
  apply steady_bind; [apply steady_log_call|intros _].
  destruct (find_error_handler R q (InternalServerError (Some e)))
    as [h|] eqn:Hh.
  - exact (steady_error_handler _ _ _ _ Hh).
  - apply steady_ret.
Qed.

Lemma steady_wsgi_app (R : Runtime) (cfg : Config) (q : Request) :
  steady (wsgi_app R cfg q).
Proof.
  unfold wsgi_app, full_dispatch_request.
  apply steady_bind; [|intros r; apply steady_ret].
  apply steady_try_except.
  - apply steady_try_except.
    + unfold dispatch_request, view_functions, send_static_file, index,
        health_check, log_request, analyze_fraud, get_recommendations,
        get_json, method_get, logger_info, render, jsonify.
      steady.
    + apply steady_handle_user_exception.
  - apply steady_handle_exception.
Qed.

(** What a health check answers, and what it leaves behind. *)
Lemma health_check_run (R : Runtime) (cfg : Config) (q : Request)
  (w : World) :
  is_health_check q ->
  wsgi_app R cfg q w
  = (Return (health_response R (ticks w)),
     mkWorld (S (ticks w))
       (journal w ++
        [mkLogCall "cryptix_api" Logging.INFO
           "Health check endpoint accessed" None])).
Proof.
  intros [Hm Hp]. apply wsgi_app_of_view.
  - rewrite dispatch_health_get by assumption. reflexivity.
  - rewrite Hm. reflexivity.
Qed.

Lemma serve_all_cons (R : Runtime) (cfg : Config) (q : Request)
  (rest : list Request) (w : World) :
  fst (serve_all R cfg (q :: rest) w)
  = fst (wsgi_app R cfg q w)
    :: fst (serve_all R cfg rest (snd (wsgi_app R cfg q w))).
Proof.
  cbn [serve_all]. destruct (wsgi_app R cfg q w) as [r w1].
  cbn [fst snd]. destruct (serve_all R cfg rest w1). reflexivity.
Qed.

(** A health check among the requests reads the clock no earlier than
    the process stood when it began to serve them. *)
Lemma serve_all_health_at (R : Runtime) (cfg : Config)
  (requests : list Request) :
  forall (w : World) (j : nat) (q : Request),
    requests !! j = Some q -> is_health_check q ->
    exists t,
      ticks w <= t
      /\ fst (serve_all R cfg requests w) !! j
         = Some (Return (health_response R t)).
Proof.
  induction requests as [|q0 rest IH]; intros w j q Hj Hq; [discriminate|].
  rewrite serve_all_cons. destruct j as [|j]; cbn [lookup list_lookup] in *.
  - injection Hj as ->. exists (ticks w). split; [lia|].
    rewrite (health_check_run R cfg q w Hq). reflexivity.
  - destruct (IH (snd (wsgi_app R cfg q0 w)) j q Hj Hq) as (t & Ht & Hr).
    exists t. split; [|exact Hr].
    pose proof (steady_wsgi_app R cfg q0 w). lia.
Qed.

Lemma serve_all_health_pair (R : Runtime) (cfg : Config)
  (requests : list Request) :
  forall (w : World) (i j : nat) (qi qj : Request),
    i <= j -> requests !! i = Some qi -> requests !! j = Some qj ->
    is_health_check qi -> is_health_check qj ->
    exists ti tj,
      ti <= tj
      /\ fst (serve_all R cfg requests w) !! i
         = Some (Return (health_response R ti))
      /\ fst (serve_all R cfg requests w) !! j
         = Some (Return (health_response R tj)).
Proof.
  induction requests as [|q0 rest IH]; intros w i j qi qj Hij Hi Hj Hqi Hqj;
    [discriminate|].
  rewrite serve_all_cons.
  destruct i as [|i]; destruct j as [|j]; try lia;
    cbn [lookup list_lookup] in *.
  - injection Hi as ->. exists (ticks w), (ticks w).
    rewrite (health_check_run R cfg qi w Hqi). repeat split. lia.
  - injection Hi as ->. rewrite (health_check_run R cfg qi w Hqi).
    cbn [fst snd].
    edestruct (serve_all_health_at R cfg rest) as (t & Ht & Hr);
      [exact Hj|exact Hqj|].
    exists (ticks w), t. split; [|split; [reflexivity|exact Hr]].
    cbn [ticks] in Ht. lia.
  - apply (IH _ i j qi qj); [lia|assumption..].
Qed.

Lemma reported_time_health (R : Runtime) (t : nat) :
  clock_valid R -> reported_time (health_response R t) = Some (utcnow R t).
Proof.
  intros Hv. unfold reported_time, health_response. cbn.
  apply fromisoformat_isoformat, Hv.
Qed.

(** C7, amended. Every GET of [/health] reports the status ["healthy"]
    and a timestamp that reads back, as an ISO-8601 date and time, as
    the reading of the UTC clock it was written from; of two health
    checks served one after the other by a process, the later one takes
    a later reading of the clock or the same, so that it does not report
    an earlier time whenever the clock itself did not go back between
    its readings.  ([clock_valid] only says that the readings are
    datetimes.) *)
Theorem health_timestamps (R : Runtime) (cfg : Config)
  (requests : list Request) (w : World) (i j : nat) (qi qj : Request) :
  clock_valid R ->
  i <= j -> requests !! i = Some qi -> requests !! j = Some qj ->
  is_health_check qi -> is_health_check qj ->
  exists ri rj ti tj,
    fst (serve_all R cfg requests w) !! i = Some (Return ri)
    /\ fst (serve_all R cfg requests w) !! j = Some (Return rj)
    /\ json_field "status" ri = Some (VStr "healthy")
    /\ json_field "status" rj = Some (VStr "healthy")
    /\ reported_time ri = Some (utcnow R ti)
    /\ reported_time rj = Some (utcnow R tj)
    /\ ti <= tj
    /\ (clock_monotone R ->
        Datetime.leb (utcnow R ti) (utcnow R tj) = true).
Proof.
  intros Hvalid Hij Hi Hj Hqi Hqj.
  destruct (serve_all_health_pair R cfg requests w i j qi qj Hij Hi Hj Hqi Hqj)
    as (ti & tj & Ht & Hri & Hrj).
  exists (health_response R ti), (health_response R tj), ti, tj.
  repeat split; try assumption; try reflexivity.
  - apply reported_time_health, Hvalid.
  - apply reported_time_health, Hvalid.
  - intros Hmono. apply Hmono, Ht.
Qed.

Lemma clock_valid_fixture : clock_valid Fixture.runtime.
Proof.
  intros n. cbn [utcnow Fixture.runtime]. unfold Fixture.clock, valid.
  cbn [year month day hour minute second microsecond].
  assert (H : (0 <= Z.min 59 (Z.of_nat n) < 60)%Z) by lia.
  destruct H as [H1 H2]. apply Z.leb_le in H1. apply Z.ltb_lt in H2.
  rewrite H1, H2. reflexivity.
Qed.

Lemma clock_monotone_fixture : clock_monotone Fixture.runtime.
Proof.
  intros i j Hij. cbn [utcnow Fixture.runtime].
  unfold Fixture.clock, Datetime.leb, Datetime.compare.
  cbn [year month day hour minute second microsecond].
  rewrite !Z.compare_refl.
  destruct (Z.compare_spec (Z.min 59 (Z.of_nat i)) (Z.min 59 (Z.of_nat j)));
    [reflexivity..|lia].
Qed.

Lemma health_timestamps_witness :
  exists ri rj ti tj,
    fst (serve_all Fixture.runtime_stepped_back Fixture.production
           [Fixture.get "/health" []; Fixture.get "/log" [];
            Fixture.get "/health" []] Fixture.fresh) !! 0
    = Some (Return ri)
    /\ fst (serve_all Fixture.runtime_stepped_back Fixture.production
              [Fixture.get "/health" []; Fixture.get "/log" [];
               Fixture.get "/health" []] Fixture.fresh) !! 2
       = Some (Return rj)
    /\ json_field "status" ri = Some (VStr "healthy")
    /\ json_field "status" rj = Some (VStr "healthy")
    /\ reported_time ri = Some (utcnow Fixture.runtime_stepped_back ti)
    /\ reported_time rj = Some (utcnow Fixture.runtime_stepped_back tj)
    /\ ti <= tj
    /\ (clock_monotone Fixture.runtime_stepped_back ->
        Datetime.leb (utcnow Fixture.runtime_stepped_back ti)
          (utcnow Fixture.runtime_stepped_back tj) = true).
Proof.
  apply (health_timestamps Fixture.runtime_stepped_back Fixture.production
           [Fixture.get "/health" []; Fixture.get "/log" [];
            Fixture.get "/health" []] Fixture.fresh 0 2
           (Fixture.get "/health" []) (Fixture.get "/health" [])).
  - intros [|n]; reflexivity.
  - lia.
  - reflexivity.
  - reflexivity.
  - split; reflexivity.
  - split; reflexivity.
Defined.

(** C7 as stated fails: [datetime.utcnow()] reads the wall clock, and
    when that is set back between two health checks the second reports an
    earlier time than the first. *)
Lemma health_timestamps_follow_the_clock :
  ~ health_timestamps_never_decrease.
Proof.
  intros H.
  destruct (H Fixture.runtime_stepped_back Fixture.production
              [Fixture.get "/health" []; Fixture.get "/health" []]
              Fixture.fresh 0 1
              (Fixture.get "/health" []) (Fixture.get "/health" []))
    as (ri & rj & di & dj & Hri & Hrj & _ & _ & Hdi & Hdj & Hle).
  - intros [|n]; reflexivity.
  - lia.
  - reflexivity.
  - reflexivity.
  - split; reflexivity.
  - split; reflexivity.
  - vm_compute in Hri. injection Hri as <-.
    vm_compute in Hrj. injection Hrj as <-.
    vm_compute in Hdi. injection Hdi as <-.
    vm_compute in Hdj. injection Hdj as <-.
    vm_compute in Hle. discriminate Hle.
Qed.

End Health.

(** ** What every response has in common *)

Module Responses.
Import Py Datetime Werkzeug Process App Spec Behaviour AppFacts
  BehaviourFacts.

(** X1. Outside Flask's static route, the status of a response the
    application sends is one of 200, 308, 400, 404, 405, 415 and 500, and
    the kind of body goes with the status and the method: JSON only
    under 200, 400, 404 and 500, one of Werkzeug's pages only under 308,
    400, 405 and 415 and with the status of its exception, neither of
    them in answer to a HEAD; no body only in answer to a HEAD or as the
    200 of an OPTIONS; and never a file. *)
Theorem response_statuses (R : Runtime) (cfg : Config) (q : Request)
  (w w' : World) (resp : Response) :
  startswith (path q) "/static/" = false ->
  wsgi_app R cfg q w = (Return resp, w') ->
  In (status_code resp) [200; 308; 400; 404; 405; 415; 500]%Z
  /\ (forall v, body resp = Json v ->
        method q <> "HEAD" /\ In (status_code resp) [200; 400; 404; 500]%Z)
  /\ (forall e, body resp = ErrorPage e ->
        method q <> "HEAD" /\ code e = Some (status_code resp)
        /\ In (status_code resp) [308; 400; 405; 415]%Z)
  /\ (forall content, body resp <> FileContent content)
  /\ (body resp = Empty ->
        method q = "HEAD"
        \/ (method q = "OPTIONS" /\ status_code resp = 200%Z)).
Proof.
  intros Hout Hrun.
  outcomes Hrun; try congruence;
    unfold sent, bodiless; cbn [status_code get_response code
    from_option id not_found_outcome log_outcome json_response
    health_response required make_default_options_response];
    destruct (String.eqb_spec (method q) "HEAD") as [Hhead|Hhead];
    cbn;
    (split; [auto 12|]);
    (split; [intros ? Hb|split; [intros ? Hb|split; [intros ? Hb|intros Hb]]]);
    try discriminate Hb; try (injection Hb as <-); auto 12.
Qed.

Lemma response_statuses_witness :
  In 405%Z [200; 308; 400; 404; 405; 415; 500]%Z
  /\ (forall v, ErrorPage (MethodNotAllowed {["POST"; "OPTIONS"]}) = Json v ->
        "GET" <> "HEAD" /\ In 405%Z [200; 400; 404; 500]%Z)
  /\ (forall e, ErrorPage (MethodNotAllowed {["POST"; "OPTIONS"]})
                = ErrorPage e ->
        "GET" <> "HEAD" /\ code e = Some 405%Z
        /\ In 405%Z [308; 400; 405; 415]%Z)
  /\ (forall content,
        ErrorPage (MethodNotAllowed {["POST"; "OPTIONS"]})
        <> FileContent content)
  /\ (ErrorPage (MethodNotAllowed {["POST"; "OPTIONS"]}) = Empty ->
        "GET" = "HEAD" \/ ("GET" = "OPTIONS" /\ 405%Z = 200%Z)).
Proof.
  exact (response_statuses Fixture.runtime Fixture.production
           (Fixture.get "/fraud" []) Fixture.fresh Fixture.fresh
           (mkResponse 405
              (ErrorPage (MethodNotAllowed {["POST"; "OPTIONS"]})))
           eq_refl NotFound.get_fraud_is_405).
Defined.

(** X2. A JSON response that is not a 200 is an object with an [error]
    string; under 404 and 500 it also repeats the status as
    [status_code]; a JSON response under 200 has no [error] entry. *)
Theorem error_bodies (R : Runtime) (cfg : Config) (q : Request)
  (w w' : World) (resp : Response) (v : value) :
  wsgi_app R cfg q w = (Return resp, w') ->
  body resp = Json v ->
  if (status_code resp =? 200)%Z then json_field "error" resp = None
  else (exists what, json_field "error" resp = Some (VStr what))
       /\ (status_code resp = 400%Z
           \/ json_field "status_code" resp
              = Some (VInt (status_code resp))).
Proof.
  intros Hrun Hbody.
  outcomes Hrun; rewrite (sent_json _ _ _ Hbody) in Hbody |- *;
    try discriminate Hbody; cbn; eauto.
Qed.

Lemma error_bodies_witness :
  (exists what,
      json_field "error" (mkResponse 404 (Json not_found_body))
      = Some (VStr what))
  /\ (404%Z = 400%Z
      \/ json_field "status_code" (mkResponse 404 (Json not_found_body))
         = Some (VInt 404)).
Proof.
  apply (error_bodies Fixture.runtime Fixture.production
           (Fixture.get "/nonexistent-route" []) Fixture.fresh
           (snd (not_found_outcome (Fixture.get "/nonexistent-route" [])
                   Fixture.fresh))
           (mkResponse 404 (Json not_found_body)) not_found_body);
    reflexivity.
Defined.

(** X3. A request answered with status 200 and JSON has made exactly one
    call on the logger, at level INFO on the application's own logger. *)
Theorem success_logs_once (R : Runtime) (cfg : Config) (q : Request)
  (w w' : World) (resp : Response) (v : value) :
  wsgi_app R cfg q w = (Return resp, w') ->
  status_code resp = 200%Z -> body resp = Json v ->
  exists m, journal w' = journal w ++ [info m].
Proof.
  intros Hrun Hst Hbody.
  outcomes Hrun; pose proof (sent_json _ _ _ Hbody) as Hsent;
    rewrite Hsent in Hbody, Hst;
    try discriminate; eexists; reflexivity.
Qed.

Lemma success_logs_once_witness :
  exists m,
    journal (snd (wsgi_app Fixture.runtime Fixture.production
                    (Fixture.get "/recommendations" [("userId", "u1")])
                    Fixture.fresh))
    = journal Fixture.fresh ++ [info m].
Proof.
  apply (success_logs_once Fixture.runtime Fixture.production
           (Fixture.get "/recommendations" [("userId", "u1")])
           Fixture.fresh _ (json_response recommendations_body)
           recommendations_body);
    reflexivity.
Defined.

(** X4. A request answered with 308, 400, 405 or 415 leaves no trace:
    nothing is logged and the clock is not read. *)
Theorem refusals_leave_no_trace (R : Runtime) (cfg : Config) (q : Request)
  (w w' : World) (resp : Response) :
  wsgi_app R cfg q w = (Return resp, w') ->
  In (status_code resp) [308; 400; 405; 415]%Z ->
  w' = w.
Proof.
  intros Hrun Hst.
  outcomes Hrun; try reflexivity; rewrite sent_status in Hst;
    cbn in Hst; exfalso;
    repeat (destruct Hst as [Hst|Hst]; [discriminate Hst|]); exact Hst.
Qed.

Lemma refusals_leave_no_trace_witness :
  snd (wsgi_app Fixture.runtime Fixture.production
         (Fixture.post "/fraud" "application/json" "{}") (mkWorld 3 []))
  = mkWorld 3 [].
Proof.
  apply (refusals_leave_no_trace Fixture.runtime Fixture.production
           (Fixture.post "/fraud" "application/json" "{}") (mkWorld 3 []) _
           (required "Transaction data is required")).
  - reflexivity.
  - right. left. reflexivity.
Defined.

Lemma origin_of_fault (R : Runtime) (q : Request) (w w0 : World) (e : exn) :
  fault R q w e w0 -> fault_origin R q e.
Proof.
  intros Hf. destruct Hf; (split; [assumption|]); eauto 10.
Qed.

Lemma fault_of_origin (R : Runtime) (q : Request) (w : World) (e : exn) :
  fault_origin R q e -> exists w0, fault R q w e w0.
Proof.
  intros (Hm & [(Hp & Hj & Hl & ->)
               |[(Hp & v & Hb & Hty & ->)|(Hp & v & Hb & Hdeep & ->)]]).
  - eexists. apply fault_fraud_decoder; assumption.
  - eexists. apply fault_fraud_not_object; assumption.
  - destruct (le_lt_dec (depth v + 1) (shallow + repr_room R)) as [Hr|Hr].
    + eexists. apply (fault_log_dumps R q w v); try assumption.
      destruct Hdeep; [lia|assumption].
    + eexists. apply (fault_log_repr R q w v); assumption.
Qed.

(** The dispatch raises the exception of a fault. *)
Lemma fault_raised (R : Runtime) (q : Request) (w w0 : World) (e : exn) :
  fault R q w e w0 ->
  method q = "POST" /\ code e = None
  /\ dispatch_request R q w = (Raise e, w0).
Proof.
  intros Hf. destruct Hf as [Hp Hm Hj Hl|v Hp Hm Hb Hty|v Hp Hm Hb Hr
                            |v Hp Hm Hb Hr Hd];
    (split; [exact Hm|]); (split; [reflexivity|]).
  - rewrite dispatch_fraud_post by assumption.
    rewrite fraud_get_json_run by (unfold json_body; rewrite Hj, Hl;
                                   reflexivity).
    rewrite Hj, Hl. reflexivity.
  - rewrite dispatch_fraud_post by assumption.
    apply fraud_not_object_run; assumption.
  - rewrite dispatch_log_post by assumption.
    apply (log_unprintable_run R q w v); assumption.
  - rewrite dispatch_log_post by assumption.
    apply (log_unserializable_run R q w v); assumption.
Qed.

(** X5. A fault, be it an exception that leaves the application or a
    500 response, has one of three origins, all of them POSTs: to
    [/fraud] with a body on which [json.loads] exhausts the recursion
    limit, or with a decoded body that is not an object, on which
    [data.get] raises [AttributeError]; and to [/log] with a decoded body
    nested too deeply for [repr] or for [json.dumps].  The exception
    leaves the application exactly when [app.debug] is on, the 500 is
    answered exactly when it is off; and each of the origins does lead
    to the fault. *)
Theorem faults_have_three_origins (R : Runtime) (cfg : Config) (q : Request)
  (w : World) :
  (forall e w',
      wsgi_app R cfg q w = (Raise e, w') ->
      debug cfg = true /\ fault_origin R q e)
  /\ (forall resp w',
        wsgi_app R cfg q w = (Return resp, w') ->
        status_code resp = 500%Z ->
        debug cfg = false /\ exists e, fault_origin R q e)
  /\ (forall e,
        fault_origin R q e ->
        fst (wsgi_app R cfg q w)
        = if debug cfg then Raise e
          else Return (mkResponse 500
                         (Json (VDict [("error",
                                        VStr "Internal server error");
                                       ("status_code", VInt 500)])))).
Proof.
  split; [|split].
  - intros e w' Hrun. outcomes Hrun.
    split; [assumption|]. eapply origin_of_fault; eassumption.
  - intros resp w' Hrun Hst.
    outcomes Hrun; rewrite sent_status in Hst; try discriminate Hst;
      try match goal with
          | how : StaticStatus |- _ => destruct how; discriminate Hst
          end.
    split; [assumption|]. eexists. eapply origin_of_fault; eassumption.
  - intros e Ho. destruct (fault_of_origin R q w e Ho) as (w0 & Hf).
    destruct (fault_raised R q w w0 e Hf) as (Hm & Hcode & Hrun).
    rewrite (wsgi_app_of_fault R cfg q w w0 e Hrun Hcode).
    destruct (debug cfg); [reflexivity|].
    cbn [deliver fst]. rewrite sent_with_body by (rewrite Hm; reflexivity).
    reflexivity.
Qed.

Lemma faults_have_three_origins_witness :
  fst (wsgi_app Fixture.runtime Fixture.production
         (Fixture.post "/log" "application/json" (Fixture.nested_text 10))
         Fixture.fresh)
  = Return (mkResponse 500
              (Json (VDict [("error", VStr "Internal server error");
                            ("status_code", VInt 500)]))).
Proof.
  destruct (faults_have_three_origins Fixture.runtime Fixture.production
              (Fixture.post "/log" "application/json"
                 (Fixture.nested_text 10)) Fixture.fresh)
    as (_ & _ & Hfault).
  apply (Hfault RecursionError).
  split; [reflexivity|]. right. right. split; [reflexivity|].
  exists (Fixture.nested 10). split; [vm_compute; reflexivity|].
  split; [right; vm_compute; lia|reflexivity].
Defined.

Lemma footprint (R : Runtime) (cfg : Config) (q : Request) (w : World) :
  exists calls,
    journal (snd (wsgi_app R cfg q w)) = journal w ++ calls
    /\ length calls <= 3
    /\ ticks w <= ticks (snd (wsgi_app R cfg q w)) <= S (ticks w).
Proof.
  destruct (wsgi_app_served R cfg q w) as (out & Hs & ->).
  assert (Hsnd : forall o, snd (deliver q o) = snd o)
    by (intros [[r|e] w0]; reflexivity).
  rewrite Hsnd.
  destruct Hs;
    try match goal with H : fault _ _ _ _ _ |- _ => destruct H end;
    cbn [snd logged ticked ticks journal not_found_outcome log_outcome];
    try (exists []; rewrite app_nil_r; cbn; split; [reflexivity|lia]);
    try (eexists; split; [reflexivity|cbn; lia]);
    try (eexists; split; [rewrite <- app_assoc; reflexivity|cbn; lia]).
Qed.

(** X6. Serving a request only ever adds to the log, at most three
    calls, and reads the clock at most once. *)
Theorem request_footprint (R : Runtime) (cfg : Config) (q : Request)
  (w : World) :
  exists calls,
    journal (snd (wsgi_app R cfg q w)) = journal w ++ calls
    /\ length calls <= 3
    /\ ticks w <= ticks (snd (wsgi_app R cfg q w)) <= S (ticks w).
Proof. exact (footprint R cfg q w). Qed.

End Responses.

(** ** The log is written, never read *)

Module WriteOnly.
Import Py Datetime Werkzeug Process App Spec Behaviour BehaviourFacts.

Lemma blind_ret {A : Type} (a : A) : blind (ret a).
Proof. intros w1 w2 H. split; [reflexivity|exact H]. Qed.

Lemma blind_raise {A : Type} (e : exn) : blind (@raise A e).
Proof. intros w1 w2 H. split; [reflexivity|exact H]. Qed.

Lemma blind_now (R : Runtime) : blind (now R).
Proof. intros w1 w2 H. cbn. rewrite H. split; reflexivity. Qed.

Lemma blind_log_call (c : LogCall) : blind (log_call c).
Proof. intros w1 w2 H. split; [reflexivity|exact H]. Qed.

Lemma blind_bind {A B : Type} (m : Py A) (f : A -> Py B) :
  blind m -> (forall a, blind (f a)) -> blind (bind m f).
Proof.
  intros Hm Hf w1 w2 H. unfold bind. destruct (Hm w1 w2 H) as [Hr Ht].
  destruct (m w1) as [[a1|e1] u1], (m w2) as [[a2|e2] u2];
    cbn [fst snd] in *; try discriminate Hr.
  - injection Hr as ->. apply Hf, Ht.
  - injection Hr as ->. split; [reflexivity|exact Ht].
Qed.

Lemma blind_try_except {A : Type} (m : Py A) (h : exn -> Py A) :
  blind m -> (forall e, blind (h e)) -> blind (try_except m h).
Proof.
  intros Hm Hh w1 w2 H. unfold try_except. destruct (Hm w1 w2 H) as [Hr Ht].
  destruct (m w1) as [[a1|e1] u1], (m w2) as [[a2|e2] u2];
    cbn [fst snd] in *; try discriminate Hr.
  - injection Hr as ->. split; [reflexivity|exact Ht].
  - injection Hr as ->. apply Hh, Ht.
Qed.

Ltac blind :=
  repeat first
    [ apply blind_ret | apply blind_raise | apply blind_now
    | apply blind_log_call
    | apply blind_bind; [|intros ?]
    | apply blind_try_except; [|intros ?]
    | case_match ].

Lemma blind_error_handler (R : Runtime) (q : Request) (e : exn)
  (h : Py Response) :
  find_error_handler R q e = Some h -> blind h.
Proof.
  unfold find_error_handler. intros H.
  destruct (code e) as [c|]; [|discriminate].
  destruct (decide (c = 404%Z)) as [->|H404].
  { injection H as <-. unfold not_found_error, logger_warning, jsonify.
    blind. }
  destruct (decide (c = 500%Z)) as [->|H500].
  { injection H as <-. unfold internal_error, logger_error, jsonify.
    blind. }
  exfalso. repeat case_match; try discriminate; lia.
Qed.

Lemma blind_wsgi_app (R : Runtime) (cfg : Config) (q : Request) :
  blind (wsgi_app R cfg q).
Proof.
  unfold wsgi_app, full_dispatch_request.
  apply blind_bind; [|intros r; apply blind_ret].
  apply blind_try_except.
  - apply blind_try_except.
    + unfold dispatch_request, view_functions, send_static_file, index,
        health_check, log_request, analyze_fraud, get_recommendations,
        get_json, method_get, logger_info, render, jsonify.
      blind.
    + intros e. unfold handle_user_exception, handle_http_exception.
      destruct (code e); [|apply blind_raise].
      destruct (find_error_handler R q e) as [h|] eqn:Hh.
      * destruct e; try apply blind_ret;
          exact (blind_error_handler _ _ _ _ Hh).
      * destruct e; apply blind_ret.
  - intros e. unfold handle_exception.
    destruct (debug cfg); [apply blind_raise|].
    apply blind_bind; [apply blind_log_call|intros _].
    destruct (find_error_handler R q (InternalServerError (Some e)))
      as [h|] eqn:Hh.
    + exact (blind_error_handler _ _ _ _ Hh).
    + apply blind_ret.
Qed.

(** X7. The answer to a request does not depend on what has been logged
    before: two processes that have read the clock equally often give
    the same answer, whatever their logs hold. *)
Theorem answer_ignores_the_log (R : Runtime) (cfg : Config) (q : Request)
  (w1 w2 : World) :
  ticks w1 = ticks w2 ->
  fst (wsgi_app R cfg q w1) = fst (wsgi_app R cfg q w2).
Proof.
  intros H. exact (proj1 (blind_wsgi_app R cfg q w1 w2 H)).
Qed.

Lemma answer_ignores_the_log_witness :
  fst (wsgi_app Fixture.runtime Fixture.production (Fixture.get "/log" [])
         (mkWorld 2 []))
  = fst (wsgi_app Fixture.runtime Fixture.production (Fixture.get "/log" [])
           (mkWorld 2 [info "Health check endpoint accessed"])).
Proof.
  apply (answer_ignores_the_log Fixture.runtime Fixture.production
           (Fixture.get "/log" []) (mkWorld 2 [])
           (mkWorld 2 [info "Health check endpoint accessed"])).
  reflexivity.
Defined.

(** X8. Serving a request only adds calls to those made before, and
    every call it adds on the logger of [logger.py] is at INFO or above,
    so the logger hands the record to both of its handlers: the console
    and the log file. *)
Theorem log_calls_are_recorded (R : Runtime) (cfg : Config) (q : Request)
  (w : World) :
  exists calls,
    journal (snd (wsgi_app R cfg q w)) = journal w ++ calls
    /\ forall c,
        In c calls -> logger_name c = Logging.name Logging.logger ->
        forall (t : string) (s : Logging.Sinks),
          Logging.log Logging.logger
            (Logging.mkRecord (call_level c) t (msg c)) s
          = Logging.emit Logging.file_handler
              (Logging.mkRecord (call_level c) t (msg c))
              (Logging.emit Logging.console_handler
                 (Logging.mkRecord (call_level c) t (msg c)) s).
Proof.
  assert (Hlevel : forall calls,
             Forall (fun c => logger_name c = "cryptix_api" ->
                              (Logging.INFO <= call_level c)%Z) calls ->
             forall c, In c calls ->
               logger_name c = Logging.name Logging.logger ->
               forall t s,
                 Logging.log Logging.logger
                   (Logging.mkRecord (call_level c) t (msg c)) s
                 = Logging.emit Logging.file_handler
                     (Logging.mkRecord (call_level c) t (msg c))
                     (Logging.emit Logging.console_handler
                        (Logging.mkRecord (call_level c) t (msg c)) s)).
  { intros calls Hall c Hin Hname t s. apply LoggerPolicy.log_from_info.
    cbn [Logging.levelno].
    exact (proj1 (List.Forall_forall _ _) Hall c Hin Hname). }
  destruct (wsgi_app_served R cfg q w) as (out & Hs & ->).
  assert (Hsnd : forall o, snd (deliver q o) = snd o)
    by (intros [[r|e] w0]; reflexivity).
  rewrite Hsnd.
  destruct Hs;
    try match goal with H : fault _ _ _ _ _ |- _ => destruct H end;
    cbn [snd logged ticked ticks journal not_found_outcome log_outcome
         fault_calls];
    rewrite <- ?app_assoc;
    try (exists []; split; [symmetry; apply app_nil_r|];
         apply Hlevel; constructor);
    (eexists; split; [reflexivity|]; apply Hlevel;
     repeat constructor; cbv; (discriminate || congruence)).
Qed.

Lemma log_calls_are_recorded_witness :
  exists calls,
    journal (snd (wsgi_app Fixture.runtime Fixture.production
                    (Fixture.get "/health" [])
                    (mkWorld 1 [info "Health check endpoint accessed"])))
    = [info "Health check endpoint accessed"] ++ calls
    /\ forall c,
        In c calls -> logger_name c = Logging.name Logging.logger ->
        forall (t : string) (s : Logging.Sinks),
          Logging.log Logging.logger
            (Logging.mkRecord (call_level c) t (msg c)) s
          = Logging.emit Logging.file_handler
              (Logging.mkRecord (call_level c) t (msg c))
              (Logging.emit Logging.console_handler
                 (Logging.mkRecord (call_level c) t (msg c)) s).
Proof.
  exact (log_calls_are_recorded Fixture.runtime Fixture.production
           (Fixture.get "/health" [])
           (mkWorld 1 [info "Health check endpoint accessed"])).
Defined.

End WriteOnly.

(** ** The documentation served at [/] *)

Module Documentation.
Import Py Datetime Werkzeug Process App Spec Behaviour BehaviourFacts
  AppFacts.

Lemma documented_paths (p : string) (ms : list string) :
  documented_methods p = Some ms ->
  (p = "/" /\ ms = ["GET"]) \/ (p = "/health" /\ ms = ["GET"])
  \/ (p = "/log" /\ ms = ["GET"; "POST"]) \/ (p = "/fraud" /\ ms = ["POST"])
  \/ (p = "/recommendations" /\ ms = ["GET"]).
Proof.
  unfold documented_methods, api_docs. cbn [dict_get String.eqb Ascii.eqb
    Bool.eqb].
  destruct (String.eqb_spec p "/") as [->|_].
  { cbn. intros [= <-]. auto. }
  destruct (String.eqb_spec p "/health") as [->|_].
  { cbn. intros [= <-]. auto. }
  destruct (String.eqb_spec p "/log") as [->|_].
  { cbn. intros [= <-]. auto 6. }
  destruct (String.eqb_spec p "/fraud") as [->|_].
  { cbn. intros [= <-]. auto 6. }
  destruct (String.eqb_spec p "/recommendations") as [->|_].
  { cbn. intros [= <-]. auto 6. }
  discriminate.
Qed.

(** X9. The documentation [index] serves agrees with the routes
    [app.py] registers: apart from the HEAD and OPTIONS that the framework
    adds by itself, a method is documented for a path exactly when a
    request with that path and method is routed to one of the views of
    [app.py]. *)
Theorem documentation_matches_routes (p m : string) :
  m <> "HEAD" -> m <> "OPTIONS" ->
  (exists ms, documented_methods p = Some ms /\ In m ms)
  <-> (exists r a,
         url_match url_map p m = Matched r a /\ endpoint r <> "static").
Proof.
  intros Hhead Hopt. split.
  - intros (ms & Hdoc & Hin).
    destruct (documented_paths p ms Hdoc)
      as [[-> ->]|[[-> ->]|[[-> ->]|[[-> ->]|[-> ->]]]]];
      cbn [In] in Hin;
      repeat (destruct Hin as [<-|Hin];
              [eexists; eexists; split;
               [vm_compute; reflexivity|discriminate]|]);
      contradiction.
  - intros (r & a & Hmatch & Hview).
    destruct (url_match_cases url_map p m)
      as [(e & He & _)|(r' & a' & Hm & Hin & Hpat & Hmeth)];
      [congruence|].
    rewrite Hm in Hmatch. injection Hmatch as -> ->.
    apply String.eqb_neq in Hhead, Hopt.
    cbn [url_map In] in Hin.
    destruct Hin as [<-|[<-|[<-|[<-|[<-|[<-|[]]]]]]];
      cbn [route endpoint pattern methods] in *;
      try (exfalso; apply Hview; reflexivity);
      apply match_exact in Hpat; subst p;
      cbn in Hmeth; rewrite ?Hhead, ?Hopt in Hmeth;
      repeat match type of Hmeth with
             | context [String.eqb m ?x] =>
                 destruct (String.eqb_spec m x) as [->|_]
             end;
      try discriminate Hmeth;
      eexists; (split; [reflexivity|cbn; auto]).
Qed.

Lemma documentation_matches_routes_witness :
  (exists ms, documented_methods "/log" = Some ms /\ In "POST" ms)
  <-> (exists r a,
         url_match url_map "/log" "POST" = Matched r a
         /\ endpoint r <> "static").
Proof.
  apply (documentation_matches_routes "/log" "POST"); discriminate.
Defined.

(** A GET of [/] is answered with status 200 and that documentation;
    one INFO line is logged. *)
Lemma index_served_at_root (R : Runtime) (cfg : Config) (q : Request)
  (w : World) :
  method q = "GET" -> path q = "/" ->
  wsgi_app R cfg q w
  = (Return (mkResponse 200 (Json api_docs)),
     logged w [info "API documentation accessed"]).
Proof.
  intros Hm Hp. apply wsgi_app_of_view.
  - assert (Hd : dispatch_request R q = index R)
      by (route Hm Hp; reflexivity).
    rewrite Hd. reflexivity.
  - rewrite Hm. reflexivity.
Qed.

End Documentation.

(** ** More on the views *)

Module Views.
Import Py Datetime Werkzeug Process App Spec Behaviour BehaviourFacts
  AppFacts DatetimeFacts.

(** X10. A GET of [/recommendations] with a [userId] that is not empty is
    answered with status 200 and the two placeholder events, and one INFO
    line is logged; the [limit] parameter changes nothing, and a [limit]
    that is not an integer is no error. *)
Theorem recommendations_ignore_limit (R : Runtime) (cfg : Config)
  (q : Request) (w : World) (user_id : string) :
  method q = "GET" -> path q = "/recommendations" ->
  args_get "userId" (args q) = Some user_id -> user_id <> "" ->
  wsgi_app R cfg q w
  = (Return
       (mkResponse 200
          (Json (VDict [("recommendations",
                         VList [VDict [("eventId", VInt 1);
                                       ("eventName", VStr "Concert A")];
                                VDict [("eventId", VInt 2);
                                       ("eventName", VStr "Festival B")]])]))),
     logged w [info "Recommendations retrieved"]).
Proof.
  intros Hm Hp Hu Hne. apply wsgi_app_of_view.
  - rewrite dispatch_recommendations_get by assumption.
    unfold get_recommendations. rewrite Hu. cbn [of_option_str truthy].
    apply String.eqb_neq in Hne. rewrite Hne. reflexivity.
  - rewrite Hm. reflexivity.
Qed.

Lemma recommendations_ignore_limit_witness :
  wsgi_app Fixture.runtime Fixture.production
    (Fixture.get "/recommendations" [("userId", "u1"); ("limit", "many")])
    Fixture.fresh
  = (Return (mkResponse 200 (Json recommendations_body)),
     logged Fixture.fresh [info "Recommendations retrieved"]).
Proof.
  apply (recommendations_ignore_limit Fixture.runtime Fixture.production
           (Fixture.get "/recommendations"
              [("userId", "u1"); ("limit", "many")])
           Fixture.fresh "u1");
    [reflexivity..|discriminate].
Defined.

(** X11. A POST to [/fraud] that [request.get_json()] refuses is not
    answered by the view: a mimetype that is not JSON gets Werkzeug's page
    for 415, and a JSON mimetype with a body on which [json.loads] raises
    [ValueError] gets the page for 400; neither is logged, with
    [app.debug] on or off. *)
Theorem fraud_refused_by_get_json (R : Runtime) (cfg : Config)
  (q : Request) (w : World) :
  method q = "POST" -> path q = "/fraud" ->
  (is_json q = false ->
   wsgi_app R cfg q w
   = (Return (mkResponse 415 (ErrorPage UnsupportedMediaType)), w))
  /\ (is_json q = true -> json_loads R (data q) = Undecodable ->
      wsgi_app R cfg q w
      = (Return (mkResponse 400 (ErrorPage BadRequest)), w)).
Proof.
  intros Hm Hp.
  split.
  - intros Hj.
    rewrite (wsgi_app_of_page R cfg q w w UnsupportedMediaType).
    + cbn [deliver]. rewrite sent_with_body by (rewrite Hm; reflexivity).
      reflexivity.
    + rewrite dispatch_fraud_post by assumption.
      rewrite fraud_get_json_run
        by (unfold json_body; rewrite Hj; reflexivity).
      rewrite Hj. reflexivity.
    + right. left. reflexivity.
  - intros Hj Hl.
    rewrite (wsgi_app_of_page R cfg q w w BadRequest).
    + cbn [deliver]. rewrite sent_with_body by (rewrite Hm; reflexivity).
      reflexivity.
    + rewrite dispatch_fraud_post by assumption.
      rewrite fraud_get_json_run
        by (unfold json_body; rewrite Hj, Hl; reflexivity).
      rewrite Hj, Hl. reflexivity.
    + left. reflexivity.
Qed.

Lemma fraud_refused_by_get_json_witness :
  wsgi_app Fixture.runtime main_config
    (Fixture.post "/fraud" "application/json" "not json") Fixture.fresh
  = (Return (mkResponse 400 (ErrorPage BadRequest)), Fixture.fresh).
Proof.
  destruct (fraud_refused_by_get_json Fixture.runtime main_config
              (Fixture.post "/fraud" "application/json" "not json")
              Fixture.fresh eq_refl eq_refl) as [_ Hbad].
  apply Hbad; reflexivity.
Defined.

(** X12. A POST to [/fraud] whose JSON body is not an object makes
    [data.get] raise [AttributeError], whatever the body is: null, a
    boolean, a number, a string or an array.  With [app.debug] off the
    answer is the JSON 500 and two ERROR lines are logged, one by Flask
    with the exception and one by the 500 handler with the generic
    description; with [app.debug] on the exception leaves the
    application and nothing is logged. *)
Theorem fraud_body_must_be_object (R : Runtime) (cfg : Config)
  (q : Request) (w : World) (v : value) :
  method q = "POST" -> path q = "/fraud" ->
  json_body R q = Some v -> type_name v <> "dict" ->
  wsgi_app R cfg q w
  = let e := AttributeError
               ("'" +:+ type_name v +:+ "' object has no attribute 'get'") in
    if debug cfg then (Raise e, w)
    else (Return (mkResponse 500
                    (Json (VDict [("error", VStr "Internal server error");
                                  ("status_code", VInt 500)]))),
          logged w (fault_calls q e)).
Proof.
  intros Hm Hp Hbody Hty. cbv zeta.
  rewrite (wsgi_app_of_fault R cfg q w w (no_get v)); [| |reflexivity].
  - destruct (debug cfg); [reflexivity|].
    cbn [deliver]. rewrite sent_with_body by (rewrite Hm; reflexivity).
    reflexivity.
  - rewrite dispatch_fraud_post by assumption.
    apply fraud_not_object_run; assumption.
Qed.

Lemma fraud_body_must_be_object_witness :
  wsgi_app Fixture.runtime Fixture.production
    (Fixture.post "/fraud" "application/json" "null") Fixture.fresh
  = (Return (mkResponse 500 (Json internal_error_body)),
     logged Fixture.fresh
       (fault_calls (Fixture.post "/fraud" "application/json" "null")
          (AttributeError "'NoneType' object has no attribute 'get'"))).
Proof.
  apply (fraud_body_must_be_object Fixture.runtime Fixture.production
           (Fixture.post "/fraud" "application/json" "null") Fixture.fresh
           VNone);
    [reflexivity..|discriminate].
Defined.

(** X13. A POST to [/fraud] whose body [request.get_json()] returns as
    an object without a [transaction] entry, or with a falsy one, is
    refused with status 400 and the body
    [{"error": "Transaction data is required"}]; nothing is logged. *)
Theorem fraud_refuses_missing_transaction (R : Runtime) (cfg : Config)
  (q : Request) (w : World) (d : dict) :
  method q = "POST" -> path q = "/fraud" ->
  json_body R q = Some (VDict d) ->
  match dict_get "transaction" d with
  | Some t => truthy t = false
  | None => True
  end ->
  wsgi_app R cfg q w
  = (Return (mkResponse 400
               (Json (VDict [("error",
                              VStr "Transaction data is required")]))),
     w).
Proof.
  intros Hm Hp Hbody Htx.
  apply (Fraud.object_without_transaction R cfg q w d); try assumption.
  cbn [has_transaction]. destruct (dict_get "transaction" d); auto.
Qed.

Lemma fraud_refuses_missing_transaction_witness :
  wsgi_app Fixture.runtime Fixture.production
    (Fixture.post "/fraud" "application/json" "{}") Fixture.fresh
  = (Return (mkResponse 400
               (Json (VDict [("error",
                              VStr "Transaction data is required")]))),
     Fixture.fresh).
Proof.
  apply (fraud_refuses_missing_transaction Fixture.runtime
           Fixture.production
           (Fixture.post "/fraud" "application/json" "{}") Fixture.fresh []);
    [reflexivity..|exact I].
Defined.

End Views.

(** ** What [/log] reports *)

Module LogDetails.
Import Py Datetime Werkzeug Process App Spec Behaviour BehaviourFacts
  AppFacts DatetimeFacts.

Lemma dict_get_set (k k' : string) (v : value) (d : dict) :
  dict_get k (dict_set k' v d)
  = if String.eqb k k' then Some v else dict_get k d.
Proof.
  induction d as [|[k0 v0] d IH]; cbn [dict_set dict_get].
  - destruct (String.eqb k k'); reflexivity.
  - destruct (String.eqb_spec k' k0) as [->|Hne]; cbn [dict_get].
    + destruct (String.eqb k k0); reflexivity.
    + rewrite IH. destruct (String.eqb_spec k k0) as [->|Hne'].
      * apply not_eq_sym, String.eqb_neq in Hne. rewrite Hne. reflexivity.
      * reflexivity.
Qed.

Lemma dict_get_app (k : string) (a b : dict) :
  dict_get k (a ++ b)
  = match dict_get k a with Some v => Some v | None => dict_get k b end.
Proof.
  induction a as [|[k0 v0] a IH]; cbn [app dict_get]; [reflexivity|].
  destruct (String.eqb k k0); [reflexivity|exact IH].
Qed.

Lemma dict_get_fold (k : string) (kvs : list (string * value)) :
  forall d,
    dict_get k (fold_left (fun d kv => dict_set (fst kv) (snd kv) d) kvs d)
    = match dict_get k (rev kvs) with
      | Some v => Some v
      | None => dict_get k d
      end.
Proof.
  induction kvs as [|[k0 v0] kvs IH]; intros d; cbn [fold_left rev];
    [reflexivity|].
  rewrite IH, dict_get_app, dict_get_set. cbn [fst snd dict_get].
  destruct (dict_get k (rev kvs)); [reflexivity|].
  destruct (String.eqb k k0); reflexivity.
Qed.

Lemma dict_get_keyed (g : string -> value) (k : string)
  (l : list (string * string)) :
  dict_get k (rev (map (fun kv => (fst kv, g (fst kv))) l))
  = match args_get k l with
    | Some _ => Some (g k)
    | None => None
    end.
Proof.
  induction l as [|[k0 v0] l IH]; [reflexivity|].
  cbn [map rev args_get fst snd]. rewrite dict_get_app, IH.
  cbn [dict_get].
  destruct (String.eqb_spec k k0) as [->|Hne].
  - destruct (args_get k0 l); reflexivity.
  - destruct (args_get k l); reflexivity.
Qed.

(** In [dict(request.headers)] a name maps to its first value. *)
Lemma headers_dict (k : string) (hs : list (string * string)) :
  dict_get k (dict_of_headers hs) = VStr <$> header_value k hs.
Proof.
  unfold dict_of_headers, dict_of_pairs, header_value.
  rewrite dict_get_fold.
  rewrite (dict_get_keyed (fun k => of_option_str (args_get k hs))).
  destruct (args_get k hs); reflexivity.
Qed.

(** X14. A GET of [/log], and a POST of it whose body, when it is
    decoded, is nested shallowly enough for [repr] and [json.dumps], is
    answered with status 200 and the message
    ["Request logged successfully"]; the request details give the method,
    the URL and the remote address as they came, each header with the
    value of its first occurrence, and as timestamp the reading of the
    clock, which reads back from its ISO form. *)
Theorem log_reports_the_request (R : Runtime) (cfg : Config) (q : Request)
  (w : World) :
  path q = "/log" -> In (method q) ["GET"; "POST"] ->
  clock_valid R ->
  (forall v,
      method q = "POST" -> json_body R q = Some v ->
      depth v + 1 <= shallow + repr_room R
      /\ depth v + 2 <= shallow + dumps_room R) ->
  exists resp w' hs ts,
    wsgi_app R cfg q w = (Return resp, w')
    /\ status_code resp = 200%Z
    /\ json_field "message" resp = Some (VStr "Request logged successfully")
    /\ request_details_field "method" resp = Some (VStr (method q))
    /\ request_details_field "url" resp = Some (VStr (url q))
    /\ request_details_field "remote_addr" resp
       = Some (of_option_str (remote_addr q))
    /\ request_details_field "headers" resp = Some (VDict hs)
    /\ (forall k, dict_get k hs = VStr <$> header_value k (headers q))
    /\ request_details_field "timestamp" resp = Some (VStr ts)
    /\ fromisoformat ts = Some (utcnow R (ticks w)).
Proof.
  intros Hp Hm Hvalid Hshallow.
  assert (Hview : exists extra,
             dispatch_request R q w
             = log_outcome R (collected R q (ticks w) ++ extra) w
             /\ bodiless (method q) 200 = false).
  { cbn [In] in Hm. destruct Hm as [Hm|[Hm|[]]]; symmetry in Hm.
    - exists []. rewrite dispatch_log_get by assumption.
      rewrite app_nil_r. split; [|rewrite Hm; reflexivity].
      apply log_plain_run. rewrite Hm. discriminate.
    - rewrite dispatch_log_post by assumption.
      destruct (json_body R q) as [v|] eqn:Hbody.
      + exists [("body", v)]. split; [|rewrite Hm; reflexivity].
        destruct (Hshallow v Hm eq_refl).
        apply log_body_run; assumption.
      + exists [("body", VStr placeholder)].
        split; [|rewrite Hm; reflexivity].
        apply log_placeholder_run; assumption. }
  destruct Hview as (extra & Hrun & Hsent).
  eexists. eexists. eexists. eexists. split.
  { apply wsgi_app_of_view; [exact Hrun|exact Hsent]. }
  repeat split; try reflexivity.
  - intros k. apply headers_dict.
  - apply fromisoformat_isoformat, Hvalid.
Qed.

Lemma log_reports_the_request_witness :
  exists resp w' hs ts,
    wsgi_app Fixture.runtime Fixture.production
      (Fixture.post "/log" "application/json" "{}") Fixture.fresh
    = (Return resp, w')
    /\ status_code resp = 200%Z
    /\ json_field "message" resp = Some (VStr "Request logged successfully")
    /\ request_details_field "method" resp = Some (VStr "POST")
    /\ request_details_field "url" resp
       = Some (VStr "http://localhost:5000/log")
    /\ request_details_field "remote_addr" resp = Some (VStr "127.0.0.1")
    /\ request_details_field "headers" resp = Some (VDict hs)
    /\ (forall k,
          dict_get k hs
          = VStr <$> header_value k
                       [("Host", "localhost:5000");
                        ("Content-Type", "application/json")])
    /\ request_details_field "timestamp" resp = Some (VStr ts)
    /\ fromisoformat ts = Some (Fixture.clock 0).
Proof.
  apply (log_reports_the_request Fixture.runtime Fixture.production
           (Fixture.post "/log" "application/json" "{}") Fixture.fresh).
  - reflexivity.
  - right. left. reflexivity.
  - exact Health.clock_valid_fixture.
  - intros v _ Hbody. vm_compute in Hbody. injection Hbody as <-.
    vm_compute. lia.
Defined.

End LogDetails.

(** ** What reaches the sinks *)

Module SinkFacts.
Import Logging LoggingSpec LoggingFacts LoggerPolicy SinkSpec.

Lemma append_assoc (a b c : string) : (a +:+ b) +:+ c = a +:+ (b +:+ c).
Proof.
  induction a as [|x a IH]; [reflexivity|].
  change (String x ((a +:+ b) +:+ c) = String x (a +:+ (b +:+ c))).
  f_equal. exact IH.
Qed.

Lemma append_nil_r (a : string) : a +:+ "" = a.
Proof.
  induction a as [|x a IH]; [reflexivity|].
  change (String x (a +:+ "") = String x a). f_equal. exact IH.
Qed.

Lemma console_emit_file (r : LogRecord) (s : Sinks) :
  console (emit file_handler r s) = console s.
Proof.
  unfold emit, file_handler. cbn [kind console].
  destruct (shouldRollover 10485760 s r); [|reflexivity].
  reflexivity.
Qed.

Lemma log_enabled (r : LogRecord) (s : Sinks) :
  log logger r s
  = if enabled r then emit file_handler r (emit console_handler r s) else s.
Proof.
  unfold enabled. destruct (Z.leb_spec INFO (levelno r)).
  - apply log_from_info. assumption.
  - apply log_below_info. assumption.
Qed.

Lemma log_all_cons (r : LogRecord) (rs : list LogRecord) (s : Sinks) :
  log_all logger (r :: rs) s = log_all logger rs (log logger r s).
Proof. reflexivity. Qed.

(** X15. Both sinks receive the lines of the records at INFO or above, in
    the order of the calls: the console always, and the log file, after
    what it held before, as long as it stays below the limit of 10 MiB
    with them, in which case no file is rotated. *)
Theorem sinks_receive_the_lines (rs : list LogRecord) :
  forall s : Sinks,
    console (log_all logger rs s) = console s +:+ text (List.filter enabled rs)
    /\ ((tell s + Z.of_nat (String.length (text (List.filter enabled rs)))
         < 10485760)%Z ->
        active (log_all logger rs s)
        = active s +:+ text (List.filter enabled rs)
        /\ rotated (log_all logger rs s) = rotated s).
Proof.
  induction rs as [|r rs IH]; intros s.
  { cbn. rewrite !append_nil_r. auto. }
  rewrite log_all_cons, log_enabled.
  cbn [List.filter].
  destruct (enabled r); [|apply IH].
  destruct (IH (emit file_handler r (emit console_handler r s)))
    as [Hconsole Hfile].
  cbn [text]. split.
  - rewrite Hconsole, console_emit_file. cbn [emit console_handler kind console].
    fold (line r). apply append_assoc.
  - intros Hroom. rewrite length_append in Hroom.
    assert (Hbelow : (tell (emit console_handler r s) + line_length r
                      < 10485760)%Z).
    { unfold tell, line_length in *. cbn [emit console_handler kind active].
      lia. }
    rewrite (file_emit_below r _ Hbelow) in *.
    cbn [emit console_handler kind console active rotated] in *.
    destruct Hfile as [Hactive Hrotated].
    + unfold tell in *. cbn [active]. rewrite length_append.
      unfold line_length in Hbelow. cbn [emit console_handler kind active] in Hbelow.
      lia.
    + rewrite Hactive, Hrotated. split; [apply append_assoc|reflexivity].
Qed.

Lemma sinks_receive_the_lines_witness :
  console (log_all logger [debug_record; info_record] full_sinks)
  = "12:00:01,000 - INFO - Health check endpoint accessed" +:+ terminator
  /\ active (log_all logger [debug_record; info_record] full_sinks)
     = "newest12:00:01,000 - INFO - Health check endpoint accessed"
       +:+ terminator
  /\ rotated (log_all logger [debug_record; info_record] full_sinks)
     = rotated full_sinks.
Proof.
  destruct (sinks_receive_the_lines [debug_record; info_record] full_sinks)
    as [Hconsole Hfile].
  split; [exact Hconsole|]. apply Hfile. vm_compute. reflexivity.
Defined.

Lemma files_rolled (s : Sinks) (o1 o2 o3 o4 o5 : option string) :
  rotated s !! 1 = o1 -> rotated s !! 2 = o2 -> rotated s !! 3 = o3 ->
  rotated s !! 4 = o4 -> rotated s !! 5 = o5 ->
  files (doRollover 5 s)
  = omap id [match o4 with Some f => Some f | None => o5 end; o3; o2; o1]
    ++ [active s; ""].
Proof.
  intros H1 H2 H3 H4 H5. unfold files.
  rewrite doRollover_rotated. unfold renamed. cbn [seq rev app fold_left].
  cbn [omap list_omap doRollover active]. rewrite lookup_insert_eq.
  rewrite !lookup_insert_ne by lia. rewrite !shift_lookup.
  rewrite ?H1, ?H2, ?H3, ?H4, ?H5.
  destruct o1, o2, o3, o4, o5; cbn; reflexivity.
Qed.

(** X16. Rolling over keeps every log file that exists and their order
    from oldest to newest, with one exception: what [api.log.5] held is
    dropped when there is an [api.log.4] to take its place.  The file
    that was active becomes the newest backup and a new, empty active
    file follows it. *)
Theorem rollover_keeps_the_files (s : Sinks) :
  files (doRollover 5 s)
  = (if bool_decide (is_Some (rotated s !! 4) /\ is_Some (rotated s !! 5))
     then tail (files s) else files s)
    ++ [""].
Proof.
  rewrite (files_rolled s _ _ _ _ _ eq_refl eq_refl eq_refl eq_refl eq_refl).
  unfold files. cbn [omap list_omap].
  destruct (rotated s !! 1), (rotated s !! 2), (rotated s !! 3),
    (rotated s !! 4) as [f4|], (rotated s !! 5) as [f5|];
    cbn; try reflexivity.
Qed.

End SinkFacts.

(** ** Requests in sequence, and where the answers of [/fraud] come from *)

Module Sessions.
Import Py Datetime Werkzeug Process App Spec Behaviour AppFacts
  BehaviourFacts Responses.

(** X17. A process that serves requests one after the other answers each
    of them (or lets its exception out), only ever adds to the log, at
    most three calls per request, and reads the clock at most once per
    request. *)
Theorem serving_adds_up (R : Runtime) (cfg : Config)
  (requests : list Request) :
  forall w : World,
    exists calls,
      length (fst (serve_all R cfg requests w)) = length requests
      /\ journal (snd (serve_all R cfg requests w)) = journal w ++ calls
      /\ length calls <= 3 * length requests
      /\ ticks w <= ticks (snd (serve_all R cfg requests w))
         <= ticks w + length requests.
Proof.
  induction requests as [|q rest IH]; intros w.
  { exists []. cbn. rewrite app_nil_r. repeat split; lia. }
  cbn [serve_all].
  destruct (footprint R cfg q w) as (c1 & Hj1 & Hl1 & Ht1).
  destruct (wsgi_app R cfg q w) as [r w1]. cbn [snd] in *.
  destruct (IH w1) as (c2 & Hn & Hj2 & Hl2 & Ht2).
  destruct (serve_all R cfg rest w1) as [rs w2]. cbn [fst snd length] in *.
  exists (c1 ++ c2). rewrite Hj2, Hj1, <- app_assoc, length_app.
  repeat split; try reflexivity; lia.
Qed.

(** X18. The two JSON answers of [/fraud] are given for nothing else than
    what the view tests: the analysis only to a POST of [/fraud] whose
    JSON body is an object with a [transaction] entry that is not falsy,
    and ["Transaction data is required"] only to a POST of [/fraud] whose
    JSON body is an object without such an entry. *)
Theorem fraud_answers_only_to_objects (R : Runtime) (cfg : Config)
  (q : Request) (w w' : World) (resp : Response) :
  wsgi_app R cfg q w = (Return resp, w') ->
  (json_field "analysis" resp <> None
   \/ json_field "error" resp = Some (VStr "Transaction data is required")) ->
  path q = "/fraud" /\ method q = "POST"
  /\ exists d,
      json_body R q = Some (VDict d)
      /\ has_transaction (VDict d)
         = (status_code resp =? 200)%Z.
Proof.
  intros Hrun Hbody.
  destruct (wsgi_app_returns R cfg q w w' resp Hrun) as (r & Hs & ->).
  assert (Hjson : exists v, body (sent (method q) r) = Json v).
  { unfold json_field in Hbody.
    destruct (body (sent (method q) r)) as [v| | | |];
      try (eexists; reflexivity);
      destruct Hbody as [Hbody|Hbody]; try discriminate Hbody;
      contradiction Hbody; reflexivity. }
  destruct Hjson as (v & Hjson).
  rewrite (sent_json _ _ _ Hjson) in Hbody |- *. clear Hjson v.
  inversion Hs; subst; clear Hs;
    try (destruct Hbody as [Hbody|Hbody];
         [exfalso; apply Hbody; reflexivity|discriminate Hbody]);
    repeat split; try assumption; eexists; split; eassumption.
Qed.

Lemma fraud_answers_only_to_objects_witness :
  path (Fixture.post "/fraud" "application/json" "{}") = "/fraud"
  /\ method (Fixture.post "/fraud" "application/json" "{}") = "POST"
  /\ exists d,
      json_body Fixture.runtime
        (Fixture.post "/fraud" "application/json" "{}") = Some (VDict d)
      /\ has_transaction (VDict d) = false.
Proof.
  apply (fraud_answers_only_to_objects Fixture.runtime Fixture.production
           (Fixture.post "/fraud" "application/json" "{}") Fixture.fresh
           Fixture.fresh (required "Transaction data is required")).
  - reflexivity.
  - right. reflexivity.
Defined.

End Sessions.
